(** * housing.py: the [FeatureExtracter] preprocessing pipeline

    A shallow embedding of [src/housing.py].  The class works on pandas
    objects, so the file first fixes a small model of the pandas operations the
    class calls (pandas 2.x behaviour), then transcribes the class method by
    method, and finally proves the properties of the pipeline.

    Conventions of the pandas model.
    - A cell is missing ([NaN]), a number, a string or a boolean.  Numbers are
      integers: the pipeline never computes with fractions, it only tests
      missingness and equality with [0]; a [float64] column is a column of
      dtype [DFloat] whose cells are numbers or [NaN].
    - A [DataFrame] is an index (row-ids) and an ordered list of labelled
      columns.  Column labels are meant to be distinct.
    - DataFrames are objects: a [world] maps references to DataFrames, and a
      method receives a reference.  [X[col] = ...] mutates the object behind
      the reference; [X.copy()] and [X.drop(...)] create a new object.
    - A Python exception ends the call and leaves the mutations made so far
      in place. *)

From Stdlib Require Import ZArith List String Ascii Bool Lia Sorted Permutation.
From Stdlib Require Import DecimalString DecimalZ.
From stdpp Require Import base option list gmap.

Local Open Scope string_scope.
Local Open Scope Z_scope.
Local Open Scope list_scope.

(** ** Values, columns, tables *)

Inductive value : Type :=
  | NaN
  | Num (z : Z)
  | Str (s : string)
  | Bool (b : bool).

Inductive dtype : Type :=
  | DInt
  | DFloat
  | DBool
  | DObject
  | DCategory (categories : list value)
  | DDatetime.

Record Series : Type := mkSeries { dtype_of : dtype; cells : list value }.

Record DataFrame : Type := mkFrame {
  index : list Z;
  columns : list (string * Series)
}.

Definition value_eqb (a b : value) : bool :=
  match a, b with
  | NaN, NaN => true
  | Num x, Num y => Z.eqb x y
  | Str s, Str t => String.eqb s t
  | Bool x, Bool y => Bool.eqb x y
  | _, _ => false
  end.

(** Python's [==] on cells: a missing cell equals nothing, [True == 1] and
    [False == 0]. *)
Definition as_number (v : value) : option Z :=
  match v with
  | Num z => Some z
  | Bool true => Some 1
  | Bool false => Some 0
  | _ => None
  end.

Definition py_eq (a b : value) : bool :=
  match a, b with
  | Str s, Str t => String.eqb s t
  | _, _ =>
      match as_number a, as_number b with
      | Some x, Some y => Z.eqb x y
      | _, _ => false
      end
  end.

(** Python's [<].  [None] stands for the [TypeError] of comparing a string
    with a number; comparisons with a missing cell are false. *)
Definition py_lt (a b : value) : option bool :=
  match a, b with
  | Str s, Str t => Some (String.ltb s t)
  | Str _, _ | _, Str _ => None
  | _, _ =>
      match as_number a, as_number b with
      | Some x, Some y => Some (Z.ltb x y)
      | _, _ => Some false
      end
  end.

Definition isna (v : value) : bool :=
  match v with NaN => true | _ => false end.

(** ** Exceptions and the state-and-exception monad *)

Definition loc := nat.

Inductive exn : Type :=
  | KeyError (labels : list string)
  | TypeError_new_category (v : value)
  | TypeError_not_comparable
  | ValueError_time_data (s : string)
  | ValueError_year_out_of_range (y : Z)
  | OutOfBoundsDatetime (s : string)
  | ValueError_NaNs (ids : list Z) (cols : list string)
  | Unbound (x : loc).

Inductive res (A : Type) : Type :=
  | Ok (a : A)
  | Raise (e : exn).
Arguments Ok {A} a.
Arguments Raise {A} e.

(** [prog S A]: a computation over a state [S] that returns an [A] or raises;
    the state reached is kept in both cases. *)
Definition prog (S A : Type) : Type := S -> S * res A.

Definition ret {S A} (a : A) : prog S A := fun s => (s, Ok a).
Definition raise {S A} (e : exn) : prog S A := fun s => (s, Raise e).
Definition bind {S A B} (m : prog S A) (k : A -> prog S B) : prog S B :=
  fun s =>
    match m s with
    | (s', Ok a) => k a s'
    | (s', Raise e) => (s', Raise e)
    end.
Definition gets {S A} (f : S -> A) : prog S A := fun s => (s, Ok (f s)).
Definition modify {S} (f : S -> S) : prog S unit := fun s => (f s, Ok tt).
Definition lift {S A} (r : res A) : prog S A := fun s => (s, r).

Declare Scope prog_scope.
Delimit Scope prog_scope with prog.
Notation "x <- m ;; k" := (bind m (fun x => k))
  (at level 100, m at next level, right associativity) : prog_scope.
Notation "m ;; k" := (bind m (fun _ => k))
  (at level 100, right associativity) : prog_scope.
Local Open Scope prog_scope.

(** [for x in l: body(x)] *)
Fixpoint for_each {S A} (l : list A) (body : A -> prog S unit) : prog S unit :=
  match l with
  | [] => ret tt
  | a :: l' => body a ;; for_each l' body
  end.

(** [[f(x) for x in l]] *)
Fixpoint list_comp {S A B} (l : list A) (f : A -> prog S B) : prog S (list B) :=
  match l with
  | [] => ret []
  | a :: l' => b <- f a ;; bs <- list_comp l' f ;; ret (b :: bs)
  end.

(** ** The pandas operations used by the class *)

Module pd.

(** *** Columns by label *)

Definition labels (T : DataFrame) : list string := map fst (columns T).

Fixpoint assoc (col : string) (l : list (string * Series)) : option Series :=
  match l with
  | [] => None
  | (k, s) :: l' => if String.eqb col k then Some s else assoc col l'
  end.

(** Assignment to a column: an existing label keeps its position, a new label
    is appended. *)
Fixpoint assoc_set (col : string) (s : Series) (l : list (string * Series))
  : list (string * Series) :=
  match l with
  | [] => [(col, s)]
  | (k, s') :: l' =>
      if String.eqb col k then (k, s) :: l' else (k, s') :: assoc_set col s l'
  end.

Definition missing_labels (cols : list string) (T : DataFrame) : list string :=
  List.filter (fun c => negb (existsb (String.eqb c) (labels T))) cols.

(** [X[col]] *)
Definition getitem (col : string) : prog DataFrame Series :=
  fun T =>
    match assoc col (columns T) with
    | Some s => (T, Ok s)
    | None => (T, Raise (KeyError [col]))
    end.

(** [X[col] = s] *)
Definition setitem (col : string) (s : Series) : prog DataFrame unit :=
  modify (fun T => mkFrame (index T) (assoc_set col s (columns T))).

(** [X[cols]] with a list of labels: every label must exist. *)
Definition getitems (cols : list string) : prog DataFrame (list Series) :=
  fun T =>
    match missing_labels cols T with
    | [] => (T, Ok (omap (fun c => assoc c (columns T)) cols))
    | miss => (T, Raise (KeyError miss))
    end.

(** [X[cols] = frame]: the columns of [frame] are assigned in order. *)
Definition setitems (cols : list string) (ss : list Series) : prog DataFrame unit :=
  for_each (combine cols ss) (fun '(c, s) => setitem c s).

(** [X.drop(columns=cols)]: a new table; every label must exist. *)
Definition drop (cols : list string) : prog DataFrame DataFrame :=
  fun T =>
    match missing_labels cols T with
    | [] =>
        (T, Ok (mkFrame (index T)
                  (List.filter (fun '(k, _) => negb (existsb (String.eqb k) cols))
                     (columns T))))
    | miss => (T, Raise (KeyError miss))
    end.

(** *** Series operations *)

(** [unique()]: the distinct values in order of first appearance. *)
Definition same_key (a b : value) : bool :=
  match a, b with
  | NaN, NaN => true
  | _, _ => py_eq a b
  end.

Fixpoint unique_from (seen : list value) (l : list value) : list value :=
  match l with
  | [] => []
  | v :: l' =>
      if existsb (same_key v) seen then unique_from seen l'
      else v :: unique_from (v :: seen) l'
  end.

Definition unique (s : Series) : list value := unique_from [] (cells s).

(** [sorted(l)]: a stable sort with [<]; [TypeError] when the list mixes
    strings with other values. *)
Definition comparable (a b : value) : bool :=
  match py_lt a b with Some _ => true | None => false end.

Definition lt_true (a b : value) : bool :=
  match py_lt a b with Some true => true | _ => false end.

Fixpoint insert_sorted (x : value) (l : list value) : list value :=
  match l with
  | [] => [x]
  | y :: l' => if lt_true y x then y :: insert_sorted x l' else x :: y :: l'
  end.

Fixpoint homogeneous (l : list value) : bool :=
  match l with
  | [] => true
  | x :: l' => forallb (comparable x) l' && homogeneous l'
  end.

Definition sorted (l : list value) : res (list value) :=
  if homogeneous l then Ok (fold_right insert_sorted [] l)
  else Raise TypeError_not_comparable.

(** The order pandas gives to values that cannot all be compared: the
    values that are not strings, sorted, before the strings, sorted. *)
Definition is_str (v : value) : bool :=
  match v with Str _ => true | _ => false end.

Definition sort_mixed (l : list value) : list value :=
  fold_right insert_sorted [] (List.filter (fun v => negb (is_str v)) l)
  ++ fold_right insert_sorted [] (List.filter is_str l).

(** [s.astype("category")]: the categories are the distinct non-missing
    values, sorted; where strings are mixed with other values, in the order
    of [sort_mixed]. *)
Definition astype_category (s : Series) : Series :=
  match dtype_of s with
  | DCategory _ => s
  | _ =>
      let vals := List.filter (fun v => negb (isna v)) (unique s) in
      let cats := match sorted vals with Ok l => l | Raise _ => sort_mixed vals end in
      mkSeries (DCategory cats) (cells s)
  end.

(** The dtype pandas infers for the cells of an [object] column: integers
    make an integer column, booleans a boolean column, anything else (strings,
    a mix, a missing cell, nothing) leaves an [object] column. *)
Definition is_num (v : value) : bool :=
  match v with Num _ => true | _ => false end.
Definition is_bool (v : value) : bool :=
  match v with Bool _ => true | _ => false end.

Definition infer_objects (l : list value) : dtype :=
  match l with
  | [] => DObject
  | _ =>
      if forallb is_num l then DInt
      else if forallb is_bool l then DBool
      else DObject
  end.

(** [s.fillna(v)].  Integer and boolean columns cannot hold a missing value
    and are returned as they are.  A [float64] column takes a number; filled
    with a string it becomes an [object] column.  A categorical column
    accepts only one of its categories, and checks the value even when it has
    nothing to fill.  An [object] column is filled and, as pandas 2 does by
    default, soft-converted to the dtype inferred from its cells. *)
Definition fill (v : value) (c : value) : value := if isna c then v else c.

Definition fillna_series (v : value) (s : Series) : res Series :=
  match dtype_of s with
  | DInt | DBool => Ok s
  | DFloat =>
      if existsb isna (cells s) then
        Ok (mkSeries (match v with Str _ => DObject | _ => DFloat end)
              (map (fill v) (cells s)))
      else Ok s
  | DCategory cats =>
      if existsb (value_eqb v) cats then
        Ok (mkSeries (DCategory cats) (map (fill v) (cells s)))
      else Raise (TypeError_new_category v)
  | DObject =>
      Ok (mkSeries (infer_objects (map (fill v) (cells s)))
            (map (fill v) (cells s)))
  | DDatetime =>
      if existsb isna (cells s) then
        Ok (mkSeries (infer_objects (map (fill v) (cells s)))
              (map (fill v) (cells s)))
      else Ok s
  end.

(** [frame.fillna(v)] on the columns of a sub-table, left to right. *)
Fixpoint fillna (v : value) (ss : list Series) : res (list Series) :=
  match ss with
  | [] => Ok []
  | s :: ss' =>
      match fillna_series v s with
      | Raise e => Raise e
      | Ok s' =>
          match fillna v ss' with
          | Raise e => Raise e
          | Ok r => Ok (s' :: r)
          end
      end
  end.

(** [X[cols] = X[cols].fillna(v)] *)
Definition fillna_inplace (cols : list string) (v : value) : prog DataFrame unit :=
  sub <- getitems cols ;;
  filled <- lift (fillna v sub) ;;
  setitems cols filled.

(** [s == v] and [s != v]: boolean columns. *)
Definition eq_scalar (s : Series) (v : value) : Series :=
  mkSeries DBool (map (fun c => Bool (py_eq c v)) (cells s)).
Definition ne_scalar (s : Series) (v : value) : Series :=
  mkSeries DBool (map (fun c => Bool (negb (py_eq c v))) (cells s)).

(** [str(v)], as [astype(str)] and f-strings render a cell.  In a [float64]
    column an integral number prints with a trailing [.0]; this is the
    rendering of the numbers below [10^16] in magnitude, larger ones print
    with an exponent.  The missing cell is the float [nan] that [read_csv]
    gives; a [None] placed in an [object] column would print as [None]. *)
Definition str_of_Z (z : Z) : string := NilZero.string_of_int (Z.to_int z).

Definition py_str (d : dtype) (v : value) : string :=
  match v with
  | NaN => "nan"
  | Num z => match d with DFloat => (str_of_Z z ++ ".0")%string | _ => str_of_Z z end
  | Str s => s
  | Bool true => "True"
  | Bool false => "False"
  end.

Definition astype_str (s : Series) : list string :=
  map (py_str (dtype_of s)) (cells s).

(** Elementwise [a + sep + b] on two string columns of the same table. *)
Definition str_join (a : list string) (sep : string) (b : list string) : list string :=
  map (fun '(x, y) => (x ++ sep ++ y)%string) (combine a b).

(** *** [to_datetime(..., format="%m/%Y")] *)

Record Timestamp : Type := mkTimestamp { year : Z; month : Z }.

Definition is_digit (c : ascii) : bool :=
  (48 <=? nat_of_ascii c)%nat && (nat_of_ascii c <=? 57)%nat.

Definition in_range (lo hi : ascii) (c : ascii) : bool :=
  (nat_of_ascii lo <=? nat_of_ascii c)%nat && (nat_of_ascii c <=? nat_of_ascii hi)%nat.

(** The text before the first ["/"] and the text after it. *)
Fixpoint split_slash (s : string) : option (string * string) :=
  match s with
  | EmptyString => None
  | String c s' =>
      if Ascii.eqb c "/" then Some (EmptyString, s')
      else match split_slash s' with
           | Some (a, b) => Some (String c a, b)
           | None => None
           end
  end.

(** [%m] is the regular expression [1[0-2]|0[1-9]|[1-9]]. *)
Definition match_m (s : string) : bool :=
  match s with
  | String a EmptyString => in_range "1" "9" a
  | String a (String b EmptyString) =>
      (Ascii.eqb a "1" && in_range "0" "2" b) || (Ascii.eqb a "0" && in_range "1" "9" b)
  | _ => false
  end.

(** [%Y] is four digits. *)
Definition match_Y (s : string) : bool :=
  match s with
  | String a (String b (String c (String d EmptyString))) =>
      is_digit a && is_digit b && is_digit c && is_digit d
  | _ => false
  end.

Definition int_of_str (s : string) : option Z :=
  match NilZero.int_of_string s with
  | Some d => Some (Z.of_int d)
  | None => None
  end.

Definition strptime (s : string) : option Timestamp :=
  match split_slash s with
  | Some (ms, ys) =>
      if match_m ms && match_Y ys then
        match int_of_str ms, int_of_str ys with
        | Some m, Some y => Some (mkTimestamp y m)
        | _, _ => None
        end
      else None
  | None => None
  end.

(** The first day of the month must lie in the range of [datetime64[ns]]:
    from 1677-09-21 to 2262-04-11. *)
Definition in_bounds (t : Timestamp) : bool :=
  (1677 * 12 + 10 <=? year t * 12 + month t) && (year t * 12 + month t <=? 2262 * 12 + 4).

(** One string.  No match with the format, the year 0, which no date has,
    and a date outside the range are three different errors. *)
Definition parse_one (s : string) : res Timestamp :=
  match strptime s with
  | None => Raise (ValueError_time_data s)
  | Some t =>
      if year t =? 0 then Raise (ValueError_year_out_of_range (year t))
      else if in_bounds t then Ok t else Raise (OutOfBoundsDatetime s)
  end.

Fixpoint to_datetime (l : list string) : res (list Timestamp) :=
  match l with
  | [] => Ok []
  | s :: l' =>
      match parse_one s with
      | Raise e => Raise e
      | Ok t =>
          match to_datetime l' with
          | Raise e => Raise e
          | Ok r => Ok (t :: r)
          end
      end
  end.

(** [dates.apply(f)] with an integer-valued [f]; on an empty column the
    result keeps the datetime dtype. *)
Definition apply (f : Timestamp -> Z) (dates : list Timestamp) : Series :=
  mkSeries (match dates with [] => DDatetime | _ => DInt end)
    (map (fun t => Num (f t)) dates).

(** *** Missing cells of a table *)

Definition has_na (s : Series) : bool := existsb isna (cells s).

(** [X.isna().any().any()] *)
Definition any_isna (T : DataFrame) : bool :=
  existsb (fun '(_, s) => has_na s) (columns T).

(** [X.isna().any(axis=1)] at row position [i] *)
Definition row_has_na (T : DataFrame) (i : nat) : bool :=
  existsb (fun '(_, s) =>
             match cells s !! i with Some v => isna v | None => false end)
    (columns T).

(** [list(X.index[X.isna().any(axis=1)])] *)
Definition ids_with_na (T : DataFrame) : list Z :=
  map snd (List.filter (fun '(i, _) => row_has_na T i) (imap pair (index T))).

(** [list(X.columns[X.isna().any(axis=0)])] *)
Definition columns_with_na (T : DataFrame) : list string :=
  map fst (List.filter (fun '(_, s) => has_na s) (columns T)).

(** [X.select_dtypes(include="number").columns.to_list()] and its
    complement: integer and float columns are numbers, boolean, object,
    categorical and datetime columns are not. *)
Definition is_number (d : dtype) : bool :=
  match d with DInt | DFloat => true | _ => false end.

Definition select_dtypes_include_number (T : DataFrame) : list string :=
  map fst (List.filter (fun '(_, s) => is_number (dtype_of s)) (columns T)).
Definition select_dtypes_exclude_number (T : DataFrame) : list string :=
  map fst (List.filter (fun '(_, s) => negb (is_number (dtype_of s))) (columns T)).

End pd.

(** ** Objects *)

(** The attributes of a [FeatureExtracter] instance. *)
Record attrs : Type := mkAttrs {
  _num_cols : list string;
  _cat_cols : list string;
  _all_categories : list (list value)
}.

(** The DataFrame objects alive and the instance [self]. *)
Record world : Type := mkWorld {
  frames : gmap loc DataFrame;
  self : attrs
}.

Definition set_frame (X : loc) (T : DataFrame) (w : world) : world :=
  mkWorld (<[X := T]> (frames w)) (self w).

(** Run a computation on the object behind [X], in place. *)
Definition on {A} (X : loc) (m : prog DataFrame A) : prog world A :=
  fun w =>
    match frames w !! X with
    | None => (w, Raise (Unbound X))
    | Some T => let '(T', r) := m T in (set_frame X T' w, r)
    end.

(** A new object. *)
Definition new (T : DataFrame) : prog world loc :=
  fun w => let X := fresh (dom (frames w)) in (set_frame X T w, Ok X).

(** [X.copy()] *)
Definition copy (X : loc) : prog world loc :=
  T <- on X (gets id) ;; new T.

(** ** The class *)

Module FeatureExtracter.

(** Columns to cast as categories. *)
Definition cols_cast_category : list string := ["MSSubClass"].

(** Columns to fillna with "None" string. *)
Definition cols_fillna_None_str : list string :=
  [ "PoolQC"; "MiscFeature"; "Alley"; "Fence"; "FireplaceQu"; "GarageType";
    "GarageFinish"; "GarageQual"; "GarageCond"; "BsmtExposure"; "BsmtFinType2";
    "BsmtFinType1"; "BsmtCond"; "BsmtQual"; "MasVnrType"; "Electrical";
    "MSZoning"; "Exterior1st"; "Exterior2nd"; "KitchenQual"; "Functional";
    "SaleType" ].

(** Columns to fillna with 0. *)
Definition cols_fillna_0 : list string :=
  [ "LotFrontage"; "MasVnrArea"; "BsmtFinSF1"; "BsmtFinSF2"; "BsmtUnfSF";
    "TotalBsmtSF"; "BsmtFullBath"; "BsmtHalfBath"; "GarageCars" ].

(** Columns to drop. *)
Definition cols_drop : list string :=
  [ "1stFlrSF"; "GarageArea"; "GarageYrBlt"; "TotRmsAbvGrd"; "Street"; "Utilities" ].

(** Features to binarize: column and the value to consider True. *)
Definition binarize_features_by_true_value : list (string * value) :=
  [ ("Condition2", Str "Norm"); ("RoofMatl", Str "CompShg"); ("Heating", Str "GasA") ].

(** Features to binarize: column and the value to consider False. *)
Definition binarize_features_by_false_value : list (string * value) :=
  [ ("LowQualFinSF", Num 0); ("3SsnPorch", Num 0); ("PoolArea", Num 0); ("MiscVal", Num 0) ].

Definition __init__ : attrs := mkAttrs [] [] [].

Definition set_num_cols (l : list string) : prog world unit :=
  modify (fun w => mkWorld (frames w)
                     (mkAttrs l (_cat_cols (self w)) (_all_categories (self w)))).
Definition set_cat_cols (l : list string) : prog world unit :=
  modify (fun w => mkWorld (frames w)
                     (mkAttrs (_num_cols (self w)) l (_all_categories (self w)))).
Definition set_all_categories (l : list (list value)) : prog world unit :=
  modify (fun w => mkWorld (frames w)
                     (mkAttrs (_num_cols (self w)) (_cat_cols (self w)) l)).

(** Each private method is a sequence of statements on the DataFrame [X] it
    receives: the statements are a [prog DataFrame], the method runs them on
    the object behind the reference.  A method that ends in [X.drop(...)]
    returns a reference to a new object. *)

Definition cast_types_stmts : prog DataFrame unit :=
  for_each cols_cast_category (fun col =>
    s <- pd.getitem col ;;
    pd.setitem col (pd.astype_category s)).

Definition _cast_types (X : loc) : prog world loc :=
  on X cast_types_stmts ;; ret X.

Definition fillna_stmts : prog DataFrame unit :=
  pd.fillna_inplace cols_fillna_None_str (Str "None") ;;
  pd.fillna_inplace cols_fillna_0 (Num 0).

Definition _fillna (X : loc) : prog world loc :=
  on X fillna_stmts ;; ret X.

Definition _drop_columns (X : loc) : prog world loc :=
  T <- on X (pd.drop cols_drop) ;; new T.

Definition true_name (col : string) (true_val : value) : string :=
  (col ++ "_is_" ++ pd.py_str DObject true_val)%string.
Definition false_name (col : string) (false_val : value) : string :=
  (col ++ "_not_" ++ pd.py_str DObject false_val)%string.

Definition binarize_features_stmts : prog DataFrame DataFrame :=
  for_each binarize_features_by_true_value (fun '(col, true_val) =>
    s <- pd.getitem col ;;
    pd.setitem (true_name col true_val) (pd.eq_scalar s true_val)) ;;
  for_each binarize_features_by_false_value (fun '(col, false_val) =>
    s <- pd.getitem col ;;
    pd.setitem (false_name col false_val) (pd.ne_scalar s false_val)) ;;
  pd.drop (map fst binarize_features_by_true_value
             ++ map fst binarize_features_by_false_value).

Definition _binarize_features (X : loc) : prog world loc :=
  T <- on X binarize_features_stmts ;; new T.

Definition get_months_after_start_year (start_year : Z) (dt : pd.Timestamp) : Z :=
  (pd.year dt - start_year) * 12 + pd.month dt.

Definition transform_date_sold_stmts : prog DataFrame DataFrame :=
  mo <- pd.getitem "MoSold" ;;
  yr <- pd.getitem "YrSold" ;;
  date_sold <- lift (pd.to_datetime
                       (pd.str_join (pd.astype_str mo) "/" (pd.astype_str yr))) ;;
  pd.setitem "MonthNumSold"
    (pd.apply (get_months_after_start_year 2000) date_sold) ;;
  pd.drop ["MoSold"; "YrSold"].

Definition _transform_date_sold (X : loc) : prog world loc :=
  T <- on X transform_date_sold_stmts ;; new T.

Definition validate_no_nans_stmts : prog DataFrame unit :=
  T <- gets id ;;
  if pd.any_isna T
  then raise (ValueError_NaNs (pd.ids_with_na T) (pd.columns_with_na T))
  else ret tt.

Definition _validate_no_nans (X : loc) : prog world unit :=
  on X validate_no_nans_stmts.

Definition transform (X : loc) : prog world loc :=
  X <- copy X ;;
  X <- _cast_types X ;;
  X <- _fillna X ;;
  X <- _drop_columns X ;;
  X <- _transform_date_sold X ;;
  X <- _binarize_features X ;;
  _validate_no_nans X ;;
  ret X.

Definition fit_transform (X : loc) : prog world loc :=
  X <- transform X ;;
  num <- on X (gets pd.select_dtypes_include_number) ;;
  set_num_cols num ;;
  cat <- on X (gets pd.select_dtypes_exclude_number) ;;
  set_cat_cols cat ;;
  cat_cols <- gets (fun w => _cat_cols (self w)) ;;
  all <- list_comp cat_cols (fun col =>
           s <- on X (pd.getitem col) ;;
           lift (pd.sorted (pd.unique s))) ;;
  set_all_categories all ;;
  ret X.

Definition get_numeric_feature_names : prog world (list string) :=
  gets (fun w => _num_cols (self w)).
Definition get_categorical_feature_names : prog world (list string) :=
  gets (fun w => _cat_cols (self w)).
Definition get_category_lists : prog world (list (list value)) :=
  gets (fun w => _all_categories (self w)).

End FeatureExtracter.


Import FeatureExtracter.

(** * Vocabulary of the proofs *)

(** [keeps w0 w]: every object of [w0] is still there, as it was, and the
    instance attributes are those of [w0]. *)
Definition keeps (w0 w : world) : Prop :=
  self w = self w0 /\
  forall Y T, frames w0 !! Y = Some T -> frames w !! Y = Some T.

(** ** What a method does to the table behind its argument *)

(** The table after the statements [m], and the value they return. *)
Definition after {A} (m : prog DataFrame A) (T : DataFrame) : res DataFrame :=
  match m T with
  | (T', Ok _) => Ok T'
  | (_, Raise e) => Raise e
  end.

Definition result {A} (m : prog DataFrame A) (T : DataFrame) : res A := snd (m T).

Definition and_then {A B} (r : res A) (f : A -> res B) : res B :=
  match r with
  | Ok a => f a
  | Raise e => Raise e
  end.

(** The table handed to [_validate_no_nans], as a function of the input
    table. *)
Definition stages_frame (T : DataFrame) : res DataFrame :=
  and_then (after cast_types_stmts T) (fun T1 =>
  and_then (after fillna_stmts T1) (fun T2 =>
  and_then (result (pd.drop cols_drop) T2) (fun T3 =>
  and_then (result transform_date_sold_stmts T3) (fun T4 =>
  result binarize_features_stmts T4)))).

(** The table [transform] returns, as a function of the input table. *)
Definition transform_frame (T : DataFrame) : res DataFrame :=
  and_then (stages_frame T) (fun T5 =>
  and_then (result validate_no_nans_stmts T5) (fun _ => Ok T5)).

(** ** Labels *)

Definition has_label (c : string) (names : list string) : bool :=
  existsb (String.eqb c) names.

Definition kept (cols : list string) (l : list (string * Series))
  : list (string * Series) :=
  List.filter (fun '(k, _) => negb (existsb (String.eqb k) cols)) l.

(** [X[cols] = frame] as a fold of single assignments. *)
Definition assign_all (ps : list (string * Series)) (l : list (string * Series))
  : list (string * Series) :=
  fold_left (fun acc '(c, s) => pd.assoc_set c s acc) ps l.

Fixpoint nodupb (l : list string) : bool :=
  match l with
  | [] => true
  | x :: l' => negb (has_label x l') && nodupb l'
  end.

Definition disjointb (l1 l2 : list string) : bool :=
  forallb (fun c => negb (has_label c l2)) l1.

(** ** Missing cells and errors *)

(** No cell of the table is missing. *)
Definition no_missing (T : DataFrame) : Prop :=
  forall c s, In (c, s) (columns T) -> ~ In NaN (cells s).

(** The column labelled [c] has a missing cell. *)
Definition affected_column (T : DataFrame) (c : string) : Prop :=
  exists s, In (c, s) (columns T) /\ In NaN (cells s).

(** The row with row-id [id] has a missing cell. *)
Definition affected_row (T : DataFrame) (id : Z) : Prop :=
  exists i c s, index T !! i = Some id /\ In (c, s) (columns T) /\
                cells s !! i = Some NaN.

(** The errors of the stages before validation: a missing column, a fill
    value that a categorical column rejects, a sale date that does not parse
    or is out of range. *)
Definition stage_error (e : exn) : Prop :=
  match e with
  | KeyError _ | TypeError_new_category _
  | ValueError_time_data _ | ValueError_year_out_of_range _
  | OutOfBoundsDatetime _ => True
  | _ => False
  end.

(** All exceptions of a program satisfy [P]. *)
Definition raises_only {S A} (P : exn -> Prop) (m : prog S A) : Prop :=
  forall s s' e, m s = (s', Raise e) -> P e.

(** Every column a stage reads, assigns or drops by its configured name. *)
Definition expected_columns : list string :=
  cols_cast_category ++ cols_fillna_None_str ++ cols_fillna_0 ++ cols_drop
  ++ ["MoSold"; "YrSold"]
  ++ map fst binarize_features_by_true_value
  ++ map fst binarize_features_by_false_value.

(** ** Sale dates *)

Fixpoint no_slash (s : string) : Prop :=
  match s with
  | EmptyString => True
  | String c s' => Ascii.eqb c "/" = false /\ no_slash s'
  end.

(** A month and a year that [to_datetime] accepts: a month of the year,
    and a first day of the month inside the range of [datetime64[ns]]. *)
Definition valid_sale (m y : Z) : Prop :=
  1 <= m <= 12 /\ 1677 * 12 + 10 <= y * 12 + m <= 2262 * 12 + 4.

(** Chronological order of (month, year) pairs. *)
Definition earlier (m1 y1 m2 y2 : Z) : Prop :=
  y1 < y2 \/ (y1 = y2 /\ m1 < m2).

(** The strings handed to [to_datetime]. *)
Definition sale_strings (mo yr : Series) : list string :=
  pd.str_join (pd.astype_str mo) "/" (pd.astype_str yr).

(** The column [MonthNumSold]. *)
Definition month_num_sold (ds : list pd.Timestamp) : Series :=
  pd.apply (get_months_after_start_year 2000) ds.

(** The table the date stage returns when the dates parse to [ds]. *)
Definition date_sold_frame (T : DataFrame) (ds : list pd.Timestamp) : DataFrame :=
  mkFrame (index T)
    (kept ["MoSold"; "YrSold"]
       (pd.assoc_set "MonthNumSold" (month_num_sold ds) (columns T))).

(** ** Binarization *)

(** The columns the binarization reads and then drops. *)
Definition binarize_sources : list string :=
  map fst binarize_features_by_true_value
  ++ map fst binarize_features_by_false_value.

(** The labels of the columns the binarization assigns. *)
Definition binarized_names : list string :=
  map (fun '(col, v) => true_name col v) binarize_features_by_true_value
  ++ map (fun '(col, v) => false_name col v) binarize_features_by_false_value.

Definition col_or_empty (T : DataFrame) (col : string) : Series :=
  match pd.assoc col (columns T) with
  | Some s => s
  | None => mkSeries DObject []
  end.

(** The assignments of a binarization loop over [rules], read from [T]. *)
Definition loop_columns (name : string -> value -> string)
    (mk : Series -> value -> Series) (rules : list (string * value))
    (T : DataFrame) : list (string * Series) :=
  map (fun '(col, v) => (name col v, mk (col_or_empty T col) v)) rules.

Definition new_columns (T : DataFrame) : list (string * Series) :=
  loop_columns true_name pd.eq_scalar binarize_features_by_true_value T
  ++ loop_columns false_name pd.ne_scalar binarize_features_by_false_value T.

(** The table the binarization returns. *)
Definition binarize_frame (T : DataFrame) : DataFrame :=
  mkFrame (index T) (kept binarize_sources (assign_all (new_columns T) (columns T))).

(** ** Columns added and removed by the pipeline *)

(** The labels of the columns the pipeline assigns under a new name. *)
Definition generated_names : list string := "MonthNumSold" :: binarized_names.

(** The labels of the columns the pipeline drops. *)
Definition removed_names : list string :=
  cols_drop ++ ["MoSold"; "YrSold"] ++ binarize_sources.

(** ** Role metadata *)

(** [[sorted(list(X[col].unique())) for col in cols]] on a table. *)
Fixpoint category_lists (T : DataFrame) (cols : list string)
  : res (list (list value)) :=
  match cols with
  | [] => Ok []
  | col :: cols' =>
      match pd.assoc col (columns T) with
      | None => Raise (KeyError [col])
      | Some s =>
          match pd.sorted (pd.unique s) with
          | Raise e => Raise e
          | Ok voc =>
              match category_lists T cols' with
              | Raise e => Raise e
              | Ok vocs => Ok (voc :: vocs)
              end
          end
      end
  end.

(** [voc] is the sorted list of the distinct values of [cells]: strictly
    increasing for Python's [<], made of values of [cells], and every value
    of [cells] equals (Python's [==]) one of [voc]. *)
Definition vocabulary_of (voc : list value) (cells : list value) : Prop :=
  Sorted (fun a b => py_lt a b = Some true) voc /\
  (forall v, In v voc -> In v cells) /\
  (forall x, In x cells -> exists v, In v voc /\ py_eq x v = true).

(** Two values that [sorted] can order strictly, one way or the other. *)
Definition ordered_pair (a b : value) : Prop :=
  py_lt a b = Some true \/ py_lt b a = Some true.

(** ** Replacing one column *)

(** [T] with the cells of column [col] replaced by the column [new]. *)
Definition replace_column (col : string) (new : Series) (T : DataFrame) : DataFrame :=
  mkFrame (index T) (pd.assoc_set col new (columns T)).

(** Statements that do not look at column [col]: run on the table with
    [col] replaced, they do what they do on the table, with [col] replaced.
    [commutes_val] is for statements that return a value, [commutes_tbl] for
    statements that return a table. *)
Definition commutes_val {A} (col : string) (new : Series) (m : prog DataFrame A) : Prop :=
  forall T, In col (pd.labels T) ->
    m (replace_column col new T) = (replace_column col new (fst (m T)), snd (m T)) /\
    In col (pd.labels (fst (m T))).

Definition commutes_tbl (col : string) (new : Series) (m : prog DataFrame DataFrame) : Prop :=
  forall T, In col (pd.labels T) ->
    m (replace_column col new T)
    = (replace_column col new (fst (m T)),
       match snd (m T) with
       | Ok T' => Ok (replace_column col new T')
       | Raise e => Raise e
       end) /\
    In col (pd.labels (fst (m T))) /\
    forall T', snd (m T) = Ok T' -> In col (pd.labels T').

(** ** Missing columns *)

(** The statements [m] remove no column, and a [KeyError] they raise names
    columns of [L] that the table they run on does not have. *)
Definition key_safe {A} (L : list string) (m : prog DataFrame A) : Prop :=
  forall T T' r, m T = (T', r) ->
    (forall c, In c (pd.labels T) -> In c (pd.labels T')) /\
    match r with
    | Raise (KeyError miss) =>
        miss <> [] /\ forall c, In c miss -> In c L /\ ~ In c (pd.labels T)
    | _ => True
    end.

(** ** Sample tables *)

Module Sample.

Definition obj (l : list value) : Series := mkSeries DObject l.
Definition ints (l : list Z) : Series := mkSeries DInt (map Num l).
Definition floats (l : list value) : Series := mkSeries DFloat l.
Definition with_all (names : list string) (s : Series) : list (string * Series) :=
  map (fun n => (n, s)) names.

(** Two sales, with every column the pipeline reads and two more. *)
Definition raw : DataFrame :=
  mkFrame [1; 2]
    ([("MSSubClass", ints [60; 20])]
     ++ with_all cols_fillna_None_str (obj [NaN; Str "Gd"])
     ++ with_all cols_fillna_0 (floats [NaN; Num 80])
     ++ with_all cols_drop (ints [1; 2])
     ++ [("MoSold", ints [5; 1]); ("YrSold", ints [2008; 2001])]
     ++ [("Condition2", obj [Str "Norm"; Str "Feedr"]);
         ("RoofMatl", obj [Str "CompShg"; Str "Metal"]);
         ("Heating", obj [Str "GasA"; Str "Wall"])]
     ++ [("LowQualFinSF", ints [0; 80]); ("3SsnPorch", ints [0; 0]);
         ("PoolArea", ints [0; 150]); ("MiscVal", ints [0; 700])]
     ++ [("Neighborhood", obj [Str "A"; Str "B"]); ("LotArea", ints [8450; 9600])]).

(** One held-out sale, like the first sale of [raw] but in a neighbourhood
    that [raw] does not have. *)
Definition first_sale (neighborhood : string) : DataFrame :=
  mkFrame [7]
    (map (fun '(c, s) =>
            (c, if String.eqb c "Neighborhood"
                then obj [Str neighborhood]
                else mkSeries (dtype_of s) (firstn 1 (cells s))))
       (columns raw)).

(** A world before fitting: the training table [raw] behind reference [0],
    a held-out sale in a neighbourhood of [raw] behind [10], the same sale
    in an unseen neighbourhood behind [11]. *)
Definition before_fit : world :=
  mkWorld {[ 0%nat := raw; 10%nat := first_sale "A"; 11%nat := first_sale "C" ]}
    __init__.

(** A world with one table, behind reference [0], and a new instance. *)
Definition world_of (T : DataFrame) : world := mkWorld {[ 0%nat := T ]} __init__.

(** [raw] with column [col] replaced. *)
Definition with_column (col : string) (s : Series) : DataFrame :=
  mkFrame (index raw) (pd.assoc_set col s (columns raw)).

(** The first sale is dated month 13. *)
Definition bad_month : DataFrame := with_column "MoSold" (ints [13; 1]).

(** The lot area of the second sale is missing. *)
Definition missing_area : DataFrame :=
  with_column "LotArea" (floats [Num 8450; NaN]).

(** Four sales: May 2008, January 2001, December 2000, January 2000. *)
Definition sales : DataFrame :=
  mkFrame [1; 2; 3; 4]
    [("MoSold", ints [5; 1; 12; 1]);
     ("YrSold", ints [2008; 2001; 2000; 2000]);
     ("LotArea", ints [8450; 9600; 11250; 9550])].

(** [raw] with one more column, labelled like a column the binarization
    assigns. *)
Definition with_flag : DataFrame :=
  with_column "Condition2_is_Norm" (obj [Str "x"; Str "y"]).

(** [raw] with a column that mixes a string and a number. *)
Definition mixed : DataFrame :=
  with_column "Neighborhood" (obj [Str "A"; Num 1]).

(** [raw] without the columns [Street] and [Utilities]. *)
Definition no_street : DataFrame :=
  mkFrame (index raw) (kept ["Street"; "Utilities"] (columns raw)).

End Sample.

(** * Running programs *)

Lemma value_eqb_eq a b : value_eqb a b = true <-> a = b.
Proof.
  destruct a, b; simpl; split; intros H; try discriminate; try reflexivity.
  - apply Z.eqb_eq in H. congruence.
  - inversion H. apply Z.eqb_refl.
  - apply String.eqb_eq in H. congruence.
  - inversion H. apply String.eqb_refl.
  - apply Bool.eqb_prop in H. congruence.
  - inversion H. apply Bool.eqb_reflx.
Qed.



Lemma bind_ok {S A B} (m : prog S A) (k : A -> prog S B) s s' a :
  m s = (s', Ok a) -> bind m k s = k a s'.
Proof. intros H. unfold bind. now rewrite H. Qed.

Lemma bind_raise {S A B} (m : prog S A) (k : A -> prog S B) s s' e :
  m s = (s', Raise e) -> bind m k s = (s', Raise e).
Proof. intros H. unfold bind. now rewrite H. Qed.

Lemma bind_inv_ok {S A B} (m : prog S A) (k : A -> prog S B) s s' b :
  bind m k s = (s', Ok b) ->
  exists s1 a, m s = (s1, Ok a) /\ k a s1 = (s', Ok b).
Proof.
  unfold bind. destruct (m s) as [s1 [a | e]]; intros H.
  - now exists s1, a.
  - discriminate.
Qed.

(** ** References *)

Section references.

Implicit Types (w : world) (X : loc) (T : DataFrame).

Lemma lookup_set_frame X T w : frames (set_frame X T w) !! X = Some T.
Proof. apply lookup_insert_eq. Qed.

Lemma lookup_set_frame_ne X Y T w :
  X <> Y -> frames (set_frame X T w) !! Y = frames w !! Y.
Proof. intros H. now apply lookup_insert_ne. Qed.

Lemma self_set_frame X T w : self (set_frame X T w) = self w.
Proof. reflexivity. Qed.

Lemma set_frame_id X T w : frames w !! X = Some T -> set_frame X T w = w.
Proof.
  intros H. destruct w as [fr a]. unfold set_frame. simpl in *.
  f_equal. now apply insert_id.
Qed.

Lemma set_frame_twice X T T' w :
  set_frame X T' (set_frame X T w) = set_frame X T' w.
Proof. unfold set_frame. simpl. f_equal. apply insert_insert_eq. Qed.

Lemma on_run {A} X (m : prog DataFrame A) w T :
  frames w !! X = Some T ->
  on X m w = (set_frame X (fst (m T)) w, snd (m T)).
Proof. intros H. unfold on. rewrite H. now destruct (m T). Qed.

Lemma new_run T w :
  new T w = (set_frame (fresh (dom (frames w))) T w, Ok (fresh (dom (frames w)))).
Proof. reflexivity. Qed.

Lemma fresh_unbound w : frames w !! fresh (dom (frames w)) = None.
Proof. apply not_elem_of_dom, is_fresh. Qed.

Lemma keeps_refl w : keeps w w.
Proof. now split. Qed.

Lemma keeps_private w0 w X T :
  keeps w0 w -> frames w0 !! X = None -> keeps w0 (set_frame X T w).
Proof.
  intros [Hs Hf] HX. split; [exact Hs|].
  intros Y T' HY. rewrite lookup_set_frame_ne; [now apply Hf|].
  intros ->. congruence.
Qed.

Lemma keeps_unbound w0 w Y :
  keeps w0 w -> frames w !! Y = None -> frames w0 !! Y = None.
Proof.
  intros [_ Hf] HY. destruct (frames w0 !! Y) as [T|] eqn:E; [|reflexivity].
  apply Hf in E. congruence.
Qed.

Lemma keeps_fresh w0 w :
  keeps w0 w -> frames w0 !! fresh (dom (frames w)) = None.
Proof. intros H. eapply keeps_unbound; [exact H | apply fresh_unbound]. Qed.

End references.

Section methods.

Implicit Types (w : world) (X : loc) (T : DataFrame).

Lemma inplace_method_run (stmts : prog DataFrame unit) X w0 w T :
  keeps w0 w -> frames w0 !! X = None -> frames w !! X = Some T ->
  exists w',
    (on X stmts ;; ret X) w
      = (w', and_then (after stmts T) (fun _ => Ok X)) /\
    keeps w0 w' /\
    forall T', after stmts T = Ok T' -> frames w' !! X = Some T'.
Proof.
  intros Hk HX HT. unfold bind, after. rewrite (on_run _ _ _ _ HT).
  destruct (stmts T) as [T1 [[]|e]]; simpl.
  - eexists. split; [reflexivity|]. split; [now apply keeps_private|].
    intros T' [= <-]. apply lookup_set_frame.
  - eexists. split; [reflexivity|]. split; [now apply keeps_private|].
    discriminate.
Qed.

Lemma new_method_run (stmts : prog DataFrame DataFrame) X w0 w T :
  keeps w0 w -> frames w0 !! X = None -> frames w !! X = Some T ->
  match result stmts T with
  | Ok T' =>
      exists w' Y,
        (T <- on X stmts ;; new T) w = (w', Ok Y) /\
        keeps w0 w' /\ frames w0 !! Y = None /\ frames w' !! Y = Some T'
  | Raise e =>
      exists w', (T <- on X stmts ;; new T) w = (w', Raise e) /\ keeps w0 w'
  end.
Proof.
  intros Hk HX HT. unfold bind, result. rewrite (on_run _ _ _ _ HT).
  destruct (stmts T) as [T1 [T'|e]]; simpl.
  - rewrite new_run. do 2 eexists. split; [reflexivity|].
    assert (Hk1 : keeps w0 (set_frame X T1 w)) by now apply keeps_private.
    split; [|split].
    + apply keeps_private; [exact Hk1 | now apply keeps_fresh].
    + now apply keeps_fresh.
    + apply lookup_set_frame.
  - eexists. split; [reflexivity|]. now apply keeps_private.
Qed.

Lemma copy_run X w T :
  frames w !! X = Some T ->
  exists w' Y,
    copy X w = (w', Ok Y) /\ keeps w w' /\
    frames w !! Y = None /\ frames w' !! Y = Some T.
Proof.
  intros HT. unfold copy, bind. rewrite (on_run _ _ _ _ HT). simpl.
  rewrite (set_frame_id _ _ _ HT), new_run. do 2 eexists.
  split; [reflexivity|]. split; [|split].
  - apply keeps_private; [apply keeps_refl | apply fresh_unbound].
  - apply fresh_unbound.
  - apply lookup_set_frame.
Qed.

Lemma validate_run X w0 w T :
  keeps w0 w -> frames w0 !! X = None -> frames w !! X = Some T ->
  exists w',
    _validate_no_nans X w = (w', result validate_no_nans_stmts T) /\
    keeps w0 w' /\ frames w' !! X = Some T.
Proof.
  intros Hk HX HT. unfold _validate_no_nans. rewrite (on_run _ _ _ _ HT).
  assert (E : fst (validate_no_nans_stmts T) = T).
  { unfold validate_no_nans_stmts, bind, gets, raise, ret. simpl.
    now destruct (pd.any_isna T). }
  rewrite E. rewrite (set_frame_id _ _ _ HT). now exists w.
Qed.

(** [transform] on a bound reference: the outcome is that of
    [transform_frame] on the table behind it, the table returned lives in an
    object that did not exist before, and the world is otherwise kept. *)
Lemma transform_run X w T :
  frames w !! X = Some T ->
  exists w', keeps w w' /\
    match transform_frame T with
    | Ok T' =>
        exists Y, transform X w = (w', Ok Y) /\
                  frames w !! Y = None /\ frames w' !! Y = Some T'
    | Raise e => transform X w = (w', Raise e)
    end.
Proof.
  intros HT. unfold transform, transform_frame, stages_frame.
  destruct (copy_run _ _ _ HT) as (w1 & X1 & E1 & K1 & P1 & F1).
  rewrite (bind_ok _ _ _ _ _ E1).
  destruct (inplace_method_run cast_types_stmts _ _ _ _ K1 P1 F1)
    as (w2 & E2 & K2 & F2).
  fold (_cast_types X1) in E2.
  destruct (after cast_types_stmts T) as [T1|e]; simpl in *;
    [|exists w2; split; [exact K2|]; now rewrite (bind_raise _ _ _ _ _ E2)].
  rewrite (bind_ok _ _ _ _ _ E2). specialize (F2 _ eq_refl).
  destruct (inplace_method_run fillna_stmts _ _ _ _ K2 P1 F2)
    as (w3 & E3 & K3 & F3).
  fold (_fillna X1) in E3.
  destruct (after fillna_stmts T1) as [T2|e]; simpl in *;
    [|exists w3; split; [exact K3|]; now rewrite (bind_raise _ _ _ _ _ E3)].
  rewrite (bind_ok _ _ _ _ _ E3). specialize (F3 _ eq_refl).
  pose proof (new_method_run (pd.drop cols_drop) _ _ _ _ K3 P1 F3) as R4.
  fold (_drop_columns X1) in R4.
  destruct (result (pd.drop cols_drop) T2) as [T3|e]; simpl in *;
    [|destruct R4 as (w4 & E4 & K4); exists w4; split; [exact K4|];
      now rewrite (bind_raise _ _ _ _ _ E4)].
  destruct R4 as (w4 & X4 & E4 & K4 & P4 & F4).
  rewrite (bind_ok _ _ _ _ _ E4).
  pose proof (new_method_run transform_date_sold_stmts _ _ _ _ K4 P4 F4) as R5.
  fold (_transform_date_sold X4) in R5.
  destruct (result transform_date_sold_stmts T3) as [T4|e]; simpl in *;
    [|destruct R5 as (w5 & E5 & K5); exists w5; split; [exact K5|];
      now rewrite (bind_raise _ _ _ _ _ E5)].
  destruct R5 as (w5 & X5 & E5 & K5 & P5 & F5).
  rewrite (bind_ok _ _ _ _ _ E5).
  pose proof (new_method_run binarize_features_stmts _ _ _ _ K5 P5 F5) as R6.
  fold (_binarize_features X5) in R6.
  destruct (result binarize_features_stmts T4) as [T5|e]; simpl in *;
    [|destruct R6 as (w6 & E6 & K6); exists w6; split; [exact K6|];
      now rewrite (bind_raise _ _ _ _ _ E6)].
  destruct R6 as (w6 & X6 & E6 & K6 & P6 & F6).
  rewrite (bind_ok _ _ _ _ _ E6).
  destruct (validate_run _ _ _ _ K6 P6 F6) as (w7 & E7 & K7 & F7).
  exists w7. split; [exact K7|].
  destruct (result validate_no_nans_stmts T5) as [[]|e]; simpl in *.
  - exists X6. rewrite (bind_ok _ _ _ _ _ E7). now split.
  - now rewrite (bind_raise _ _ _ _ _ E7).
Qed.

End methods.

(** * Tables: columns by label *)

Section columns.

Implicit Types (c k : string) (s : Series) (l : list (string * Series)).

Lemma has_label_true c names : has_label c names = true <-> In c names.
Proof.
  unfold has_label. rewrite existsb_exists. split.
  - intros (x & Hx & E). apply String.eqb_eq in E. now subst.
  - intros H. exists c. split; [exact H | apply String.eqb_refl].
Qed.

Lemma has_label_false c names : has_label c names = false <-> ~ In c names.
Proof.
  rewrite <- has_label_true. destruct (has_label c names); split; intros H;
    try discriminate; try reflexivity; try (now intros ?).
  now elim H.
Qed.

Lemma assoc_none c l : pd.assoc c l = None <-> ~ In c (map fst l).
Proof.
  induction l as [|[k s] l IH]; simpl.
  - split; [now intros _ [] | reflexivity].
  - destruct (String.eqb_spec c k) as [->|Hne].
    + split; [discriminate | intros H; elim H; now left].
    + rewrite IH. split; [intros H [E|E]; [now elim Hne | now elim H] |].
      intros H E. apply H. now right.
Qed.

Lemma assoc_some_in c s l : pd.assoc c l = Some s -> In (c, s) l.
Proof.
  induction l as [|[k s'] l IH]; simpl; [discriminate|].
  destruct (String.eqb_spec c k) as [->|Hne].
  - intros [= ->]. now left.
  - intros H. right. now apply IH.
Qed.

Lemma assoc_is_some c l : In c (map fst l) -> exists s, pd.assoc c l = Some s.
Proof.
  intros H. destruct (pd.assoc c l) as [s|] eqn:E; [now exists s|].
  apply assoc_none in E. now elim E.
Qed.

Lemma assoc_set_eq c s l : pd.assoc c (pd.assoc_set c s l) = Some s.
Proof.
  induction l as [|[k s'] l IH]; simpl.
  - now rewrite String.eqb_refl.
  - destruct (String.eqb_spec c k) as [->|Hne]; simpl.
    + now rewrite String.eqb_refl.
    + destruct (String.eqb_spec c k); [contradiction | exact IH].
Qed.

Lemma assoc_set_ne c c' s l :
  c <> c' -> pd.assoc c' (pd.assoc_set c s l) = pd.assoc c' l.
Proof.
  intros Hne. induction l as [|[k s'] l IH]; simpl.
  - destruct (String.eqb_spec c' c); [congruence | reflexivity].
  - destruct (String.eqb_spec c k) as [->|Hck]; simpl.
    + destruct (String.eqb_spec c' k); [congruence | reflexivity].
    + destruct (String.eqb_spec c' k); [reflexivity | exact IH].
Qed.

Lemma assoc_set_id c s l : pd.assoc c l = Some s -> pd.assoc_set c s l = l.
Proof.
  induction l as [|[k s'] l IH]; simpl; [discriminate|].
  destruct (String.eqb_spec c k) as [->|Hne].
  - now intros [= ->].
  - intros H. now rewrite IH.
Qed.

Lemma assoc_set_labels c s l :
  map fst (pd.assoc_set c s l)
  = if has_label c (map fst l) then map fst l else map fst l ++ [c].
Proof.
  induction l as [|[k s'] l IH]; simpl; [reflexivity|].
  destruct (String.eqb_spec c k) as [->|Hne]; simpl; [reflexivity|].
  rewrite IH. fold (has_label c (map fst l)).
  now destruct (has_label c (map fst l)).
Qed.

Lemma assoc_set_in_labels c c' s l :
  In c' (map fst (pd.assoc_set c s l)) <-> c' = c \/ In c' (map fst l).
Proof.
  rewrite assoc_set_labels.
  destruct (has_label c (map fst l)) eqn:E.
  - apply has_label_true in E. split; [now right | intros [->|H]; assumption].
  - rewrite in_app_iff. simpl. split.
    + intros [H|[H|[]]]; [now right | now left].
    + intros [->|H]; [right; now left | now left].
Qed.

Lemma assoc_kept c cols l :
  pd.assoc c (kept cols l) = if has_label c cols then None else pd.assoc c l.
Proof.
  induction l as [|[k s] l IH]; simpl.
  - now destruct (has_label c cols).
  - fold (has_label k cols). unfold kept in *. simpl.
    fold (has_label k cols).
    destruct (String.eqb_spec c k) as [->|Hne].
    + destruct (has_label k cols) eqn:E; simpl.
      * rewrite IH. reflexivity.
      * now rewrite String.eqb_refl.
    + destruct (has_label k cols) eqn:E; simpl; [exact IH|].
      destruct (String.eqb_spec c k); [contradiction | exact IH].
Qed.

Lemma kept_labels c cols l :
  In c (map fst (kept cols l)) <-> In c (map fst l) /\ ~ In c cols.
Proof.
  unfold kept. rewrite !in_map_iff. split.
  - intros ([k s] & <- & H). apply filter_In in H. destruct H as [H1 H2].
    simpl. split; [now exists (k, s)|].
    apply negb_true_iff in H2. now apply has_label_false in H2.
  - intros (([k s] & <- & H) & Hn). exists (k, s). split; [reflexivity|].
    apply filter_In. split; [exact H|]. simpl in *.
    apply negb_true_iff. now apply has_label_false.
Qed.

End columns.

(** * The pandas operations on a table *)

Section table_operations.

Implicit Types (T : DataFrame) (c : string) (cols : list string).

Lemma labels_assoc c T :
  In c (pd.labels T) <-> pd.assoc c (columns T) <> None.
Proof.
  unfold pd.labels. split.
  - intros H E. now apply assoc_none in E.
  - intros H. destruct (in_dec string_dec c (map fst (columns T))) as [I|N];
      [exact I|]. apply assoc_none in N. contradiction.
Qed.

Lemma labels_assoc_none c T :
  ~ In c (pd.labels T) -> pd.assoc c (columns T) = None.
Proof. intros H. now apply assoc_none. Qed.

Lemma missing_labels_nil cols T :
  pd.missing_labels cols T = [] <-> forall c, In c cols -> In c (pd.labels T).
Proof.
  unfold pd.missing_labels. induction cols as [|k cols IH]; simpl.
  - split; [now intros _ c [] | reflexivity].
  - fold (has_label k (pd.labels T)).
    destruct (has_label k (pd.labels T)) eqn:E; simpl.
    + apply has_label_true in E. rewrite IH. split.
      * intros H c [<-|Hc]; [exact E | now apply H].
      * intros H c Hc. apply H. now right.
    + apply has_label_false in E. split; [discriminate|].
      intros H. elim E. apply H. now left.
Qed.

Lemma missing_labels_in c cols T :
  In c (pd.missing_labels cols T) <-> In c cols /\ ~ In c (pd.labels T).
Proof.
  unfold pd.missing_labels. rewrite filter_In, negb_true_iff.
  fold (has_label c (pd.labels T)). now rewrite has_label_false.
Qed.

Lemma getitem_ok c s T :
  pd.assoc c (columns T) = Some s -> pd.getitem c T = (T, Ok s).
Proof. intros H. unfold pd.getitem. now rewrite H. Qed.

Lemma getitem_missing c T :
  pd.assoc c (columns T) = None -> pd.getitem c T = (T, Raise (KeyError [c])).
Proof. intros H. unfold pd.getitem. now rewrite H. Qed.

Lemma drop_state cols T : fst (pd.drop cols T) = T.
Proof. unfold pd.drop. now destruct (pd.missing_labels cols T). Qed.

Lemma drop_ok cols T :
  (forall c, In c cols -> In c (pd.labels T)) ->
  pd.drop cols T = (T, Ok (mkFrame (index T) (kept cols (columns T)))).
Proof.
  intros H. unfold pd.drop. now rewrite (proj2 (missing_labels_nil cols T) H).
Qed.

Lemma drop_inv cols T T' :
  result (pd.drop cols) T = Ok T' ->
  T' = mkFrame (index T) (kept cols (columns T)) /\
  forall c, In c cols -> In c (pd.labels T).
Proof.
  unfold result, pd.drop.
  destruct (pd.missing_labels cols T) as [|m ms] eqn:E; simpl; [|discriminate].
  intros [= <-]. split; [reflexivity|].
  exact (proj1 (missing_labels_nil cols T) E).
Qed.

Lemma drop_raises cols T e :
  result (pd.drop cols) T = Raise e ->
  e = KeyError (pd.missing_labels cols T) /\ pd.missing_labels cols T <> [].
Proof.
  unfold result, pd.drop.
  destruct (pd.missing_labels cols T) as [|m ms] eqn:E; simpl; [discriminate|].
  intros [= <-]. now split.
Qed.

(** [X[cols]]: the columns behind the labels, in the order of [cols]. *)
Lemma getitems_ok cols T :
  (forall c, In c cols -> In c (pd.labels T)) ->
  exists ss, pd.getitems cols T = (T, Ok ss) /\
             Forall2 (fun c s => pd.assoc c (columns T) = Some s) cols ss.
Proof.
  intros H. unfold pd.getitems.
  rewrite (proj2 (missing_labels_nil cols T) H).
  eexists. split; [reflexivity|].
  induction cols as [|k cols IH]; simpl; [constructor|].
  destruct (pd.assoc k (columns T)) as [s|] eqn:E.
  - simpl. constructor; [exact E|]. apply IH. intros c Hc. apply H. now right.
  - exfalso. assert (I : In k (pd.labels T)) by (apply H; now left).
    now apply labels_assoc in I.
Qed.

Lemma getitems_inv cols T T' ss :
  pd.getitems cols T = (T', Ok ss) ->
  T' = T /\ Forall2 (fun c s => pd.assoc c (columns T) = Some s) cols ss.
Proof.
  intros H. unfold pd.getitems in H.
  destruct (pd.missing_labels cols T) as [|m ms] eqn:E; [|discriminate].
  pose proof (proj1 (missing_labels_nil cols T) E) as E0.
  destruct (getitems_ok cols T E0) as (ss' & E' & F).
  unfold pd.getitems in E'. rewrite E in E'.
  inversion H; subst. inversion E'; subst. now split.
Qed.

Lemma getitems_state {cols T} : fst (pd.getitems cols T) = T.
Proof. unfold pd.getitems. now destruct (pd.missing_labels cols T). Qed.

Lemma fillna_inv v ss ss' :
  pd.fillna v ss = Ok ss' ->
  Forall2 (fun s s' => pd.fillna_series v s = Ok s') ss ss'.
Proof.
  revert ss'. induction ss as [|s ss IH]; simpl; intros ss' H.
  - inversion H. constructor.
  - destruct (pd.fillna_series v s) as [s1|] eqn:E1; [|discriminate].
    destruct (pd.fillna v ss) as [r|] eqn:E2; [|discriminate].
    inversion H; subst. constructor; [exact E1 | now apply IH].
Qed.

Lemma fillna_fixed v ss :
  Forall (fun s => pd.fillna_series v s = Ok s) ss -> pd.fillna v ss = Ok ss.
Proof.
  induction 1 as [|s ss Hs _ IH]; simpl; [reflexivity|]. now rewrite Hs, IH.
Qed.

Lemma setitems_run cols ss T :
  pd.setitems cols ss T
  = (mkFrame (index T) (assign_all (combine cols ss) (columns T)), Ok tt).
Proof.
  unfold pd.setitems, assign_all.
  destruct T as [idx l]. simpl.
  revert l. induction (combine cols ss) as [|[c s] ps IH]; intros l; simpl.
  - reflexivity.
  - unfold bind. simpl. apply IH.
Qed.

Lemma assign_all_other c ps l :
  ~ In c (map fst ps) -> pd.assoc c (assign_all ps l) = pd.assoc c l.
Proof.
  revert l. induction ps as [|[k s] ps IH]; intros l H; simpl; [reflexivity|].
  simpl in H. rewrite IH by tauto. apply assoc_set_ne. tauto.
Qed.

Lemma assign_all_in c s ps l :
  List.NoDup (map fst ps) -> In (c, s) ps -> pd.assoc c (assign_all ps l) = Some s.
Proof.
  revert l. induction ps as [|[k s'] ps IH]; intros l Hnd H; simpl; [easy|].
  simpl in Hnd. inversion Hnd as [|? ? Hk Hnd']; subst.
  destruct H as [[= -> ->]|H].
  - rewrite assign_all_other by exact Hk. apply assoc_set_eq.
  - now apply IH.
Qed.

Lemma assign_all_id ps l :
  Forall (fun '(c, s) => pd.assoc c l = Some s) ps -> assign_all ps l = l.
Proof.
  induction 1 as [|[c s] ps H _ IH]; simpl; [reflexivity|].
  now rewrite (assoc_set_id _ _ _ H).
Qed.

End table_operations.

(** * The fill stage *)

Section fill.

Implicit Types (T : DataFrame) (c : string) (cols : list string) (v : value).

Lemma fill_twice v x : pd.fill v (pd.fill v x) = pd.fill v x.
Proof. unfold pd.fill. destruct x, v; reflexivity. Qed.

Lemma map_fill_twice v (l : list value) :
  map (pd.fill v) (map (pd.fill v) l) = map (pd.fill v) l.
Proof. rewrite map_map. apply map_ext. intros x. apply fill_twice. Qed.

Lemma infer_objects_cases (l : list value) :
  pd.infer_objects l = DInt \/ pd.infer_objects l = DBool \/
  pd.infer_objects l = DObject.
Proof.
  unfold pd.infer_objects. destruct l; [tauto|].
  destruct (forallb pd.is_num _); [tauto|].
  destruct (forallb pd.is_bool _); tauto.
Qed.

Lemma infer_objects_str (l : list value) t :
  In (Str t) l -> pd.infer_objects l = DObject.
Proof.
  intros H. unfold pd.infer_objects. destruct l as [|x l]; [reflexivity|].
  assert (N : forallb pd.is_num (x :: l) = false).
  { destruct (forallb pd.is_num (x :: l)) eqn:E; [|reflexivity].
    rewrite forallb_forall in E. now apply E in H. }
  assert (B : forallb pd.is_bool (x :: l) = false).
  { destruct (forallb pd.is_bool (x :: l)) eqn:E; [|reflexivity].
    rewrite forallb_forall in E. now apply E in H. }
  now rewrite N, B.
Qed.

(** Filling the cells [l'] that a fill returned, under the dtype inferred
    for them, changes nothing. *)
Lemma fillna_inferred v (l' : list value) :
  map (pd.fill v) l' = l' ->
  pd.fillna_series v (mkSeries (pd.infer_objects l') l')
  = Ok (mkSeries (pd.infer_objects l') l').
Proof.
  intros H. unfold pd.fillna_series. cbn [dtype_of cells].
  destruct (infer_objects_cases l') as [E|[E|E]]; rewrite E; try reflexivity.
  now rewrite H, E.
Qed.

(** Filling a filled column changes nothing, dtype included. *)
Lemma fillna_series_twice v s s' :
  pd.fillna_series v s = Ok s' -> pd.fillna_series v s' = Ok s'.
Proof.
  unfold pd.fillna_series at 1. destruct s as [d l]. cbn [dtype_of cells].
  pose proof (map_fill_twice v l) as H.
  destruct d.
  - intros [= <-]. reflexivity.
  - destruct (existsb isna l) eqn:E.
    + intros [= <-].
      assert (Hs : forall t, v = Str t ->
                pd.infer_objects (map (pd.fill v) l) = DObject).
      { intros t ->. apply infer_objects_str with t.
        apply existsb_exists in E. destruct E as (x & Hx & Ex).
        apply in_map_iff. exists x. split; [|exact Hx].
        unfold pd.fill. now rewrite Ex. }
      revert H Hs. generalize (map (pd.fill v) l). intros l' H Hs.
      unfold pd.fillna_series.
      destruct v; simpl; rewrite ?H; try reflexivity;
        try (destruct (existsb isna l'); rewrite ?H; reflexivity).
      now rewrite (Hs s eq_refl).
    + intros [= <-]. unfold pd.fillna_series. simpl. now rewrite E.
  - intros [= <-]. reflexivity.
  - intros [= <-]. now apply fillna_inferred.
  - destruct (existsb (value_eqb v) categories) eqn:E; [|discriminate].
    intros [= <-]. unfold pd.fillna_series. simpl. now rewrite E, H.
  - destruct (existsb isna l) eqn:E.
    + intros [= <-]. now apply fillna_inferred.
    + intros [= <-]. unfold pd.fillna_series. simpl. now rewrite E.
Qed.

Lemma combine_fst_labels {A B} (xs : list A) (ys : list B) (R : A -> B -> Prop) :
  Forall2 R xs ys -> map fst (combine xs ys) = xs.
Proof. induction 1; simpl; [reflexivity | now f_equal]. Qed.

Lemma Forall2_chain_in {A B C} (R : A -> B -> Prop) (Q : B -> C -> Prop)
      xs ys zs x :
  Forall2 R xs ys -> Forall2 Q ys zs -> In x xs ->
  exists y z, R x y /\ Q y z /\ In (x, z) (combine xs zs).
Proof.
  intros H. revert zs. induction H as [|a b xs ys Hab _ IH]; intros zs HQ Hin.
  - destruct Hin.
  - inversion HQ as [|? c ? zs' Hbc HQ']; subst. destruct Hin as [<-|Hin].
    + exists b, c. simpl. auto.
    + destruct (IH _ HQ' Hin) as (y & z & ? & ? & ?).
      exists y, z. simpl. auto.
Qed.

Lemma Forall2_compose {A B C} (R : A -> B -> Prop) (Q : B -> C -> Prop) xs ys zs :
  Forall2 R xs ys -> Forall2 Q ys zs ->
  Forall2 (fun x z => exists y, R x y /\ Q y z) xs zs.
Proof.
  intros H. revert zs. induction H as [|a b xs ys Hab _ IH]; intros zs HQ;
    inversion HQ; subst; constructor.
  - now exists b.
  - now apply IH.
Qed.

(** [X[cols] = X[cols].fillna(v)]: the listed columns are filled, every
    other column and the index are as before. *)
Lemma fillna_inplace_inv cols v T T' :
  List.NoDup cols ->
  after (pd.fillna_inplace cols v) T = Ok T' ->
  index T' = index T /\
  (forall c, ~ In c cols -> pd.assoc c (columns T') = pd.assoc c (columns T)) /\
  (forall c, In c cols ->
     exists s s', pd.assoc c (columns T) = Some s /\
                  pd.fillna_series v s = Ok s' /\
                  pd.assoc c (columns T') = Some s').
Proof.
  intros Hnd. unfold after, pd.fillna_inplace, bind, lift.
  destruct (pd.getitems cols T) as [T0 [ss|e]] eqn:Eg; [|discriminate].
  apply getitems_inv in Eg. destruct Eg as [-> Hss].
  destruct (pd.fillna v ss) as [ss'|e] eqn:Ef; [|discriminate].
  apply fillna_inv in Ef. rewrite setitems_run. intros [= <-]. simpl.
  split; [reflexivity|]. split.
  - intros c Hc. apply assign_all_other.
    rewrite (combine_fst_labels cols ss'
               (fun c s' => exists s, pd.assoc c (columns T) = Some s
                                      /\ pd.fillna_series v s = Ok s')).
    + exact Hc.
    + exact (Forall2_compose _ _ _ _ _ Hss Ef).
  - intros c Hc.
    destruct (Forall2_chain_in _ _ _ _ _ c Hss Ef Hc) as (s & s' & H1 & H2 & H3).
    exists s, s'. split; [exact H1|]. split; [exact H2|].
    apply assign_all_in; [|exact H3].
    rewrite (combine_fst_labels cols ss'
               (fun c s' => exists s, pd.assoc c (columns T) = Some s
                                      /\ pd.fillna_series v s = Ok s')).
    + exact Hnd.
    + exact (Forall2_compose _ _ _ _ _ Hss Ef).
Qed.

(** On a table whose listed columns are already filled the statement does
    nothing. *)
Lemma fillna_inplace_fixed cols v T :
  (forall c, In c cols ->
     exists s, pd.assoc c (columns T) = Some s /\ pd.fillna_series v s = Ok s) ->
  pd.fillna_inplace cols v T = (T, Ok tt).
Proof.
  intros H. unfold pd.fillna_inplace, bind, lift.
  assert (Hl : forall c, In c cols -> In c (pd.labels T)).
  { intros c Hc. destruct (H c Hc) as (s & E & _).
    apply labels_assoc. congruence. }
  destruct (getitems_ok cols T Hl) as (ss & -> & Hss).
  assert (Hfix : Forall (fun s => pd.fillna_series v s = Ok s) ss).
  { clear Hl. induction Hss as [|c s cols ss Hcs _ IH]; constructor.
    - destruct (H c (or_introl eq_refl)) as (s0 & E & F). congruence.
    - apply IH. intros c' Hc'. apply H. now right. }
  rewrite (fillna_fixed _ _ Hfix), setitems_run.
  rewrite assign_all_id; [now destruct T|].
  clear H Hl Hfix. induction Hss; simpl; constructor; auto.
Qed.

End fill.

(** * Facts about the configuration lists *)

Lemma nodupb_NoDup l : nodupb l = true -> List.NoDup l.
Proof.
  induction l as [|x l IH]; simpl; intros H; constructor;
    apply andb_true_iff in H; destruct H as [H1 H2].
  - apply negb_true_iff in H1. now apply has_label_false.
  - now apply IH.
Qed.

Lemma disjointb_spec l1 l2 c :
  disjointb l1 l2 = true -> In c l1 -> ~ In c l2.
Proof.
  unfold disjointb. rewrite forallb_forall. intros H Hc.
  apply has_label_false, negb_true_iff. now apply H.
Qed.

Lemma cols_fillna_None_str_nodup : List.NoDup cols_fillna_None_str.
Proof. apply nodupb_NoDup. reflexivity. Qed.

Lemma cols_fillna_0_nodup : List.NoDup cols_fillna_0.
Proof. apply nodupb_NoDup. reflexivity. Qed.

Lemma fill_lists_disjoint c :
  In c cols_fillna_None_str -> ~ In c cols_fillna_0.
Proof. apply disjointb_spec. reflexivity. Qed.

(** The fill stage on a table: both fills succeeded, in this order. *)
Lemma fillna_stmts_inv T T' :
  after fillna_stmts T = Ok T' ->
  exists T1,
    after (pd.fillna_inplace cols_fillna_None_str (Str "None")) T = Ok T1 /\
    after (pd.fillna_inplace cols_fillna_0 (Num 0)) T1 = Ok T'.
Proof.
  unfold after, fillna_stmts, bind.
  destruct (pd.fillna_inplace cols_fillna_None_str (Str "None") T)
    as [T1 [[]|e]]; [|discriminate].
  intros H. exists T1. split; [reflexivity | exact H].
Qed.

Lemma fillna_stmts_twice T T' :
  after fillna_stmts T = Ok T' -> fillna_stmts T' = (T', Ok tt).
Proof.
  intros H. apply fillna_stmts_inv in H. destruct H as (T1 & H1 & H2).
  destruct (fillna_inplace_inv _ _ _ _ cols_fillna_None_str_nodup H1)
    as (_ & _ & F1).
  destruct (fillna_inplace_inv _ _ _ _ cols_fillna_0_nodup H2)
    as (_ & O2 & F2).
  unfold fillna_stmts, bind.
  rewrite fillna_inplace_fixed.
  - apply fillna_inplace_fixed. intros c Hc.
    destruct (F2 c Hc) as (s & s' & _ & Hf & Hs').
    exists s'. split; [exact Hs' | now apply fillna_series_twice with s].
  - intros c Hc. destruct (F1 c Hc) as (s & s' & _ & Hf & Hs').
    exists s'. split; [|now apply fillna_series_twice with s].
    rewrite O2; [exact Hs' | now apply fill_lists_disjoint].
Qed.

(** * Properties of the pipeline *)

(** C6.  The fill stage is idempotent: when [_fillna] returns, running it
    again on the table it returned changes nothing: the same reference comes
    back and the world, hence every cell and dtype of the table, is as it
    was. *)
Theorem fillna_idempotent (X X1 : loc) (w w1 : world) :
  _fillna X w = (w1, Ok X1) -> _fillna X1 w1 = (w1, Ok X1).
Proof.
  unfold _fillna, bind, on.
  destruct (frames w !! X) as [T|] eqn:HT; [|discriminate].
  destruct (fillna_stmts T) as [T' [[]|e]] eqn:E; simpl; [|discriminate].
  unfold ret. intros [= <- <-].
  rewrite lookup_set_frame.
  assert (A : after fillna_stmts T = Ok T') by (unfold after; now rewrite E).
  rewrite (fillna_stmts_twice _ _ A). simpl.
  now rewrite set_frame_twice.
Qed.

Lemma fillna_idempotent_witness :
  let w1 := fst (_fillna 0%nat (Sample.world_of Sample.raw)) in
  _fillna 0%nat (Sample.world_of Sample.raw) = (w1, Ok 0%nat) /\
  _fillna 0%nat w1 = (w1, Ok 0%nat).
Proof.
  split.
  - vm_compute. reflexivity.
  - apply (fillna_idempotent 0%nat 0%nat (Sample.world_of Sample.raw)).
    vm_compute. reflexivity.
Defined.

Lemma transform_unbound X w :
  frames w !! X = None -> transform X w = (w, Raise (Unbound X)).
Proof.
  intros H. unfold transform, copy, bind, on. now rewrite H.
Qed.

(** The world after [transform]: all that was there is kept. *)
Lemma transform_keeps X w : keeps w (fst (transform X w)).
Proof.
  destruct (frames w !! X) as [T|] eqn:HT.
  - destruct (transform_run _ _ _ HT) as (w' & K & H).
    destruct (transform_frame T) as [T'|e].
    + destruct H as (Y & -> & _). exact K.
    + rewrite H. exact K.
  - rewrite (transform_unbound _ _ HT). apply keeps_refl.
Qed.

Lemma transform_new_object X w Y :
  snd (transform X w) = Ok Y ->
  frames w !! Y = None /\ is_Some (frames (fst (transform X w)) !! Y).
Proof.
  intros H. destruct (frames w !! X) as [T|] eqn:HT.
  - destruct (transform_run _ _ _ HT) as (w2 & K & R).
    destruct (transform_frame T) as [T'|e].
    + destruct R as (Y' & E & P & F). rewrite E in *. simpl in *.
      inversion H; subst. split; [exact P | now exists T'].
    + rewrite R in H. discriminate.
  - rewrite (transform_unbound _ _ HT) in H. discriminate.
Qed.

(** C8.  [transform] never mutates the caller's table and never writes the
    role metadata: whatever the world and the argument, and whether the call
    returns or raises, afterwards the table behind the argument (and every
    other object that existed) is what it was, and the three attributes
    [_num_cols], [_cat_cols], [_all_categories] are what they were.  The
    table that is returned lives in an object created during the call. *)
Theorem transform_does_not_mutate (X : loc) (w w' : world) (r : res loc) :
  transform X w = (w', r) ->
  frames w' !! X = frames w !! X /\
  (forall Y T, frames w !! Y = Some T -> frames w' !! Y = Some T) /\
  _num_cols (self w') = _num_cols (self w) /\
  _cat_cols (self w') = _cat_cols (self w) /\
  _all_categories (self w') = _all_categories (self w) /\
  (forall Y, r = Ok Y -> frames w !! Y = None /\ is_Some (frames w' !! Y)).
Proof.
  intros E. pose proof (transform_keeps X w) as [Hs Hf].
  pose proof (transform_new_object X w) as Hn.
  rewrite E in Hs, Hf, Hn. simpl in Hs, Hf, Hn.
  split; [|split; [exact Hf|]].
  - destruct (frames w !! X) as [T|] eqn:HT.
    + now apply Hf.
    + rewrite (transform_unbound _ _ HT) in E. now inversion E; subst.
  - rewrite Hs. repeat split; try reflexivity; subst r; now apply Hn.
Qed.

Lemma transform_does_not_mutate_witness :
  exists w',
    transform 0%nat (Sample.world_of Sample.raw) = (w', Ok 4%nat) /\
    frames w' !! 0%nat = Some Sample.raw /\
    self w' = __init__.
Proof.
  exists (fst (transform 0%nat (Sample.world_of Sample.raw))).
  assert (E : transform 0%nat (Sample.world_of Sample.raw)
              = (fst (transform 0%nat (Sample.world_of Sample.raw)), Ok 4%nat))
    by (vm_compute; reflexivity).
  destruct (transform_does_not_mutate _ _ _ _ E) as (H1 & _ & H2 & H3 & H4 & _).
  split; [exact E|]. split.
  - exact (eq_trans H1 eq_refl).
  - destruct (self (fst (transform 0%nat (Sample.world_of Sample.raw)))).
    simpl in *. now subst.
Defined.

(** * Which exceptions a stage can raise *)

Section exceptions.

Context {S : Type} (P : exn -> Prop).

Lemma raises_only_ret {A} (a : A) : raises_only P (ret (S := S) a).
Proof. intros s s' e H. discriminate. Qed.

Lemma raises_only_gets {A} (f : S -> A) : raises_only P (gets f).
Proof. intros s s' e H. discriminate. Qed.

Lemma raises_only_modify (f : S -> S) : raises_only P (modify f).
Proof. intros s s' e H. discriminate. Qed.

Lemma raises_only_lift {A} (r : res A) :
  (forall e, r = Raise e -> P e) -> raises_only P (lift (S := S) r).
Proof. intros H s s' e [= _ E]. now apply H. Qed.

Lemma raises_only_bind {A B} (m : prog S A) (k : A -> prog S B) :
  raises_only P m -> (forall a, raises_only P (k a)) -> raises_only P (bind m k).
Proof.
  intros Hm Hk s s' e. unfold bind.
  destruct (m s) as [s1 [a|e1]] eqn:E.
  - apply Hk.
  - intros [= _ <-]. now apply (Hm _ _ _ E).
Qed.

Lemma raises_only_for_each {A} (l : list A) (body : A -> prog S unit) :
  (forall a, raises_only P (body a)) -> raises_only P (for_each l body).
Proof.
  intros H. induction l as [|a l IH]; simpl.
  - apply raises_only_ret.
  - apply raises_only_bind; [apply H | intros _; exact IH].
Qed.

End exceptions.

Lemma raises_only_after {A} P (m : prog DataFrame A) T e :
  raises_only P m -> after m T = Raise e -> P e.
Proof.
  intros H. unfold after. destruct (m T) as [T' [a|e']] eqn:E; [discriminate|].
  intros [= <-]. now apply (H _ _ _ E).
Qed.

Lemma raises_only_result {A} P (m : prog DataFrame A) T e :
  raises_only P m -> result m T = Raise e -> P e.
Proof.
  intros H. unfold result. destruct (m T) as [T' [a|e']] eqn:E; [discriminate|].
  simpl. intros [= <-]. now apply (H _ _ _ E).
Qed.

Lemma getitem_raises c : raises_only stage_error (pd.getitem c).
Proof.
  intros T T' e. unfold pd.getitem.
  destruct (pd.assoc c (columns T)); [discriminate|]. now intros [= _ <-].
Qed.

Lemma setitem_raises c s : raises_only stage_error (pd.setitem c s).
Proof. apply raises_only_modify. Qed.

Lemma getitems_raises cols : raises_only stage_error (pd.getitems cols).
Proof.
  intros T T' e. unfold pd.getitems.
  destruct (pd.missing_labels cols T); [discriminate|]. now intros [= _ <-].
Qed.

Lemma setitems_raises cols ss : raises_only stage_error (pd.setitems cols ss).
Proof. intros T T' e. rewrite setitems_run. discriminate. Qed.

Lemma drop_raises_only cols : raises_only stage_error (pd.drop cols).
Proof.
  intros T T' e. unfold pd.drop.
  destruct (pd.missing_labels cols T); [discriminate|]. now intros [= _ <-].
Qed.

Lemma fillna_series_raises v s e :
  pd.fillna_series v s = Raise e -> e = TypeError_new_category v.
Proof.
  unfold pd.fillna_series. destruct (dtype_of s); try discriminate.
  - destruct (existsb isna (cells s)); discriminate.
  - destruct (existsb (value_eqb v) categories); [discriminate|].
    now intros [= <-].
  - destruct (existsb isna (cells s)); discriminate.
Qed.

Lemma fillna_raises v ss e : pd.fillna v ss = Raise e -> stage_error e.
Proof.
  induction ss as [|s ss IH]; simpl; [discriminate|].
  destruct (pd.fillna_series v s) as [s'|e1] eqn:E1.
  - destruct (pd.fillna v ss) as [r|e2]; [discriminate|].
    intros [= <-]. now apply IH.
  - intros [= <-]. now rewrite (fillna_series_raises _ _ _ E1).
Qed.

Lemma to_datetime_raises l e : pd.to_datetime l = Raise e -> stage_error e.
Proof.
  induction l as [|s l IH]; simpl; [discriminate|].
  destruct (pd.parse_one s) as [t|e1] eqn:E1.
  - destruct (pd.to_datetime l) as [r|e2]; [discriminate|].
    intros [= <-]. now apply IH.
  - intros [= <-]. unfold pd.parse_one in E1.
    destruct (pd.strptime s) as [t|]; [|now inversion E1].
    destruct (pd.year t =? 0); [now inversion E1|].
    destruct (pd.in_bounds t); [discriminate | now inversion E1].
Qed.

Lemma fillna_inplace_raises cols v :
  raises_only stage_error (pd.fillna_inplace cols v).
Proof.
  unfold pd.fillna_inplace.
  apply raises_only_bind; [apply getitems_raises | intros ss].
  apply raises_only_bind; [|intros ss'; apply setitems_raises].
  apply raises_only_lift. apply fillna_raises.
Qed.

Lemma cast_types_raises : raises_only stage_error cast_types_stmts.
Proof.
  apply raises_only_for_each. intros c.
  apply raises_only_bind; [apply getitem_raises | intros s; apply setitem_raises].
Qed.

Lemma fillna_stmts_raises : raises_only stage_error fillna_stmts.
Proof.
  apply raises_only_bind; [|intros _]; apply fillna_inplace_raises.
Qed.

Lemma transform_date_sold_raises : raises_only stage_error transform_date_sold_stmts.
Proof.
  unfold transform_date_sold_stmts.
  apply raises_only_bind; [apply getitem_raises | intros mo].
  apply raises_only_bind; [apply getitem_raises | intros yr].
  apply raises_only_bind; [apply raises_only_lift, to_datetime_raises | intros d].
  apply raises_only_bind; [apply setitem_raises | intros _; apply drop_raises_only].
Qed.

Lemma binarize_features_raises : raises_only stage_error binarize_features_stmts.
Proof.
  unfold binarize_features_stmts.
  apply raises_only_bind; [|intros _; apply raises_only_bind; [|intros _]].
  - apply raises_only_for_each. intros [c v].
    apply raises_only_bind; [apply getitem_raises | intros s; apply setitem_raises].
  - apply raises_only_for_each. intros [c v].
    apply raises_only_bind; [apply getitem_raises | intros s; apply setitem_raises].
  - apply drop_raises_only.
Qed.

Lemma stages_frame_raises T e : stages_frame T = Raise e -> stage_error e.
Proof.
  unfold stages_frame, and_then.
  destruct (after cast_types_stmts T) as [T1|e1] eqn:E1;
    [|intros [= <-]; exact (raises_only_after _ _ _ _ cast_types_raises E1)].
  destruct (after fillna_stmts T1) as [T2|e2] eqn:E2;
    [|intros [= <-]; exact (raises_only_after _ _ _ _ fillna_stmts_raises E2)].
  destruct (result (pd.drop cols_drop) T2) as [T3|e3] eqn:E3;
    [|intros [= <-]; exact (raises_only_result _ _ _ _ (drop_raises_only _) E3)].
  destruct (result transform_date_sold_stmts T3) as [T4|e4] eqn:E4;
    [|intros [= <-]; exact (raises_only_result _ _ _ _ transform_date_sold_raises E4)].
  intros E5. exact (raises_only_result _ _ _ _ binarize_features_raises E5).
Qed.

(** * Validation *)

Lemma isna_true v : isna v = true <-> v = NaN.
Proof. destruct v; simpl; split; intros H; try discriminate; reflexivity. Qed.

Lemma has_na_true s : pd.has_na s = true <-> In NaN (cells s).
Proof.
  unfold pd.has_na. rewrite existsb_exists. split.
  - intros (v & Hv & E). apply isna_true in E. now subst.
  - intros H. now exists NaN.
Qed.

Lemma any_isna_false T : pd.any_isna T = false <-> no_missing T.
Proof.
  unfold pd.any_isna, no_missing. split.
  - intros H c s Hin Hna.
    assert (E : existsb (fun '(_, s) => pd.has_na s) (columns T) = true).
    { apply existsb_exists. exists (c, s). split; [exact Hin|].
      now apply has_na_true. }
    congruence.
  - intros H. destruct (existsb _ (columns T)) eqn:E; [|reflexivity].
    apply existsb_exists in E. destruct E as ([c s] & Hin & Hna).
    apply has_na_true in Hna. now elim (H c s Hin).
Qed.

Lemma columns_with_na_spec T c :
  In c (pd.columns_with_na T) <-> affected_column T c.
Proof.
  unfold pd.columns_with_na, affected_column. rewrite in_map_iff. split.
  - intros ([c' s] & <- & H). apply filter_In in H. destruct H as [H1 H2].
    exists s. split; [exact H1 | now apply has_na_true].
  - intros (s & H1 & H2). exists (c, s). split; [reflexivity|].
    apply filter_In. split; [exact H1 | now apply has_na_true].
Qed.

Lemma row_has_na_true T i :
  pd.row_has_na T i = true <->
  exists c s, In (c, s) (columns T) /\ cells s !! i = Some NaN.
Proof.
  unfold pd.row_has_na. rewrite existsb_exists. split.
  - intros ([c s] & Hin & H). exists c, s. split; [exact Hin|].
    destruct (cells s !! i) as [v|]; [|discriminate].
    apply isna_true in H. now subst.
  - intros (c & s & Hin & H). exists (c, s). split; [exact Hin|].
    now rewrite H.
Qed.

Lemma ids_with_na_spec T id :
  In id (pd.ids_with_na T) <-> affected_row T id.
Proof.
  unfold pd.ids_with_na, affected_row. rewrite in_map_iff. split.
  - intros ([i id'] & E & H). simpl in E. subst id'.
    apply filter_In in H. destruct H as [H1 H2].
    apply list_elem_of_In, elem_of_lookup_imap in H1.
    destruct H1 as (j & y & [= -> ->] & Hj).
    apply row_has_na_true in H2. destruct H2 as (c & s & Hin & Hc).
    now exists j, c, s.
  - intros (i & c & s & Hi & Hin & Hc). exists (i, id). split; [reflexivity|].
    apply filter_In. split.
    + apply list_elem_of_In, elem_of_lookup_imap. now exists i, id.
    + apply row_has_na_true. now exists c, s.
Qed.

Lemma validate_inv T (r : res unit) :
  result validate_no_nans_stmts T = r ->
  match r with
  | Ok _ => no_missing T
  | Raise e =>
      e = ValueError_NaNs (pd.ids_with_na T) (pd.columns_with_na T) /\
      pd.any_isna T = true
  end.
Proof.
  unfold result, validate_no_nans_stmts, bind, gets, raise, ret. simpl.
  destruct (pd.any_isna T) eqn:E; simpl; intros <-.
  - now split.
  - now apply any_isna_false.
Qed.

Lemma any_isna_true T :
  pd.any_isna T = true -> exists c, affected_column T c.
Proof.
  unfold pd.any_isna. rewrite existsb_exists. intros ([c s] & Hin & H).
  exists c, s. split; [exact Hin | now apply has_na_true].
Qed.

(** * Outcomes of [transform] *)

Example transform_sample_missing_area :
  snd (transform 0%nat (Sample.world_of Sample.missing_area))
  = Raise (ValueError_NaNs [2] ["LotArea"]).
Proof. vm_compute. reflexivity. Qed.

(** C1 as stated fails: a table with every expected column on which
    [transform] neither returns nor raises the validation error.  The month
    13 does not match the format [%m/%Y] and [to_datetime] raises. *)
Lemma transform_unparsable_date_counterexample :
  (forall c, In c expected_columns -> In c (pd.labels Sample.bad_month)) /\
  snd (transform 0%nat (Sample.world_of Sample.bad_month))
  = Raise (ValueError_time_data "13/2008").
Proof.
  split.
  - intros c Hc. apply has_label_true.
    revert c Hc. apply forallb_forall. vm_compute. reflexivity.
  - vm_compute. reflexivity.
Qed.

(** * Rendering and parsing sale dates *)

Section dates.

Lemma no_slash_uint d : no_slash (NilEmpty.string_of_uint d).
Proof. induction d; simpl; auto. Qed.

Lemma no_slash_str_of_Z z : no_slash (pd.str_of_Z z).
Proof.
  unfold pd.str_of_Z, NilZero.string_of_int, NilZero.string_of_uint.
  destruct (Z.to_int z) as [d|d]; destruct d; simpl; auto using no_slash_uint.
Qed.

Lemma no_slash_app a b : no_slash a -> no_slash b -> no_slash (a ++ b)%string.
Proof. induction a; simpl; intuition. Qed.

Lemma split_slash_app a b :
  no_slash a -> pd.split_slash (a ++ "/" ++ b)%string = Some (a, b).
Proof.
  induction a as [|c a IH]; simpl.
  - reflexivity.
  - intros [Hc Ha]. rewrite Hc. simpl in IH. now rewrite IH.
Qed.

(** [int(str(z)) = z] *)
Lemma int_of_str_of_Z z : pd.int_of_str (pd.str_of_Z z) = Some z.
Proof.
  unfold pd.int_of_str, pd.str_of_Z. rewrite NilZero.isi.
  - now rewrite DecimalZ.of_to.
  - destruct z; simpl; try discriminate;
      intros [= E]; now apply (DecimalPos.Unsigned.to_uint_nonnil p).
  - destruct z; simpl; try discriminate;
      intros [= E]; now apply (DecimalPos.Unsigned.to_uint_nonnil p).
Qed.

Lemma match_m_float a : pd.match_m (a ++ ".0") = false.
Proof.
  destruct a as [|c [|c' [|c'' a]]]; simpl; reflexivity.
Qed.

Lemma match_Y_float a : pd.match_Y (a ++ ".0") = false.
Proof.
  destruct a as [|c1 [|c2 [|c3 [|c4 [|c5 a]]]]]; simpl; try reflexivity.
  destruct (pd.is_digit c1), (pd.is_digit c2); reflexivity.
Qed.

Lemma py_str_num d z :
  pd.py_str d (Num z) = pd.str_of_Z z \/
  pd.py_str d (Num z) = (pd.str_of_Z z ++ ".0")%string.
Proof. destruct d; simpl; auto. Qed.

Lemma py_str_num_int d z : d <> DFloat -> pd.py_str d (Num z) = pd.str_of_Z z.
Proof. destruct d; simpl; congruence. Qed.

(** A date rendered from two numbers parses to these numbers or not at
    all. *)
Lemma strptime_numbers dm dy m y t :
  pd.strptime (pd.py_str dm (Num m) ++ "/" ++ pd.py_str dy (Num y)) = Some t ->
  t = pd.mkTimestamp y m.
Proof.
  unfold pd.strptime.
  destruct (py_str_num dm m) as [-> | ->].
  - rewrite split_slash_app by apply no_slash_str_of_Z.
    destruct (py_str_num dy y) as [-> | ->].
    + rewrite !int_of_str_of_Z.
      destruct (pd.match_m _ && pd.match_Y _); [|discriminate].
      now intros [= <-].
    + rewrite match_Y_float, andb_false_r. discriminate.
  - rewrite split_slash_app
      by (apply no_slash_app; [apply no_slash_str_of_Z | simpl; auto]).
    rewrite match_m_float. discriminate.
Qed.

Lemma match_m_month m : 1 <= m <= 12 -> pd.match_m (pd.str_of_Z m) = true.
Proof.
  intros H.
  assert (E : m = 1 \/ m = 2 \/ m = 3 \/ m = 4 \/ m = 5 \/ m = 6 \/ m = 7 \/
              m = 8 \/ m = 9 \/ m = 10 \/ m = 11 \/ m = 12) by lia.
  repeat destruct E as [-> | E]; try subst m; reflexivity.
Qed.

Lemma match_Y_year y : 1677 <= y <= 2262 -> pd.match_Y (pd.str_of_Z y) = true.
Proof.
  intros H.
  assert (A : forallb (fun k => pd.match_Y (pd.str_of_Z (1677 + Z.of_nat k)))
                (seq 0 586) = true) by (vm_compute; reflexivity).
  rewrite forallb_forall in A.
  specialize (A (Z.to_nat (y - 1677))).
  rewrite Z2Nat.id in A by lia.
  replace (1677 + (y - 1677)) with y in A by lia.
  apply A. apply in_seq. lia.
Qed.

Lemma parse_one_valid dm dy m y :
  dm <> DFloat -> dy <> DFloat -> valid_sale m y ->
  pd.parse_one (pd.py_str dm (Num m) ++ "/" ++ pd.py_str dy (Num y))
  = Ok (pd.mkTimestamp y m).
Proof.
  intros Hm Hy [V1 V2]. unfold pd.parse_one, pd.strptime.
  rewrite !py_str_num_int by assumption.
  rewrite split_slash_app by apply no_slash_str_of_Z.
  rewrite match_m_month by exact V1.
  rewrite match_Y_year by lia.
  rewrite !int_of_str_of_Z. simpl.
  replace (y =? 0) with false by (symmetry; lia).
  unfold pd.in_bounds. simpl.
  replace (1677 * 12 + 10 <=? y * 12 + m) with true by (symmetry; lia).
  replace (y * 12 + m <=? 2262 * 12 + 4) with true by (symmetry; lia).
  reflexivity.
Qed.

Lemma parse_one_numbers dm dy m y t :
  pd.parse_one (pd.py_str dm (Num m) ++ "/" ++ pd.py_str dy (Num y)) = Ok t ->
  t = pd.mkTimestamp y m.
Proof.
  unfold pd.parse_one.
  destruct (pd.strptime _) as [t'|] eqn:E; [|discriminate].
  apply strptime_numbers in E. subst t'.
  destruct (pd.year _ =? 0); [discriminate|].
  destruct (pd.in_bounds _); [|discriminate]. now intros [= <-].
Qed.

End dates.

(** * The date stage *)

Section date_stage.

Implicit Types (T : DataFrame) (mo yr : Series).

Lemma to_datetime_inv l ds :
  pd.to_datetime l = Ok ds -> Forall2 (fun s t => pd.parse_one s = Ok t) l ds.
Proof.
  revert ds. induction l as [|s l IH]; simpl; intros ds H.
  - inversion H. constructor.
  - destruct (pd.parse_one s) as [t|] eqn:E1; [|discriminate].
    destruct (pd.to_datetime l) as [r|]; [|discriminate].
    inversion H; subst. constructor; [exact E1 | now apply IH].
Qed.

Lemma to_datetime_ok l ds :
  Forall2 (fun s t => pd.parse_one s = Ok t) l ds -> pd.to_datetime l = Ok ds.
Proof.
  induction 1 as [|s t l ds Hs _ IH]; simpl; [reflexivity|].
  now rewrite Hs, IH.
Qed.

Lemma date_sold_run T mo yr :
  pd.assoc "MoSold" (columns T) = Some mo ->
  pd.assoc "YrSold" (columns T) = Some yr ->
  result transform_date_sold_stmts T
  = and_then (pd.to_datetime (sale_strings mo yr))
      (fun ds => Ok (date_sold_frame T ds)).
Proof.
  intros Hm Hy. unfold result, transform_date_sold_stmts, bind.
  rewrite (getitem_ok _ _ _ Hm), (getitem_ok _ _ _ Hy). unfold lift.
  fold (sale_strings mo yr).
  destruct (pd.to_datetime (sale_strings mo yr)) as [ds|e]; simpl; [|reflexivity].
  rewrite drop_ok; [reflexivity|].
  intros c [<-|[<-|[]]]; apply labels_assoc; simpl;
    rewrite assoc_set_ne by discriminate; congruence.
Qed.

Lemma date_sold_inv T T' :
  result transform_date_sold_stmts T = Ok T' ->
  exists mo yr ds,
    pd.assoc "MoSold" (columns T) = Some mo /\
    pd.assoc "YrSold" (columns T) = Some yr /\
    pd.to_datetime (sale_strings mo yr) = Ok ds /\
    T' = date_sold_frame T ds.
Proof.
  intros H.
  destruct (pd.assoc "MoSold" (columns T)) as [mo|] eqn:Hm.
  - destruct (pd.assoc "YrSold" (columns T)) as [yr|] eqn:Hy.
    + rewrite (date_sold_run _ _ _ Hm Hy) in H.
      destruct (pd.to_datetime (sale_strings mo yr)) as [ds|e] eqn:E;
        [|discriminate].
      simpl in H. inversion H; subst. now exists mo, yr, ds.
    + unfold result, transform_date_sold_stmts, bind in H.
      rewrite (getitem_ok _ _ _ Hm), (getitem_missing _ _ Hy) in H.
      discriminate.
  - unfold result, transform_date_sold_stmts, bind in H.
    rewrite (getitem_missing _ _ Hm) in H. discriminate.
Qed.

Lemma map_lookup {A B} (f : A -> B) (l : list A) (i : nat) :
  map f l !! i = option_map f (l !! i).
Proof.
  revert i. induction l as [|a l IH]; intros [|i]; simpl; try reflexivity.
  apply IH.
Qed.

Lemma str_join_lookup a sep b i x y :
  a !! i = Some x -> b !! i = Some y ->
  pd.str_join a sep b !! i = Some (x ++ sep ++ y)%string.
Proof.
  unfold pd.str_join. revert b i.
  induction a as [|x0 a IH]; intros [|y0 b] [|i]; simpl; try discriminate.
  - now intros [= ->] [= ->].
  - apply IH.
Qed.

(** Row by row: when the dates parse, the new column holds the month
    ordinal of the row. *)
Lemma month_num_sold_row mo yr ds i m y :
  pd.to_datetime (sale_strings mo yr) = Ok ds ->
  cells mo !! i = Some (Num m) -> cells yr !! i = Some (Num y) ->
  cells (month_num_sold ds) !! i = Some (Num ((y - 2000) * 12 + m)).
Proof.
  intros Hd Hm Hy. apply to_datetime_inv in Hd.
  assert (Hs : sale_strings mo yr !! i
               = Some (pd.py_str (dtype_of mo) (Num m) ++ "/"
                       ++ pd.py_str (dtype_of yr) (Num y))%string).
  { unfold sale_strings, pd.astype_str.
    apply str_join_lookup; rewrite map_lookup; [now rewrite Hm | now rewrite Hy]. }
  destruct (Forall2_lookup_l _ _ _ _ _ Hd Hs) as (t & Ht & Hp).
  apply parse_one_numbers in Hp. subst t.
  unfold month_num_sold, pd.apply. simpl. rewrite map_lookup, Ht. reflexivity.
Qed.

Lemma date_sold_frame_new T ds :
  pd.assoc "MonthNumSold" (columns (date_sold_frame T ds))
  = Some (month_num_sold ds).
Proof.
  unfold date_sold_frame. simpl. rewrite assoc_kept. simpl.
  apply assoc_set_eq.
Qed.

Lemma date_sold_frame_dropped T ds c :
  In c ["MoSold"; "YrSold"] -> ~ In c (pd.labels (date_sold_frame T ds)).
Proof.
  intros Hc H. apply labels_assoc in H. apply H.
  unfold date_sold_frame. simpl. rewrite assoc_kept.
  now rewrite (proj2 (has_label_true _ _) Hc).
Qed.

Lemma date_sold_frame_other T ds c :
  ~ In c ["MoSold"; "YrSold"; "MonthNumSold"] ->
  pd.assoc c (columns (date_sold_frame T ds)) = pd.assoc c (columns T).
Proof.
  intros Hc. unfold date_sold_frame. simpl. rewrite assoc_kept.
  assert (E : has_label c ["MoSold"; "YrSold"] = false).
  { apply has_label_false. simpl in *. tauto. }
  rewrite E. apply assoc_set_ne. simpl in Hc. intros <-. tauto.
Qed.

(** Valid dates parse. *)
Lemma sale_strings_valid mo yr :
  dtype_of mo <> DFloat -> dtype_of yr <> DFloat ->
  Forall2 (fun a b => exists m y, a = Num m /\ b = Num y /\ valid_sale m y)
    (cells mo) (cells yr) ->
  exists ds, pd.to_datetime (sale_strings mo yr) = Ok ds.
Proof.
  intros Hm Hy H. unfold sale_strings, pd.astype_str, pd.str_join.
  induction H as [|a b la lb (m & y & -> & -> & V) _ (ds & IH)];
    cbn [map combine pd.to_datetime].
  - now exists [].
  - rewrite (parse_one_valid _ _ _ _ Hm Hy V), IH. eexists. reflexivity.
Qed.

End date_stage.

(** * Methods that return a new table *)

Lemma keeps_empty w : keeps (mkWorld ∅ (self w)) w.
Proof. split; [reflexivity|]. intros Y T H. simpl in H. now rewrite lookup_empty in H. Qed.

Lemma new_method_result (stmts : prog DataFrame DataFrame) X w T :
  frames w !! X = Some T ->
  match result stmts T with
  | Ok T' =>
      exists w' Y, (T <- on X stmts ;; new T) w = (w', Ok Y) /\
                   frames w' !! Y = Some T'
  | Raise e => exists w', (T <- on X stmts ;; new T) w = (w', Raise e)
  end.
Proof.
  intros HT.
  pose proof (new_method_run stmts X _ w T (keeps_empty w)
                (lookup_empty X) HT) as R.
  destruct (result stmts T) as [T'|e].
  - destruct R as (w' & Y & E & _ & _ & F). now exists w', Y.
  - destruct R as (w' & E & _). now exists w'.
Qed.

Lemma new_method_returns (stmts : prog DataFrame DataFrame) X w T w' Y :
  frames w !! X = Some T ->
  (T <- on X stmts ;; new T) w = (w', Ok Y) ->
  exists T', result stmts T = Ok T' /\ frames w' !! Y = Some T'.
Proof.
  intros HT E. pose proof (new_method_result stmts X w T HT) as R.
  destruct (result stmts T) as [T'|e].
  - destruct R as (w2 & Y2 & E2 & F). rewrite E in E2. inversion E2; subst.
    now exists T'.
  - destruct R as (w2 & E2). rewrite E in E2. discriminate.
Qed.

(** * The date encoding *)

Lemma months_order m1 y1 m2 y2 :
  1 <= m1 <= 12 -> 1 <= m2 <= 12 ->
  (earlier m1 y1 m2 y2 <->
   get_months_after_start_year 2000 (pd.mkTimestamp y1 m1)
   < get_months_after_start_year 2000 (pd.mkTimestamp y2 m2)).
Proof. unfold earlier, get_months_after_start_year. simpl. lia. Qed.

(** C2.  The date stage on a table with columns [MoSold] and [YrSold].
    Whenever it returns, the table returned has a column [MonthNumSold]
    whose cell is [(YrSold - 2000) * 12 + MoSold] in every row where the two
    are numbers, has the row-ids of the input, and has neither [MoSold] nor
    [YrSold].  It does return when the two columns are integer columns whose
    rows are valid dates.  The ordinal orders sales as the calendar does. *)
Theorem date_sold_encoding (X : loc) (w : world) (T : DataFrame) (mo yr : Series) :
  frames w !! X = Some T ->
  pd.assoc "MoSold" (columns T) = Some mo ->
  pd.assoc "YrSold" (columns T) = Some yr ->
  (forall w' Y, _transform_date_sold X w = (w', Ok Y) ->
     exists T' new,
       frames w' !! Y = Some T' /\ index T' = index T /\
       pd.assoc "MonthNumSold" (columns T') = Some new /\
       (forall i m y,
          cells mo !! i = Some (Num m) -> cells yr !! i = Some (Num y) ->
          cells new !! i = Some (Num ((y - 2000) * 12 + m))) /\
       ~ In "MoSold" (pd.labels T') /\ ~ In "YrSold" (pd.labels T')) /\
  (dtype_of mo <> DFloat -> dtype_of yr <> DFloat ->
   Forall2 (fun a b => exists m y, a = Num m /\ b = Num y /\ valid_sale m y)
     (cells mo) (cells yr) ->
   exists w' Y, _transform_date_sold X w = (w', Ok Y)) /\
  (forall m1 y1 m2 y2, 1 <= m1 <= 12 -> 1 <= m2 <= 12 ->
     (earlier m1 y1 m2 y2 <->
      get_months_after_start_year 2000 (pd.mkTimestamp y1 m1)
      < get_months_after_start_year 2000 (pd.mkTimestamp y2 m2))).
Proof.
  intros HT Hm Hy. split; [|split; [|apply months_order]].
  - intros w' Y E. unfold _transform_date_sold in E.
    destruct (new_method_returns _ _ _ _ _ _ HT E) as (T' & R & F).
    rewrite (date_sold_run _ _ _ Hm Hy) in R.
    destruct (pd.to_datetime (sale_strings mo yr)) as [ds|e] eqn:D;
      [|discriminate].
    simpl in R. inversion R; subst T'. exists (date_sold_frame T ds), (month_num_sold ds).
    split; [exact F|]. split; [reflexivity|].
    split; [apply date_sold_frame_new|].
    split; [intros i m y; now apply month_num_sold_row|].
    split; apply date_sold_frame_dropped; simpl; auto.
  - intros Dm Dy V. destruct (sale_strings_valid _ _ Dm Dy V) as (ds & D).
    pose proof (new_method_result transform_date_sold_stmts X w T HT) as R.
    rewrite (date_sold_run _ _ _ Hm Hy), D in R. simpl in R.
    destruct R as (w' & Y & E & _). now exists w', Y.
Qed.

Lemma date_sold_encoding_witness :
  exists w' Y T' new,
    _transform_date_sold 0%nat (Sample.world_of Sample.sales) = (w', Ok Y) /\
    frames w' !! Y = Some T' /\
    pd.assoc "MonthNumSold" (columns T') = Some new /\
    cells new !! 0%nat = Some (Num 101) /\
    cells new !! 1%nat = Some (Num 13) /\
    cells new !! 2%nat = Some (Num 12) /\
    cells new !! 3%nat = Some (Num 1) /\
    ~ In "MoSold" (pd.labels T') /\ ~ In "YrSold" (pd.labels T').
Proof.
  destruct (date_sold_encoding 0%nat (Sample.world_of Sample.sales) Sample.sales
              (Sample.ints [5; 1; 12; 1]) (Sample.ints [2008; 2001; 2000; 2000])
              eq_refl eq_refl eq_refl) as (A & B & _).
  destruct B as (w' & Y & E).
  - discriminate.
  - discriminate.
  - simpl. repeat constructor; do 2 eexists;
      (split; [reflexivity|]); (split; [reflexivity|]); unfold valid_sale; lia.
  - destruct (A _ _ E) as (T' & new & F & _ & N & R & D1 & D2).
    exists w', Y, T', new. split; [exact E|]. split; [exact F|].
    split; [exact N|].
    split; [exact (R 0%nat 5 2008 eq_refl eq_refl)|].
    split; [exact (R 1%nat 1 2001 eq_refl eq_refl)|].
    split; [exact (R 2%nat 12 2000 eq_refl eq_refl)|].
    split; [exact (R 3%nat 1 2000 eq_refl eq_refl)|].
    now split.
Defined.

(** * The binarization stage *)

Section binarize_loop.

Variable name : string -> value -> string.
Variable mk : Series -> value -> Series.

Let body : string * value -> prog DataFrame unit :=
  fun '(col, v) => s <- pd.getitem col ;; pd.setitem (name col v) (mk s v).

Lemma loop_run rules T idx l :
  (forall col v, In (col, v) rules -> pd.assoc col (columns T) <> None) ->
  (forall col v col' v', In (col, v) rules -> In (col', v') rules ->
                         name col' v' <> col) ->
  (forall col v, In (col, v) rules -> pd.assoc col l = pd.assoc col (columns T)) ->
  for_each rules body (mkFrame idx l)
  = (mkFrame idx (assign_all (loop_columns name mk rules T) l), Ok tt).
Proof.
  revert l. induction rules as [|[col v] rules IH]; intros l Hp Hn Hl.
  - reflexivity.
  - cbn [for_each]. unfold bind at 1. unfold body at 1. unfold bind at 1.
    assert (Hc : pd.assoc col l = Some (col_or_empty T col)).
    { rewrite (Hl col v) by now left. unfold col_or_empty.
      specialize (Hp col v (or_introl eq_refl)).
      now destruct (pd.assoc col (columns T)). }
    rewrite (getitem_ok col (col_or_empty T col) (mkFrame idx l) Hc).
    unfold pd.setitem, modify. cbn [index columns].
    rewrite IH.
    + reflexivity.
    + intros c' v' H. apply (Hp c' v'). now right.
    + intros c1 v1 c2 v2 H1 H2. apply (Hn c1 v1 c2 v2); now right.
    + intros c' v' H. rewrite assoc_set_ne.
      * apply (Hl c' v'). now right.
      * apply (Hn c' v' col v); [now right | now left].
Qed.

Lemma loop_labels rules T T1 r c :
  for_each rules body T = (T1, r) ->
  In c (pd.labels T1) ->
  In c (pd.labels T) \/ exists col v, In (col, v) rules /\ c = name col v.
Proof.
  revert T. induction rules as [|[col v] rules IH]; intros T.
  - intros [= <- _]. now left.
  - cbn [for_each]. unfold bind at 1. unfold body at 1. unfold bind at 1.
    unfold pd.getitem.
    destruct (pd.assoc col (columns T)) as [s|].
    + unfold pd.setitem, modify. intros E Hc.
      destruct (IH _ E Hc) as [H|(c' & v' & H & ->)].
      * unfold pd.labels in H. simpl in H.
        apply assoc_set_in_labels in H. destruct H as [->|H].
        -- right. exists col, v. split; [now left | reflexivity].
        -- now left.
      * right. exists c', v'. split; [now right | reflexivity].
    + intros [= <- _]. now left.
Qed.

Lemma loop_index rules T T1 r :
  for_each rules body T = (T1, r) -> index T1 = index T.
Proof.
  revert T. induction rules as [|[col v] rules IH]; intros T.
  - now intros [= <- _].
  - cbn [for_each]. unfold bind at 1. unfold body at 1. unfold bind at 1.
    unfold pd.getitem.
    destruct (pd.assoc col (columns T)) as [s|].
    + unfold pd.setitem, modify. intros E. now rewrite (IH _ E).
    + now intros [= <- _].
Qed.

End binarize_loop.

Section binarize_stage.

Implicit Types (T : DataFrame) (c col : string).

Lemma binarized_names_not_sources c :
  In c binarized_names -> ~ In c binarize_sources.
Proof. apply disjointb_spec. reflexivity. Qed.

Lemma true_rule_source col v :
  In (col, v) binarize_features_by_true_value -> In col binarize_sources.
Proof.
  intros H. unfold binarize_sources. apply in_or_app. left.
  apply in_map_iff. now exists (col, v).
Qed.

Lemma false_rule_source col v :
  In (col, v) binarize_features_by_false_value -> In col binarize_sources.
Proof.
  intros H. unfold binarize_sources. apply in_or_app. right.
  apply in_map_iff. now exists (col, v).
Qed.

Lemma true_rule_name col v :
  In (col, v) binarize_features_by_true_value -> In (true_name col v) binarized_names.
Proof.
  intros H. unfold binarized_names. apply in_or_app. left.
  apply in_map_iff. now exists (col, v).
Qed.

Lemma false_rule_name col v :
  In (col, v) binarize_features_by_false_value -> In (false_name col v) binarized_names.
Proof.
  intros H. unfold binarized_names. apply in_or_app. right.
  apply in_map_iff. now exists (col, v).
Qed.

Lemma new_columns_labels T : map fst (new_columns T) = binarized_names.
Proof. reflexivity. Qed.

Lemma assign_all_app ps qs (l : list (string * Series)) :
  assign_all (ps ++ qs) l = assign_all qs (assign_all ps l).
Proof. unfold assign_all. apply fold_left_app. Qed.

(** With its seven source columns present the stage returns
    [binarize_frame]. *)
Lemma binarize_run T :
  (forall c, In c binarize_sources -> In c (pd.labels T)) ->
  binarize_features_stmts T
  = (mkFrame (index T) (assign_all (new_columns T) (columns T)),
     Ok (binarize_frame T)).
Proof.
  intros Hp. unfold binarize_features_stmts, bind.
  destruct T as [idx l]. cbn [index columns] in *.
  rewrite (loop_run true_name pd.eq_scalar _ (mkFrame idx l) idx l).
  - rewrite (loop_run false_name pd.ne_scalar _ (mkFrame idx l) idx).
    + rewrite <- assign_all_app. fold (new_columns (mkFrame idx l)).
      rewrite drop_ok; [reflexivity|].
      intros c Hc. apply labels_assoc. cbn [columns].
      rewrite assign_all_other.
      * apply (proj1 (labels_assoc c (mkFrame idx l))). now apply Hp.
      * rewrite new_columns_labels. intros N.
        now apply (binarized_names_not_sources c).
    + intros col v H. apply (proj1 (labels_assoc col (mkFrame idx l))), Hp.
      now apply false_rule_source with v.
    + intros col v col' v' H H'. intros E.
      apply (binarized_names_not_sources (false_name col' v')).
      * now apply false_rule_name.
      * rewrite E. now apply false_rule_source with v.
    + intros col v H. apply assign_all_other.
      intros N. apply (binarized_names_not_sources col).
      * unfold binarized_names. apply in_or_app. now left.
      * now apply false_rule_source with v.
  - intros col v H. apply (proj1 (labels_assoc col (mkFrame idx l))), Hp.
    now apply true_rule_source with v.
  - intros col v col' v' H H'. intros E.
    apply (binarized_names_not_sources (true_name col' v')).
    + now apply true_rule_name.
    + rewrite E. now apply true_rule_source with v.
  - reflexivity.
Qed.

Lemma binarize_inv T T' :
  result binarize_features_stmts T = Ok T' ->
  T' = binarize_frame T /\ forall c, In c binarize_sources -> In c (pd.labels T).
Proof.
  intros H.
  assert (Hp : forall c, In c binarize_sources -> In c (pd.labels T)).
  { unfold result, binarize_features_stmts, bind in H.
    destruct (for_each binarize_features_by_true_value _ T) as [T1 [[]|e]] eqn:E1;
      [|discriminate].
    destruct (for_each binarize_features_by_false_value _ T1) as [T2 [[]|e]] eqn:E2;
      [|discriminate].
    fold binarize_sources in H. apply drop_inv in H. destruct H as [_ H].
    intros c Hc.
    destruct (loop_labels false_name pd.ne_scalar _ _ _ _ c E2 (H c Hc))
      as [H1|(col & v & Hin & ->)].
    - destruct (loop_labels true_name pd.eq_scalar _ _ _ _ c E1 H1)
        as [H0|(col & v & Hin & ->)]; [exact H0|].
      exfalso. apply (binarized_names_not_sources (true_name col v));
        [now apply true_rule_name | exact Hc].
    - exfalso. apply (binarized_names_not_sources (false_name col v));
        [now apply false_rule_name | exact Hc]. }
  split; [|exact Hp].
  unfold result in H. rewrite (binarize_run _ Hp) in H. simpl in H. congruence.
Qed.

Lemma binarized_names_nodup : List.NoDup binarized_names.
Proof. apply nodupb_NoDup. reflexivity. Qed.

Lemma binarize_frame_new T c s :
  In (c, s) (new_columns T) ->
  pd.assoc c (columns (binarize_frame T)) = Some s.
Proof.
  intros H. unfold binarize_frame. cbn [columns]. rewrite assoc_kept.
  assert (Hc : In c binarized_names).
  { rewrite <- (new_columns_labels T). apply in_map_iff. now exists (c, s). }
  rewrite (proj2 (has_label_false _ _) (binarized_names_not_sources _ Hc)).
  apply assign_all_in; [|exact H].
  rewrite new_columns_labels. apply binarized_names_nodup.
Qed.

Lemma binarize_frame_dropped T c :
  In c binarize_sources -> ~ In c (pd.labels (binarize_frame T)).
Proof.
  intros Hc H. apply labels_assoc in H. apply H.
  unfold binarize_frame. cbn [columns]. rewrite assoc_kept.
  now rewrite (proj2 (has_label_true _ _) Hc).
Qed.

Lemma binarize_frame_other T c :
  ~ In c binarize_sources -> ~ In c binarized_names ->
  pd.assoc c (columns (binarize_frame T)) = pd.assoc c (columns T).
Proof.
  intros H1 H2. unfold binarize_frame. cbn [columns]. rewrite assoc_kept.
  rewrite (proj2 (has_label_false _ _) H1).
  apply assign_all_other. now rewrite new_columns_labels.
Qed.

End binarize_stage.

Lemma py_eq_str x t : py_eq x (Str t) = true <-> x = Str t.
Proof.
  destruct x as [|z|s|[|]]; simpl; split; intros H; try discriminate.
  - apply String.eqb_eq in H. now subst.
  - inversion H. apply String.eqb_refl.
Qed.

Lemma py_eq_num z k : py_eq (Num z) (Num k) = true <-> z = k.
Proof. simpl. apply Z.eqb_eq. Qed.

(** C3.  The binarization stage on a table that has its seven source
    columns returns a table with the same row-ids in which, for each rule
    [col: true_val] of the first rule set, the column [col_is_true_val] is a
    boolean column whose cell is true exactly in the rows where the cell of
    [col] is [true_val], and, for each rule [col: 0] of the second rule set,
    the column [col_not_0] is a boolean column whose cell is true exactly in
    the rows where the cell of [col] does not equal [0] (Python's [==]).  The
    seven labels are those of the claim. *)
Theorem binarize_features_correct (X : loc) (w : world) (T : DataFrame) :
  frames w !! X = Some T ->
  (forall c, In c binarize_sources -> In c (pd.labels T)) ->
  exists w' Y T',
    _binarize_features X w = (w', Ok Y) /\
    frames w' !! Y = Some T' /\
    index T' = index T /\
    (forall col v s,
       In (col, v) binarize_features_by_true_value ->
       pd.assoc col (columns T) = Some s ->
       exists b,
         pd.assoc (col ++ "_is_" ++ pd.py_str DObject v)%string (columns T') = Some b /\
         dtype_of b = DBool /\
         length (cells b) = length (cells s) /\
         forall i x, cells s !! i = Some x ->
           exists t, cells b !! i = Some (Bool t) /\ (t = true <-> x = v)) /\
    (forall col v s,
       In (col, v) binarize_features_by_false_value ->
       pd.assoc col (columns T) = Some s ->
       exists b,
         pd.assoc (col ++ "_not_" ++ pd.py_str DObject v)%string (columns T') = Some b /\
         dtype_of b = DBool /\
         length (cells b) = length (cells s) /\
         forall i x, cells s !! i = Some x ->
           exists t, cells b !! i = Some (Bool t) /\ (t = true <-> py_eq x v = false)) /\
    binarize_features_by_true_value
      = [("Condition2", Str "Norm"); ("RoofMatl", Str "CompShg"); ("Heating", Str "GasA")] /\
    binarize_features_by_false_value
      = [("LowQualFinSF", Num 0); ("3SsnPorch", Num 0); ("PoolArea", Num 0); ("MiscVal", Num 0)] /\
    binarized_names
      = ["Condition2_is_Norm"; "RoofMatl_is_CompShg"; "Heating_is_GasA";
         "LowQualFinSF_not_0"; "3SsnPorch_not_0"; "PoolArea_not_0"; "MiscVal_not_0"].
Proof.
  intros HT Hp.
  pose proof (new_method_result binarize_features_stmts X w T HT) as R.
  unfold result in R. rewrite (binarize_run _ Hp) in R. simpl in R.
  destruct R as (w' & Y & E & F). exists w', Y, (binarize_frame T).
  split; [exact E|]. split; [exact F|]. split; [reflexivity|].
  split; [|split; [|repeat split]].
  - intros col v s Hin Hs. exists (pd.eq_scalar s v).
    split; [|split; [reflexivity|split]].
    + apply binarize_frame_new. unfold new_columns. apply in_or_app. left.
      unfold loop_columns. apply in_map_iff. exists (col, v).
      split; [|exact Hin]. unfold col_or_empty. now rewrite Hs.
    + simpl. apply length_map.
    + intros i x Hx. exists (py_eq x v). simpl. rewrite map_lookup, Hx.
      split; [reflexivity|].
      assert (Hv : exists t, v = Str t).
      { simpl in Hin. destruct Hin as [[= _ <-]|[[= _ <-]|[[= _ <-]|[]]]]; eauto. }
      destruct Hv as (t & ->). apply py_eq_str.
  - intros col v s Hin Hs. exists (pd.ne_scalar s v).
    split; [|split; [reflexivity|split]].
    + apply binarize_frame_new. unfold new_columns. apply in_or_app. right.
      unfold loop_columns. apply in_map_iff. exists (col, v).
      split; [|exact Hin]. unfold col_or_empty. now rewrite Hs.
    + simpl. apply length_map.
    + intros i x Hx. exists (negb (py_eq x v)). simpl. rewrite map_lookup, Hx.
      split; [reflexivity|]. apply negb_true_iff.
Qed.

Lemma binarize_features_correct_witness :
  exists w' Y T',
    _binarize_features 0%nat (Sample.world_of Sample.raw) = (w', Ok Y) /\
    frames w' !! Y = Some T' /\
    pd.assoc "Condition2" (columns Sample.raw)
      = Some (Sample.obj [Str "Norm"; Str "Feedr"]) /\
    pd.assoc "Condition2_is_Norm" (columns T')
      = Some (mkSeries DBool [Bool true; Bool false]) /\
    pd.assoc "PoolArea" (columns Sample.raw) = Some (Sample.ints [0; 150]) /\
    pd.assoc "PoolArea_not_0" (columns T')
      = Some (mkSeries DBool [Bool false; Bool true]).
Proof.
  destruct (binarize_features_correct 0%nat (Sample.world_of Sample.raw)
              Sample.raw eq_refl) as (w' & Y & T' & E & F & _).
  - intros c Hc. apply has_label_true. revert c Hc. apply forallb_forall.
    vm_compute. reflexivity.
  - exists w', Y, T'. split; [exact E|]. split; [exact F|].
    assert (R : snd (_binarize_features 0%nat (Sample.world_of Sample.raw))
                = Ok 1%nat) by (vm_compute; reflexivity).
    rewrite E in R. simpl in R. inversion R; subst Y.
    assert (W : frames (fst (_binarize_features 0%nat (Sample.world_of Sample.raw)))
                  !! 1%nat
                = Some (binarize_frame Sample.raw)) by (vm_compute; reflexivity).
    rewrite E in W. cbn [fst] in W.
    pose proof (eq_trans (eq_sym F) W) as Q. inversion Q; subst T'.
    repeat split; vm_compute; reflexivity.
Defined.

(** * The stages in sequence *)

Section pipeline.

Implicit Types (T : DataFrame) (c : string).

Lemma cast_types_inv T T1 :
  after cast_types_stmts T = Ok T1 ->
  exists s,
    pd.assoc "MSSubClass" (columns T) = Some s /\
    T1 = mkFrame (index T)
           (pd.assoc_set "MSSubClass" (pd.astype_category s) (columns T)).
Proof.
  unfold after, cast_types_stmts, cols_cast_category. cbn [for_each].
  unfold bind, pd.getitem.
  destruct (pd.assoc "MSSubClass" (columns T)) as [s|]; [|discriminate].
  unfold pd.setitem, modify, ret. intros [= <-]. now exists s.
Qed.

Lemma stages_frame_inv T T5 :
  stages_frame T = Ok T5 ->
  exists T1 T2 T3 T4,
    after cast_types_stmts T = Ok T1 /\
    after fillna_stmts T1 = Ok T2 /\
    result (pd.drop cols_drop) T2 = Ok T3 /\
    result transform_date_sold_stmts T3 = Ok T4 /\
    result binarize_features_stmts T4 = Ok T5.
Proof.
  unfold stages_frame, and_then.
  destruct (after cast_types_stmts T) as [T1|] eqn:E1; [|discriminate].
  destruct (after fillna_stmts T1) as [T2|] eqn:E2; [|discriminate].
  destruct (result (pd.drop cols_drop) T2) as [T3|] eqn:E3; [|discriminate].
  destruct (result transform_date_sold_stmts T3) as [T4|] eqn:E4; [|discriminate].
  intros H. now exists T1, T2, T3, T4.
Qed.

Lemma transform_frame_inv T T' :
  transform_frame T = Ok T' -> stages_frame T = Ok T' /\ no_missing T'.
Proof.
  unfold transform_frame, and_then.
  destruct (stages_frame T) as [T5|] eqn:E; [|discriminate].
  pose proof (validate_inv T5 _ eq_refl) as V.
  destruct (result validate_no_nans_stmts T5) as [[]|]; [|discriminate].
  now intros [= <-].
Qed.

Lemma fillna_stmts_other T T' c :
  after fillna_stmts T = Ok T' ->
  ~ In c cols_fillna_None_str -> ~ In c cols_fillna_0 ->
  pd.assoc c (columns T') = pd.assoc c (columns T).
Proof.
  intros H N1 N2. apply fillna_stmts_inv in H. destruct H as (T1 & H1 & H2).
  destruct (fillna_inplace_inv _ _ _ _ cols_fillna_None_str_nodup H1)
    as (_ & O1 & _).
  destruct (fillna_inplace_inv _ _ _ _ cols_fillna_0_nodup H2)
    as (_ & O2 & _).
  now rewrite O2, O1.
Qed.

Lemma fillna_stmts_index T T' :
  after fillna_stmts T = Ok T' -> index T' = index T.
Proof.
  intros H. apply fillna_stmts_inv in H. destruct H as (T1 & H1 & H2).
  destruct (fillna_inplace_inv _ _ _ _ cols_fillna_None_str_nodup H1)
    as (I1 & _).
  destruct (fillna_inplace_inv _ _ _ _ cols_fillna_0_nodup H2)
    as (I2 & _).
  congruence.
Qed.

(** The row-ids are those of the input. *)
Lemma stages_frame_index T T5 : stages_frame T = Ok T5 -> index T5 = index T.
Proof.
  intros H. apply stages_frame_inv in H.
  destruct H as (T1 & T2 & T3 & T4 & H1 & H2 & H3 & H4 & H5).
  apply cast_types_inv in H1. destruct H1 as (s & _ & ->).
  apply fillna_stmts_index in H2.
  apply drop_inv in H3. destruct H3 as [-> _].
  apply date_sold_inv in H4. destruct H4 as (mo & yr & ds & _ & _ & _ & ->).
  apply binarize_inv in H5. destruct H5 as [-> _].
  simpl in *. congruence.
Qed.

(** A column that no stage names is handed through. *)
Lemma stages_frame_other T T5 c :
  stages_frame T = Ok T5 ->
  ~ In c expected_columns -> ~ In c generated_names ->
  pd.assoc c (columns T5) = pd.assoc c (columns T).
Proof.
  intros H Ne Ng. apply stages_frame_inv in H.
  destruct H as (T1 & T2 & T3 & T4 & H1 & H2 & H3 & H4 & H5).
  unfold expected_columns in Ne. rewrite !in_app_iff in Ne.
  fold binarize_sources in Ne.
  assert (Ng' : c <> "MonthNumSold" /\ ~ In c binarized_names).
  { unfold generated_names in Ng. simpl in Ng. split; [intros ->|]; tauto. }
  apply cast_types_inv in H1. destruct H1 as (s & _ & ->).
  apply (fillna_stmts_other _ _ c) in H2; [|tauto|tauto].
  apply drop_inv in H3. destruct H3 as [-> _].
  apply date_sold_inv in H4. destruct H4 as (mo & yr & ds & _ & _ & _ & ->).
  apply binarize_inv in H5. destruct H5 as [-> _].
  rewrite binarize_frame_other;
    [|rewrite <- in_app_iff in Ne; tauto | tauto].
  rewrite date_sold_frame_other by (simpl in *; tauto).
  cbn [columns]. rewrite assoc_kept.
  rewrite (proj2 (has_label_false c cols_drop)) by tauto.
  rewrite H2. cbn [columns]. apply assoc_set_ne.
  intros <-. apply Ne. left. now left.
Qed.

Lemma removed_not_generated c : In c removed_names -> ~ In c generated_names.
Proof. apply disjointb_spec. reflexivity. Qed.

(** Dropped columns stay dropped. *)
Lemma stages_frame_removed T T5 c :
  stages_frame T = Ok T5 -> In c removed_names -> ~ In c (pd.labels T5).
Proof.
  intros H Hc. pose proof (removed_not_generated c Hc) as Ng.
  assert (Ng' : c <> "MonthNumSold" /\ ~ In c binarized_names).
  { unfold generated_names in Ng. simpl in Ng. split; [intros ->|]; tauto. }
  apply stages_frame_inv in H.
  destruct H as (T1 & T2 & T3 & T4 & _ & _ & H3 & H4 & H5).
  apply drop_inv in H3. destruct H3 as [-> _].
  apply date_sold_inv in H4. destruct H4 as (mo & yr & ds & _ & _ & _ & ->).
  apply binarize_inv in H5. destruct H5 as [-> _].
  unfold removed_names in Hc. rewrite !in_app_iff in Hc.
  destruct Hc as [Hc|[Hc|Hc]].
  - intros L. apply labels_assoc in L. apply L.
    destruct (in_dec string_dec c binarize_sources) as [I|N].
    + apply labels_assoc_none. now apply binarize_frame_dropped.
    + rewrite binarize_frame_other by tauto.
      destruct (in_dec string_dec c ["MoSold"; "YrSold"]) as [I2|N2].
      * apply labels_assoc_none. now apply date_sold_frame_dropped.
      * rewrite date_sold_frame_other by (simpl in *; tauto).
        cbn [columns]. rewrite assoc_kept.
        now rewrite (proj2 (has_label_true c cols_drop) Hc).
  - intros L. apply labels_assoc in L. apply L.
    destruct (in_dec string_dec c binarize_sources) as [I|N].
    + apply labels_assoc_none. now apply binarize_frame_dropped.
    + rewrite binarize_frame_other by tauto.
      apply labels_assoc_none. now apply date_sold_frame_dropped.
  - now apply binarize_frame_dropped.
Qed.

End pipeline.

(** * What [transform] returns *)

Lemma transform_returns X w T w' Y :
  frames w !! X = Some T ->
  transform X w = (w', Ok Y) ->
  exists T', transform_frame T = Ok T' /\ frames w' !! Y = Some T'.
Proof.
  intros HT E. destruct (transform_run _ _ _ HT) as (w2 & _ & R).
  destruct (transform_frame T) as [T'|e].
  - destruct R as (Y2 & E2 & _ & F). rewrite E in E2. inversion E2; subst.
    now exists T'.
  - rewrite E in R. discriminate.
Qed.

(** C5 as stated fails on the count: the two binarization rule sets have
    seven source columns, not eight. *)
Lemma binarize_sources_count_counterexample :
  map fst binarize_features_by_true_value
    ++ map fst binarize_features_by_false_value
  = ["Condition2"; "RoofMatl"; "Heating";
     "LowQualFinSF"; "3SsnPorch"; "PoolArea"; "MiscVal"] /\
  length (map fst binarize_features_by_true_value
            ++ map fst binarize_features_by_false_value) <> 8%nat.
Proof. split; [reflexivity | discriminate]. Qed.

(** C5, amended.  A table returned by [transform] has none of the six
    dropped columns, none of the seven source columns of the two
    binarization rule sets, and neither [MoSold] nor [YrSold]. *)
Theorem transform_drops_columns (X Y : loc) (w w' : world) (T : DataFrame) :
  frames w !! X = Some T ->
  transform X w = (w', Ok Y) ->
  exists T',
    frames w' !! Y = Some T' /\
    (forall c,
       In c ["1stFlrSF"; "GarageArea"; "GarageYrBlt"; "TotRmsAbvGrd";
             "Street"; "Utilities"] ->
       ~ In c (pd.labels T')) /\
    (forall c,
       In c ["Condition2"; "RoofMatl"; "Heating";
             "LowQualFinSF"; "3SsnPorch"; "PoolArea"; "MiscVal"] ->
       ~ In c (pd.labels T')) /\
    ~ In "MoSold" (pd.labels T') /\
    ~ In "YrSold" (pd.labels T') /\
    cols_drop = ["1stFlrSF"; "GarageArea"; "GarageYrBlt"; "TotRmsAbvGrd";
                 "Street"; "Utilities"] /\
    binarize_sources = ["Condition2"; "RoofMatl"; "Heating";
                        "LowQualFinSF"; "3SsnPorch"; "PoolArea"; "MiscVal"].
Proof.
  intros HT E. destruct (transform_returns _ _ _ _ _ HT E) as (T' & R & F).
  apply transform_frame_inv in R. destruct R as [S _].
  exists T'. split; [exact F|].
  split; [|split; [|split; [|split; [|split; reflexivity]]]].
  - intros c Hc. apply (stages_frame_removed _ _ _ S).
    unfold removed_names. apply in_or_app. now left.
  - intros c Hc. apply (stages_frame_removed _ _ _ S).
    unfold removed_names. apply in_or_app. right. apply in_or_app. now right.
  - apply (stages_frame_removed _ _ _ S). unfold removed_names.
    apply in_or_app. right. apply in_or_app. left. now left.
  - apply (stages_frame_removed _ _ _ S). unfold removed_names.
    apply in_or_app. right. apply in_or_app. left. right. now left.
Qed.

Lemma transform_drops_columns_witness :
  exists w' Y T',
    transform 0%nat (Sample.world_of Sample.raw) = (w', Ok Y) /\
    frames w' !! Y = Some T' /\
    ~ In "Street" (pd.labels T') /\ ~ In "PoolArea" (pd.labels T') /\
    ~ In "MoSold" (pd.labels T').
Proof.
  assert (E : transform 0%nat (Sample.world_of Sample.raw)
              = (fst (transform 0%nat (Sample.world_of Sample.raw)), Ok 4%nat))
    by (vm_compute; reflexivity).
  destruct (transform_drops_columns 0%nat 4%nat (Sample.world_of Sample.raw) _
              Sample.raw eq_refl E)
    as (T' & F & D & B & M & _).
  eexists _, _, T'. split; [exact E|]. split; [exact F|].
  split; [apply D; simpl; tauto|]. split; [apply B; simpl; tauto | exact M].
Defined.

(** C7 as stated fails: [Condition2_is_Norm] is in no configuration list,
    the input has a column of that name, and [transform] returns a table in
    which the column has other cells. *)
Lemma transform_overwrites_counterexample :
  ~ In "Condition2_is_Norm" expected_columns /\
  pd.assoc "Condition2_is_Norm" (columns Sample.with_flag)
    = Some (mkSeries DObject [Str "x"; Str "y"]) /\
  exists w' T',
    transform 0%nat (Sample.world_of Sample.with_flag) = (w', Ok 4%nat) /\
    frames w' !! 4%nat = Some T' /\
    pd.assoc "Condition2_is_Norm" (columns T')
      = Some (mkSeries DBool [Bool true; Bool false]).
Proof.
  split; [|split].
  - apply has_label_false. vm_compute. reflexivity.
  - vm_compute. reflexivity.
  - exists (fst (transform 0%nat (Sample.world_of Sample.with_flag))).
    eexists. split; [vm_compute; reflexivity|].
    split; vm_compute; reflexivity.
Qed.

(** C7, amended.  A table returned by [transform] has the row-ids of the
    input, in the same order, and every column of the input whose label is
    neither in a configuration list (nor [MoSold], [YrSold]) nor one of the
    eight labels the pipeline assigns is in the output as it was: same
    cells, same dtype. *)
Theorem transform_passes_through (X Y : loc) (w w' : world) (T : DataFrame) :
  frames w !! X = Some T ->
  transform X w = (w', Ok Y) ->
  exists T',
    frames w' !! Y = Some T' /\
    index T' = index T /\
    (forall c s,
       ~ In c expected_columns ->
       ~ In c ["MonthNumSold"; "Condition2_is_Norm"; "RoofMatl_is_CompShg";
               "Heating_is_GasA"; "LowQualFinSF_not_0"; "3SsnPorch_not_0";
               "PoolArea_not_0"; "MiscVal_not_0"] ->
       pd.assoc c (columns T) = Some s ->
       pd.assoc c (columns T') = Some s).
Proof.
  intros HT E. destruct (transform_returns _ _ _ _ _ HT E) as (T' & R & F).
  apply transform_frame_inv in R. destruct R as [S _].
  exists T'. split; [exact F|]. split; [now apply stages_frame_index|].
  intros c s Ne Ng Hs. rewrite <- Hs. now apply stages_frame_other.
Qed.

Lemma transform_passes_through_witness :
  exists w' Y T',
    transform 0%nat (Sample.world_of Sample.raw) = (w', Ok Y) /\
    frames w' !! Y = Some T' /\
    index T' = [1; 2] /\
    pd.assoc "Neighborhood" (columns T') = Some (Sample.obj [Str "A"; Str "B"]) /\
    pd.assoc "LotArea" (columns T') = Some (Sample.ints [8450; 9600]).
Proof.
  assert (E : transform 0%nat (Sample.world_of Sample.raw)
              = (fst (transform 0%nat (Sample.world_of Sample.raw)), Ok 4%nat))
    by (vm_compute; reflexivity).
  destruct (transform_passes_through 0%nat 4%nat (Sample.world_of Sample.raw) _
              Sample.raw eq_refl E)
    as (T' & F & I & P).
  eexists _, _, T'. split; [exact E|]. split; [exact F|]. split; [exact I|].
  split; apply P; try reflexivity;
    apply has_label_false; vm_compute; reflexivity.
Defined.

(** * [fit_transform] *)

Section fit.

Implicit Types (w : world) (X : loc) (T : DataFrame).

Lemma getitem_state c T : fst (pd.getitem c T) = T.
Proof. unfold pd.getitem. now destruct (pd.assoc c (columns T)). Qed.

Lemma vocab_step X w T col :
  frames w !! X = Some T ->
  (s <- on X (pd.getitem col) ;; lift (pd.sorted (pd.unique s))) w
  = (w, match pd.assoc col (columns T) with
        | None => Raise (KeyError [col])
        | Some s => pd.sorted (pd.unique s)
        end).
Proof.
  intros HT. unfold bind.
  rewrite (on_run _ _ _ _ HT), getitem_state, (set_frame_id _ _ _ HT).
  unfold pd.getitem. now destruct (pd.assoc col (columns T)).
Qed.

Lemma list_comp_vocab X w T cols :
  frames w !! X = Some T ->
  list_comp cols (fun col =>
    s <- on X (pd.getitem col) ;; lift (pd.sorted (pd.unique s))) w
  = (w, category_lists T cols).
Proof.
  intros HT. induction cols as [|col cols IH]; [reflexivity|].
  cbn [list_comp category_lists].
  pose proof (vocab_step X w T col HT) as St.
  destruct (pd.assoc col (columns T)) as [s|].
  - destruct (pd.sorted (pd.unique s)) as [voc|e].
    + rewrite (bind_ok _ _ _ _ _ St).
      destruct (category_lists T cols) as [vocs|e].
      * now rewrite (bind_ok _ _ _ _ _ IH).
      * now rewrite (bind_raise _ _ _ _ _ IH).
    + now rewrite (bind_raise _ _ _ _ _ St).
  - now rewrite (bind_raise _ _ _ _ _ St).
Qed.

(** [fit_transform] after [transform] has returned the table [T'] behind
    [Y]: the attributes are written one after the other. *)
Lemma fit_after_transform X w w1 Y T' :
  transform X w = (w1, Ok Y) -> frames w1 !! Y = Some T' ->
  fit_transform X w
  = match category_lists T' (pd.select_dtypes_exclude_number T') with
    | Ok vocs =>
        (mkWorld (frames w1)
           (mkAttrs (pd.select_dtypes_include_number T')
              (pd.select_dtypes_exclude_number T') vocs),
         Ok Y)
    | Raise e =>
        (mkWorld (frames w1)
           (mkAttrs (pd.select_dtypes_include_number T')
              (pd.select_dtypes_exclude_number T')
              (_all_categories (self w1))),
         Raise e)
    end.
Proof.
  intros E F. unfold fit_transform. rewrite (bind_ok _ _ _ _ _ E).
  unfold bind at 1. rewrite (on_run _ _ _ _ F). cbn [gets fst snd].
  rewrite (set_frame_id _ _ _ F).
  unfold bind at 1. unfold set_num_cols at 1, modify at 1.
  unfold bind at 1.
  assert (F2 : forall a, frames (mkWorld (frames w1) a) !! Y = Some T')
    by (intros a; exact F).
  rewrite (on_run _ _ _ _ (F2 _)). cbn [gets fst snd].
  rewrite (set_frame_id _ _ _ (F2 _)).
  unfold bind at 1. unfold set_cat_cols at 1, modify at 1.
  unfold bind at 1. cbn [gets self _cat_cols _num_cols _all_categories frames].
  unfold bind at 1.
  rewrite (list_comp_vocab Y _ T' _ (F2 _)).
  destruct (category_lists T' (pd.select_dtypes_exclude_number T')); reflexivity.
Qed.

Lemma fit_when_transform_raises X w w1 e :
  transform X w = (w1, Raise e) -> fit_transform X w = (w1, Raise e).
Proof. intros E. unfold fit_transform. now rewrite (bind_raise _ _ _ _ _ E). Qed.

End fit.

(** * [unique] and [sorted] *)

Section vocabularies.

Implicit Types (a b x v : value) (l seen : list value).

Lemma same_key_refl x : pd.same_key x x = true.
Proof.
  destruct x as [|z|s|[|]]; simpl; try reflexivity.
  - apply Z.eqb_refl.
  - apply String.eqb_refl.
Qed.

Lemma same_key_py_eq x v : x <> NaN -> pd.same_key x v = py_eq x v.
Proof. destruct x, v; simpl; congruence. Qed.

Lemma unique_from_in seen l v : In v (pd.unique_from seen l) -> In v l.
Proof.
  revert seen. induction l as [|x l IH]; intros seen; simpl; [easy|].
  destruct (existsb (pd.same_key x) seen).
  - intros H. right. now apply (IH seen).
  - intros [->|H]; [now left | right; now apply (IH (x :: seen))].
Qed.

Lemma unique_from_covers seen l x :
  In x l ->
  exists v, (In v seen \/ In v (pd.unique_from seen l)) /\ pd.same_key x v = true.
Proof.
  revert seen. induction l as [|y l IH]; intros seen; simpl; [easy|].
  intros [->|H].
  - destruct (existsb (pd.same_key x) seen) eqn:E.
    + apply existsb_exists in E. destruct E as (v & Hv & Ev).
      exists v. split; [now left | exact Ev].
    + exists x. split; [right; now left | apply same_key_refl].
  - destruct (existsb (pd.same_key y) seen) eqn:E.
    + now apply IH.
    + destruct (IH (y :: seen) H) as (v & [[<-|Hv]|Hv] & Ev).
      * exists y. split; [right; now left | exact Ev].
      * exists v. split; [now left | exact Ev].
      * exists v. split; [right; now right | exact Ev].
Qed.

Lemma unique_from_fresh seen l v a :
  In v (pd.unique_from seen l) -> In a seen -> pd.same_key v a = false.
Proof.
  revert seen. induction l as [|y l IH]; intros seen; simpl; [easy|].
  destruct (existsb (pd.same_key y) seen) eqn:E.
  - apply IH.
  - intros [<-|H] Ha.
    + destruct (pd.same_key y a) eqn:K; [|reflexivity].
      assert (X : existsb (pd.same_key y) seen = true)
        by (apply existsb_exists; now exists a).
      congruence.
    + apply (IH (y :: seen) H). now right.
Qed.

(** The values [unique] keeps are pairwise different. *)
Lemma unique_from_distinct seen l :
  ForallOrdPairs (fun a b => pd.same_key b a = false) (pd.unique_from seen l).
Proof.
  revert seen. induction l as [|y l IH]; intros seen; simpl; [constructor|].
  destruct (existsb (pd.same_key y) seen); [apply IH|].
  constructor; [|apply IH].
  apply List.Forall_forall. intros b Hb.
  apply (unique_from_fresh (y :: seen) l b y Hb). now left.
Qed.

Lemma insert_sorted_in x l v :
  In v (pd.insert_sorted x l) <-> v = x \/ In v l.
Proof.
  induction l as [|y l IH]; simpl; [intuition|].
  destruct (pd.lt_true y x); simpl; rewrite ?IH; intuition.
Qed.

Lemma sort_in l v : In v (fold_right pd.insert_sorted [] l) <-> In v l.
Proof.
  induction l as [|x l IH]; simpl; [reflexivity|].
  rewrite insert_sorted_in, IH. intuition.
Qed.

Lemma lt_true_iff a b : pd.lt_true a b = true <-> py_lt a b = Some true.
Proof.
  unfold pd.lt_true. destruct (py_lt a b) as [[|]|]; split; intros H;
    try discriminate; reflexivity.
Qed.

Lemma insert_sorted_sorted x l :
  Forall (ordered_pair x) l ->
  Sorted (fun a b => py_lt a b = Some true) l ->
  Sorted (fun a b => py_lt a b = Some true) (pd.insert_sorted x l).
Proof.
  induction l as [|y l IH]; simpl; intros Hx Hs.
  - repeat constructor.
  - inversion Hx as [|? ? Hxy Hxl]; subst.
    inversion Hs as [|? ? Hsl Hhd]; subst.
    destruct (pd.lt_true y x) eqn:E.
    + apply lt_true_iff in E. constructor; [now apply IH|].
      destruct l as [|z l]; simpl.
      * now constructor.
      * destruct (pd.lt_true z x); constructor; [|exact E].
        now inversion Hhd.
    + constructor; [exact Hs|]. constructor.
      destruct Hxy as [H|H]; [exact H|].
      apply lt_true_iff in H. congruence.
Qed.

Lemma sort_sorted l :
  ForallOrdPairs ordered_pair l ->
  Sorted (fun a b => py_lt a b = Some true) (fold_right pd.insert_sorted [] l).
Proof.
  induction 1 as [|x l Hx _ IH]; cbn [fold_right]; [constructor|].
  apply insert_sorted_sorted; [|exact IH].
  apply List.Forall_forall. intros v Hv.
  pose proof (proj1 (sort_in l v) Hv) as Hv'.
  exact (proj1 (List.Forall_forall _ _) Hx v Hv').
Qed.

Lemma homogeneous_pairs l :
  pd.homogeneous l = true ->
  ForallOrdPairs (fun a b => pd.comparable a b = true) l.
Proof.
  induction l as [|x l IH]; simpl; intros H; constructor;
    apply andb_true_iff in H; destruct H as [H1 H2].
  - apply List.Forall_forall. rewrite forallb_forall in H1. exact H1.
  - now apply IH.
Qed.

Lemma Z_ordered (p q : Z) :
  (q =? p) = false -> Some (p <? q) = Some true \/ Some (q <? p) = Some true.
Proof.
  intros H. apply Z.eqb_neq in H. destruct (Z.ltb_spec p q).
  - now left.
  - right. f_equal. apply Z.ltb_lt. lia.
Qed.

Lemma string_ordered (s t : string) :
  String.eqb t s = false ->
  Some (String.ltb s t) = Some true \/ Some (String.ltb t s) = Some true.
Proof.
  intros H. unfold String.ltb. rewrite (String.compare_antisym t s).
  destruct (String.compare s t) eqn:C; simpl; auto.
  apply String.compare_eq_iff in C. subst. now rewrite String.eqb_refl in H.
Qed.

(** Two comparable, different values that are not missing are ordered. *)
Lemma comparable_ordered a b :
  a <> NaN -> b <> NaN -> pd.comparable a b = true ->
  pd.same_key b a = false -> ordered_pair a b.
Proof.
  unfold ordered_pair, pd.comparable.
  destruct a as [|x|s|[|]], b as [|y|t|[|]];
    cbn -[Z.ltb Z.eqb String.ltb String.eqb];
    intros Na Nb C K; try congruence;
    try (now apply Z_ordered); now apply string_ordered.
Qed.

Lemma ForallOrdPairs_and3 {A} (P Q R : A -> A -> Prop) (N : A -> Prop)
      (xs : list A) :
  (forall p q : A, N p -> N q -> P p q -> Q p q -> R p q) ->
  Forall N xs -> ForallOrdPairs P xs -> ForallOrdPairs Q xs ->
  ForallOrdPairs R xs.
Proof.
  intros H HN HP. revert HN. induction HP as [|p xs Hp _ IH]; intros HN HQ;
    [constructor|].
  inversion HN; subst. inversion HQ; subst. constructor; [|now apply IH].
  rewrite List.Forall_forall in *. intros q Hq. apply H; auto.
Qed.

(** On a column without missing cells, what [sorted(list(s.unique()))]
    returns is the vocabulary of the column. *)
Lemma sorted_unique_vocabulary s voc :
  ~ In NaN (cells s) ->
  pd.sorted (pd.unique s) = Ok voc -> vocabulary_of voc (cells s).
Proof.
  intros Hna. unfold pd.sorted, pd.unique.
  destruct (pd.homogeneous (pd.unique_from [] (cells s))) eqn:Hh; [|discriminate].
  intros [= <-].
  assert (Hn : Forall (fun v => v <> NaN) (pd.unique_from [] (cells s))).
  { apply List.Forall_forall. intros v Hv E. subst v.
    apply Hna. now apply unique_from_in in Hv. }
  split; [|split].
  - apply sort_sorted.
    apply (ForallOrdPairs_and3 (fun a b => pd.comparable a b = true)
             (fun a b => pd.same_key b a = false) ordered_pair
             (fun v => v <> NaN)).
    + intros a b Na Nb C K. now apply comparable_ordered.
    + exact Hn.
    + now apply homogeneous_pairs.
    + apply unique_from_distinct.
  - intros v Hv. apply (proj1 (sort_in _ _)) in Hv.
    now apply unique_from_in in Hv.
  - intros x Hx. destruct (unique_from_covers [] _ x Hx) as (v & [[]|Hv] & K).
    exists v. split; [now apply (proj2 (sort_in _ _))|].
    rewrite <- same_key_py_eq; [exact K|]. intros ->. contradiction.
Qed.

End vocabularies.

(** * The role metadata *)

Section metadata.

Implicit Types (w : world) (X Y : loc) (T : DataFrame).

Lemma category_lists_inv T cols vocs :
  category_lists T cols = Ok vocs ->
  Forall2 (fun col voc =>
             exists s, pd.assoc col (columns T) = Some s /\
                       pd.sorted (pd.unique s) = Ok voc) cols vocs.
Proof.
  revert vocs. induction cols as [|col cols IH]; simpl; intros vocs H.
  - inversion H. constructor.
  - destruct (pd.assoc col (columns T)) as [s|] eqn:Hs; [|discriminate].
    destruct (pd.sorted (pd.unique s)) as [voc|] eqn:Hv; [|discriminate].
    destruct (category_lists T cols) as [r|]; [|discriminate].
    inversion H; subst. constructor; [now exists s | now apply IH].
Qed.

Lemma fit_transform_inv X w w' Y :
  fit_transform X w = (w', Ok Y) ->
  exists w1 T' vocs,
    transform X w = (w1, Ok Y) /\
    frames w1 !! Y = Some T' /\
    no_missing T' /\
    category_lists T' (pd.select_dtypes_exclude_number T') = Ok vocs /\
    w' = mkWorld (frames w1)
           (mkAttrs (pd.select_dtypes_include_number T')
              (pd.select_dtypes_exclude_number T') vocs).
Proof.
  intros H. destruct (transform X w) as [w1 [Y1|e]] eqn:E.
  - destruct (frames w !! X) as [T|] eqn:HT;
      [|rewrite (transform_unbound _ _ HT) in E; discriminate].
    destruct (transform_returns _ _ _ _ _ HT E) as (T' & R & F).
    apply transform_frame_inv in R. destruct R as [_ N].
    rewrite (fit_after_transform _ _ _ _ _ E F) in H.
    destruct (category_lists T' (pd.select_dtypes_exclude_number T'))
      as [vocs|e] eqn:C; [|discriminate].
    inversion H; subst. now exists w1, T', vocs.
  - rewrite (fit_when_transform_raises _ _ _ _ E) in H. discriminate.
Qed.

Lemma select_in (f : Series -> bool) (l : list (string * Series)) c :
  In c (map fst (List.filter (fun '(_, s) => f s) l)) <->
  exists s, In (c, s) l /\ f s = true.
Proof.
  rewrite in_map_iff. split.
  - intros ([c' s] & <- & H). apply filter_In in H. now exists s.
  - intros (s & H1 & H2). exists (c, s). split; [reflexivity|].
    now apply filter_In.
Qed.

Lemma select_sublist (f : Series -> bool) (l : list (string * Series)) :
  sublist (map fst (List.filter (fun '(_, s) => f s) l)) (map fst l).
Proof.
  induction l as [|[c s] l IH]; simpl; [constructor|].
  destruct (f s); simpl; now constructor.
Qed.

Lemma select_partition (l : list (string * Series)) :
  (length (List.filter (fun '(_, s) => pd.is_number (dtype_of s)) l)
   + length (List.filter (fun '(_, s) => negb (pd.is_number (dtype_of s))) l)
   = length l)%nat.
Proof.
  induction l as [|[c s] l IH]; simpl; [reflexivity|].
  destruct (pd.is_number (dtype_of s)); simpl; lia.
Qed.

End metadata.

(** C4.  After [fit_transform] has returned, with [T'] the table it
    returned (the output of [transform]): the numeric feature names are the
    labels of the columns of [T'] of a number dtype, in table order; the
    categorical feature names are the labels of the other columns, in table
    order; and the category lists pair up, in this order, with the
    categorical names, each list being the sorted list of the distinct
    values of its column in [T']. *)
Theorem fit_transform_metadata (X Y : loc) (w w' : world) :
  fit_transform X w = (w', Ok Y) ->
  exists T' w1 num cat vocs,
    transform X w = (w1, Ok Y) /\
    frames w1 !! Y = Some T' /\
    frames w' !! Y = Some T' /\
    get_numeric_feature_names w' = (w', Ok num) /\
    get_categorical_feature_names w' = (w', Ok cat) /\
    get_category_lists w' = (w', Ok vocs) /\
    (forall c, In c num <->
       exists s, In (c, s) (columns T') /\ pd.is_number (dtype_of s) = true) /\
    (forall c, In c cat <->
       exists s, In (c, s) (columns T') /\ pd.is_number (dtype_of s) = false) /\
    sublist num (pd.labels T') /\
    sublist cat (pd.labels T') /\
    (length num + length cat = length (pd.labels T'))%nat /\
    Forall2 (fun col voc =>
               exists s, pd.assoc col (columns T') = Some s /\
                         vocabulary_of voc (cells s)) cat vocs.
Proof.
  intros H. apply fit_transform_inv in H.
  destruct H as (w1 & T' & vocs & E & F & N & C & ->).
  exists T', w1, (pd.select_dtypes_include_number T'),
    (pd.select_dtypes_exclude_number T'), vocs.
  split; [exact E|]. split; [exact F|]. split; [exact F|].
  split; [reflexivity|]. split; [reflexivity|]. split; [reflexivity|].
  split; [|split; [|split; [|split; [|split]]]].
  - intros c. apply (select_in (fun s => pd.is_number (dtype_of s))).
  - intros c. unfold pd.select_dtypes_exclude_number.
    rewrite (select_in (fun s => negb (pd.is_number (dtype_of s)))).
    split; intros (s & H1 & H2); exists s; split; try exact H1.
    + now apply negb_true_iff.
    + now apply negb_true_iff.
  - apply (select_sublist (fun s => pd.is_number (dtype_of s))).
  - apply (select_sublist (fun s => negb (pd.is_number (dtype_of s)))).
  - unfold pd.select_dtypes_include_number, pd.select_dtypes_exclude_number,
      pd.labels.
    rewrite !length_map. apply select_partition.
  - apply category_lists_inv in C.
    eapply Forall2_impl; [exact C|].
    intros col voc (s & Hs & Hv). exists s. split; [exact Hs|].
    apply sorted_unique_vocabulary; [|exact Hv].
    apply (N col). now apply assoc_some_in.
Qed.

Lemma fit_transform_metadata_witness :
  exists w' T',
    fit_transform 0%nat (Sample.world_of Sample.raw) = (w', Ok 4%nat) /\
    frames w' !! 4%nat = Some T' /\
    _num_cols (self w')
      = ["LotFrontage"; "MasVnrArea"; "BsmtFinSF1"; "BsmtFinSF2"; "BsmtUnfSF";
         "TotalBsmtSF"; "BsmtFullBath"; "BsmtHalfBath"; "GarageCars";
         "LotArea"; "MonthNumSold"] /\
    Forall2 (fun col voc =>
               exists s, pd.assoc col (columns T') = Some s /\
                         vocabulary_of voc (cells s))
      (_cat_cols (self w')) (_all_categories (self w')) /\
    nth_error (_cat_cols (self w')) 23 = Some "Neighborhood" /\
    nth_error (_all_categories (self w')) 23 = Some [Str "A"; Str "B"].
Proof.
  remember (fst (fit_transform 0%nat (Sample.world_of Sample.raw))) as w' eqn:Hw.
  assert (E : fit_transform 0%nat (Sample.world_of Sample.raw) = (w', Ok 4%nat))
    by (subst w'; vm_compute; reflexivity).
  destruct (fit_transform_metadata 0%nat 4%nat _ w' E)
    as (T' & w1 & num & cat & vocs & _ & _ & F & Hn & Hc & Hv & _ & _ & _ & _ & _ & V).
  unfold get_numeric_feature_names, gets in Hn.
  unfold get_categorical_feature_names, gets in Hc.
  unfold get_category_lists, gets in Hv.
  assert (En : num = _num_cols (self w')) by congruence.
  assert (Ec : cat = _cat_cols (self w')) by congruence.
  assert (Ev : vocs = _all_categories (self w')) by congruence.
  subst num cat vocs.
  exists w', T'. split; [exact E|]. split; [exact F|].
  split; [subst w'; vm_compute; reflexivity|]. split; [exact V|].
  split; subst w'; vm_compute; reflexivity.
Defined.

(** * [fit_transform] against [transform] *)

Lemma category_lists_raises T cols e :
  (forall c, In c cols -> In c (pd.labels T)) ->
  category_lists T cols = Raise e ->
  e = TypeError_not_comparable /\
  exists c s, In c cols /\ pd.assoc c (columns T) = Some s /\
              pd.homogeneous (pd.unique s) = false.
Proof.
  induction cols as [|col cols IH]; simpl; intros Hl H; [discriminate|].
  destruct (pd.assoc col (columns T)) as [s|] eqn:Hs.
  - destruct (pd.sorted (pd.unique s)) as [voc|e1] eqn:Hv.
    + destruct (category_lists T cols) as [r|e2]; [discriminate|].
      inversion H; subst.
      destruct IH as (-> & c & s' & Hc & Hs' & Hh); [|reflexivity|].
      * intros c Hc. apply Hl. now right.
      * split; [reflexivity|]. exists c, s'. split; [now right | now split].
    + inversion H; subst. unfold pd.sorted in Hv.
      destruct (pd.homogeneous (pd.unique s)) eqn:Hh; [discriminate|].
      inversion Hv; subst. split; [reflexivity|].
      exists col, s. split; [now left | now split].
  - exfalso. assert (I : In col (pd.labels T)) by (apply Hl; now left).
    now apply labels_assoc in I.
Qed.

Lemma exclude_number_labels T c :
  In c (pd.select_dtypes_exclude_number T) -> In c (pd.labels T).
Proof.
  unfold pd.select_dtypes_exclude_number, pd.labels. rewrite !in_map_iff.
  intros ([c' s] & <- & H). apply filter_In in H. now exists (c', s).
Qed.

(** C10 as stated fails: on a table with a column that mixes a string and
    a number [transform] returns a table and [fit_transform] does not:
    [sorted] raises [TypeError]. *)
Lemma fit_transform_raises_counterexample :
  (exists w1 T',
     transform 0%nat (Sample.world_of Sample.mixed) = (w1, Ok 4%nat) /\
     frames w1 !! 4%nat = Some T' /\
     pd.assoc "Neighborhood" (columns T')
       = Some (mkSeries DObject [Str "A"; Num 1])) /\
  snd (fit_transform 0%nat (Sample.world_of Sample.mixed))
  = Raise TypeError_not_comparable.
Proof.
  split.
  - exists (fst (transform 0%nat (Sample.world_of Sample.mixed))).
    eexists. split; [vm_compute; reflexivity|].
    split; vm_compute; reflexivity.
  - vm_compute. reflexivity.
Qed.

(** C10, amended.  Whenever [fit_transform] returns, it returns the
    reference [transform] returns on the same input, and the table behind
    it is the same; whenever [transform] raises, [fit_transform] raises the
    same error and leaves the same world.  When [transform] returns,
    [fit_transform] either returns, having changed nothing but the role
    metadata, or raises the [TypeError] of [sorted] on a non-numeric column
    of the output that mixes strings with other values. *)
Theorem fit_transform_same_table (X : loc) (w : world) :
  (forall w' Y,
     fit_transform X w = (w', Ok Y) ->
     exists w1 T',
       transform X w = (w1, Ok Y) /\
       frames w1 !! Y = Some T' /\ frames w' !! Y = Some T' /\
       frames w' = frames w1) /\
  (forall w1 e,
     transform X w = (w1, Raise e) -> fit_transform X w = (w1, Raise e)) /\
  (forall w1 Y,
     transform X w = (w1, Ok Y) ->
     exists w' T',
       frames w1 !! Y = Some T' /\ frames w' = frames w1 /\
       (fit_transform X w = (w', Ok Y) \/
        (fit_transform X w = (w', Raise TypeError_not_comparable) /\
         exists c s, In c (pd.select_dtypes_exclude_number T') /\
                     pd.assoc c (columns T') = Some s /\
                     pd.homogeneous (pd.unique s) = false))).
Proof.
  split; [|split].
  - intros w' Y H. apply fit_transform_inv in H.
    destruct H as (w1 & T' & vocs & E & F & _ & _ & ->).
    now exists w1, T'.
  - intros w1 e. apply fit_when_transform_raises.
  - intros w1 Y E.
    pose proof (transform_new_object X w Y) as N. rewrite E in N.
    destruct (N eq_refl) as (_ & T' & F). simpl in F.
    pose proof (fit_after_transform _ _ _ _ _ E F) as R.
    destruct (category_lists T' (pd.select_dtypes_exclude_number T'))
      as [vocs|e] eqn:C.
    + eexists _, T'. split; [exact F|]. split; [|left; exact R]. reflexivity.
    + destruct (category_lists_raises _ _ _ (exclude_number_labels T') C)
        as (-> & c & s & H1 & H2 & H3).
      eexists _, T'. split; [exact F|]. split; [|right; split; [exact R|]].
      * reflexivity.
      * now exists c, s.
Qed.

Lemma fit_transform_same_table_witness :
  exists w' w1 T',
    fit_transform 0%nat (Sample.world_of Sample.raw) = (w', Ok 4%nat) /\
    transform 0%nat (Sample.world_of Sample.raw) = (w1, Ok 4%nat) /\
    frames w1 !! 4%nat = Some T' /\ frames w' !! 4%nat = Some T'.
Proof.
  remember (fst (fit_transform 0%nat (Sample.world_of Sample.raw))) as w' eqn:Hw.
  assert (E : fit_transform 0%nat (Sample.world_of Sample.raw) = (w', Ok 4%nat))
    by (subst w'; vm_compute; reflexivity).
  destruct (fit_transform_same_table 0%nat (Sample.world_of Sample.raw))
    as (A & _ & _).
  destruct (A w' 4%nat E) as (w1 & T' & E1 & F1 & F' & _).
  exists w', w1, T'. split; [exact E|]. split; [exact E1|].
  split; [exact F1 | exact F'].
Defined.

(** * A column the pipeline does not look at *)

Section replace.

Variable col : string.
Variable new : Series.

Implicit Types (T : DataFrame) (c : string) (l : list (string * Series)).

Lemma assoc_set_comm c1 c2 s1 s2 l :
  c1 <> c2 -> In c1 (map fst l) \/ In c2 (map fst l) ->
  pd.assoc_set c1 s1 (pd.assoc_set c2 s2 l)
  = pd.assoc_set c2 s2 (pd.assoc_set c1 s1 l).
Proof.
  intros Hne. induction l as [|[k s] l IH]; simpl; [intros [[]|[]]|].
  intros H.
  destruct (String.eqb_spec c2 k) as [->|N2];
    destruct (String.eqb_spec c1 k) as [->|N1]; simpl;
    rewrite ?String.eqb_refl; try congruence.
  - destruct (String.eqb_spec c1 k); [congruence | reflexivity].
  - destruct (String.eqb_spec c2 k); [congruence | reflexivity].
  - destruct (String.eqb_spec c1 k); [congruence|].
    destruct (String.eqb_spec c2 k); [congruence|].
    f_equal. apply IH. destruct H as [[H|H]|[H|H]]; try congruence; tauto.
Qed.

Lemma assoc_set_keeps_label c c' s l :
  In c (map fst l) -> In c (map fst (pd.assoc_set c' s l)).
Proof. intros H. apply assoc_set_in_labels. now right. Qed.

Lemma replace_labels T : In col (pd.labels T) -> pd.labels (replace_column col new T) = pd.labels T.
Proof.
  intros H. unfold pd.labels, replace_column in *. simpl.
  rewrite assoc_set_labels. now rewrite (proj2 (has_label_true _ _) H).
Qed.

Lemma replace_assoc T c : c <> col -> pd.assoc c (columns (replace_column col new T)) = pd.assoc c (columns T).
Proof. intros H. simpl. apply assoc_set_ne. congruence. Qed.

Lemma kept_assoc_set cols l :
  ~ In col cols ->
  kept cols (pd.assoc_set col new l) = pd.assoc_set col new (kept cols l).
Proof.
  intros H. pose proof (proj2 (has_label_false _ _) H) as E.
  unfold has_label in E.
  induction l as [|[k s] l IH]; simpl.
  - now rewrite E.
  - destruct (String.eqb_spec col k) as [<-|N]; simpl.
    + rewrite E. simpl. now rewrite String.eqb_refl.
    + destruct (existsb (String.eqb k) cols); simpl.
      * exact IH.
      * destruct (String.eqb_spec col k); [congruence|]. now rewrite IH.
Qed.

Lemma assign_all_assoc_set ps l :
  ~ In col (map fst ps) -> In col (map fst l) ->
  assign_all ps (pd.assoc_set col new l) = pd.assoc_set col new (assign_all ps l).
Proof.
  revert l. induction ps as [|[c s] ps IH]; intros l Hn Hl; simpl; [reflexivity|].
  simpl in Hn. rewrite assoc_set_comm by tauto.
  apply IH; [tauto | now apply assoc_set_keeps_label].
Qed.

Lemma commutes_val_ret {A} (a : A) : commutes_val col new (ret a).
Proof. intros T H. now split. Qed.

Lemma commutes_val_lift {A} (r : res A) : commutes_val col new (lift r).
Proof. intros T H. now split. Qed.

Lemma commutes_val_bind {A B} (m : prog DataFrame A) (k : A -> prog DataFrame B) :
  commutes_val col new m -> (forall a, commutes_val col new (k a)) ->
  commutes_val col new (bind m k).
Proof.
  intros Hm Hk T H. destruct (Hm T H) as [E L]. unfold bind. rewrite E.
  destruct (m T) as [T1 [a|e]]; simpl in *.
  - apply Hk. exact L.
  - now split.
Qed.

Lemma commutes_tbl_bind {A} (m : prog DataFrame A) (k : A -> prog DataFrame DataFrame) :
  commutes_val col new m -> (forall a, commutes_tbl col new (k a)) ->
  commutes_tbl col new (bind m k).
Proof.
  intros Hm Hk T H. destruct (Hm T H) as [E L]. unfold bind. rewrite E.
  destruct (m T) as [T1 [a|e]]; simpl in *.
  - apply Hk. exact L.
  - split; [reflexivity|]. split; [exact L | discriminate].
Qed.

Lemma commutes_val_for_each {A} (xs : list A) (body : A -> prog DataFrame unit) :
  (forall a, In a xs -> commutes_val col new (body a)) ->
  commutes_val col new (for_each xs body).
Proof.
  induction xs as [|a xs IH]; intros H; simpl.
  - apply commutes_val_ret.
  - apply commutes_val_bind; [apply H; now left|].
    intros _. apply IH. intros b Hb. apply H. now right.
Qed.

Lemma commutes_val_getitem c : c <> col -> commutes_val col new (pd.getitem c).
Proof.
  intros Hc T H. unfold pd.getitem. rewrite (replace_assoc T c Hc).
  destruct (pd.assoc c (columns T)); now split.
Qed.

Lemma commutes_val_setitem c s : c <> col -> commutes_val col new (pd.setitem c s).
Proof.
  intros Hc T H. unfold pd.setitem, modify, replace_column. simpl. split.
  - f_equal. f_equal. apply assoc_set_comm; [exact Hc|]. now right.
  - unfold pd.labels. simpl. now apply assoc_set_keeps_label.
Qed.

Lemma replace_missing_labels cols T :
  In col (pd.labels T) -> pd.missing_labels cols (replace_column col new T) = pd.missing_labels cols T.
Proof. intros H. unfold pd.missing_labels. now rewrite replace_labels. Qed.

Lemma omap_ext_in {A B} (f g : A -> option B) (xs : list A) :
  (forall x, In x xs -> f x = g x) -> omap f xs = omap g xs.
Proof.
  induction xs as [|a xs IH]; intros H; [reflexivity|].
  change (omap f (a :: xs))
    with (match f a with Some y => y :: omap f xs | None => omap f xs end).
  change (omap g (a :: xs))
    with (match g a with Some y => y :: omap g xs | None => omap g xs end).
  rewrite (H a) by now left. rewrite IH; [reflexivity|].
  intros x Hx. apply H. now right.
Qed.

Lemma commutes_val_getitems cols :
  ~ In col cols -> commutes_val col new (pd.getitems cols).
Proof.
  intros Hc T H. unfold pd.getitems. rewrite (replace_missing_labels _ _ H).
  destruct (pd.missing_labels cols T); simpl; [|now split].
  split; [|exact H]. f_equal. f_equal.
  apply omap_ext_in. intros c Hin. apply assoc_set_ne.
  intros <-. contradiction.
Qed.

Lemma commutes_val_setitems cols ss :
  ~ In col cols -> commutes_val col new (pd.setitems cols ss).
Proof.
  intros Hc. unfold pd.setitems. apply commutes_val_for_each.
  intros [c s] Hin. apply commutes_val_setitem.
  intros ->. apply Hc. apply in_combine_l in Hin. exact Hin.
Qed.

Lemma commutes_tbl_drop cols : ~ In col cols -> commutes_tbl col new (pd.drop cols).
Proof.
  intros Hc T H. unfold pd.drop. rewrite (replace_missing_labels _ _ H).
  destruct (pd.missing_labels cols T); simpl.
  - split; [|split; [exact H|]].
    + unfold replace_column. simpl. f_equal. f_equal. f_equal.
      apply (kept_assoc_set cols (columns T) Hc).
    + intros T' [= <-]. unfold pd.labels. simpl.
      apply (kept_labels col cols (columns T)). now split.
  - split; [reflexivity|]. split; [exact H | discriminate].
Qed.

Lemma commutes_after (m : prog DataFrame unit) T :
  commutes_val col new m -> In col (pd.labels T) ->
  after m (replace_column col new T)
  = match after m T with Ok T1 => Ok (replace_column col new T1) | Raise e => Raise e end /\
  forall T1, after m T = Ok T1 -> In col (pd.labels T1).
Proof.
  intros Hm H. destruct (Hm T H) as [E L]. unfold after. rewrite E.
  destruct (m T) as [T1 [[]|e]]; simpl in *.
  - split; [reflexivity|]. now intros ? [= <-].
  - split; [reflexivity | discriminate].
Qed.

Lemma commutes_result (m : prog DataFrame DataFrame) T :
  commutes_tbl col new m -> In col (pd.labels T) ->
  result m (replace_column col new T)
  = match result m T with Ok T1 => Ok (replace_column col new T1) | Raise e => Raise e end /\
  forall T1, result m T = Ok T1 -> In col (pd.labels T1).
Proof.
  intros Hm H. destruct (Hm T H) as (E & _ & L). unfold result. now rewrite E.
Qed.

End replace.

Section unseen.

Variable col : string.
Variable new : Series.
Hypothesis not_expected : ~ In col expected_columns.
Hypothesis not_generated : ~ In col generated_names.

Lemma col_not_in_lists :
  ~ In col cols_cast_category /\ ~ In col cols_fillna_None_str /\
  ~ In col cols_fillna_0 /\ ~ In col cols_drop /\
  ~ In col ["MoSold"; "YrSold"] /\ ~ In col binarize_sources /\
  col <> "MonthNumSold" /\ ~ In col binarized_names.
Proof.
  pose proof not_expected as H. pose proof not_generated as G.
  unfold expected_columns in H. rewrite !in_app_iff in H.
  fold binarize_sources in H. unfold generated_names in G. simpl in G.
  unfold binarize_sources. rewrite in_app_iff.
  repeat split; try tauto. intros ->. tauto.
Qed.

Lemma cast_types_commutes : commutes_val col new cast_types_stmts.
Proof.
  destruct col_not_in_lists as (H & _).
  apply commutes_val_for_each. intros c Hc.
  assert (c <> col) by (intros ->; contradiction).
  apply commutes_val_bind; [now apply commutes_val_getitem|].
  intros s. now apply commutes_val_setitem.
Qed.

Lemma fillna_inplace_commutes cols v :
  ~ In col cols -> commutes_val col new (pd.fillna_inplace cols v).
Proof.
  intros H. unfold pd.fillna_inplace.
  apply commutes_val_bind; [now apply commutes_val_getitems | intros ss].
  apply commutes_val_bind; [apply commutes_val_lift | intros ss'].
  now apply commutes_val_setitems.
Qed.

Lemma fillna_stmts_commutes : commutes_val col new fillna_stmts.
Proof.
  destruct col_not_in_lists as (_ & H1 & H2 & _).
  apply commutes_val_bind; [|intros _]; now apply fillna_inplace_commutes.
Qed.

Lemma drop_columns_commutes : commutes_tbl col new (pd.drop cols_drop).
Proof.
  destruct col_not_in_lists as (_ & _ & _ & H & _). now apply commutes_tbl_drop.
Qed.

Lemma transform_date_sold_commutes : commutes_tbl col new transform_date_sold_stmts.
Proof.
  destruct col_not_in_lists as (_ & _ & _ & _ & H & _ & M & _).
  simpl in H. unfold transform_date_sold_stmts.
  apply commutes_tbl_bind; [apply commutes_val_getitem; intros <-; tauto | intros mo].
  apply commutes_tbl_bind; [apply commutes_val_getitem; intros <-; tauto | intros yr].
  apply commutes_tbl_bind; [apply commutes_val_lift | intros ds].
  apply commutes_tbl_bind; [apply commutes_val_setitem; congruence | intros _].
  apply commutes_tbl_drop. simpl. tauto.
Qed.

Lemma binarize_features_commutes : commutes_tbl col new binarize_features_stmts.
Proof.
  destruct col_not_in_lists as (_ & _ & _ & _ & _ & S & _ & N).
  unfold binarize_features_stmts.
  apply commutes_tbl_bind; [|intros _; apply commutes_tbl_bind; [|intros _]].
  - apply commutes_val_for_each. intros [c v] Hin.
    apply commutes_val_bind.
    + apply commutes_val_getitem. intros ->. apply S.
      now apply true_rule_source with v.
    + intros s. apply commutes_val_setitem. intros E. apply N. rewrite <- E.
      now apply true_rule_name.
  - apply commutes_val_for_each. intros [c v] Hin.
    apply commutes_val_bind.
    + apply commutes_val_getitem. intros ->. apply S.
      now apply false_rule_source with v.
    + intros s. apply commutes_val_setitem. intros E. apply N. rewrite <- E.
      now apply false_rule_name.
  - now apply commutes_tbl_drop.
Qed.

(** The stages on a table with [col] replaced. *)
Lemma stages_frame_replace T T5 :
  In col (pd.labels T) -> stages_frame T = Ok T5 ->
  stages_frame (replace_column col new T) = Ok (replace_column col new T5) /\
  In col (pd.labels T5).
Proof.
  intros H S. pose proof S as S0. apply stages_frame_inv in S.
  destruct S as (T1 & T2 & T3 & T4 & H1 & H2 & H3 & H4 & H5).
  unfold stages_frame, and_then.
  destruct (commutes_after col new _ T cast_types_commutes H) as [E1 L1].
  rewrite E1, H1. specialize (L1 _ H1).
  destruct (commutes_after col new _ T1 fillna_stmts_commutes L1) as [E2 L2].
  rewrite E2, H2. specialize (L2 _ H2).
  destruct (commutes_result col new _ T2 drop_columns_commutes L2) as [E3 L3].
  rewrite E3, H3. specialize (L3 _ H3).
  destruct (commutes_result col new _ T3 transform_date_sold_commutes L3) as [E4 L4].
  rewrite E4, H4. specialize (L4 _ H4).
  destruct (commutes_result col new _ T4 binarize_features_commutes L4) as [E5 L5].
  rewrite E5, H5. split; [reflexivity | now apply L5].
Qed.

Lemma assoc_set_in c s (l : list (string * Series)) :
  In (c, s) (pd.assoc_set col new l) -> (c, s) = (col, new) \/ In (c, s) l.
Proof.
  induction l as [|[k s'] l IH]; simpl.
  - intros [H|[]]. left. congruence.
  - destruct (String.eqb_spec col k) as [->|N]; simpl.
    + intros [H|H]; [left; congruence | right; now right].
    + intros [H|H]; [right; now left|].
      destruct (IH H); [now left | right; now right].
Qed.

Lemma no_missing_replace T :
  ~ In NaN (cells new) -> no_missing T -> no_missing (replace_column col new T).
Proof.
  intros Hn H c s Hin. simpl in Hin. apply assoc_set_in in Hin.
  destruct Hin as [[= -> ->]|Hin]; [exact Hn | now apply (H c)].
Qed.

Lemma transform_frame_replace T T' :
  In col (pd.labels T) -> ~ In NaN (cells new) ->
  transform_frame T = Ok T' ->
  transform_frame (replace_column col new T) = Ok (replace_column col new T') /\
  pd.assoc col (columns (replace_column col new T')) = Some new.
Proof.
  intros H Hn R. apply transform_frame_inv in R. destruct R as [S N].
  destruct (stages_frame_replace _ _ H S) as [S' L].
  unfold transform_frame, and_then. rewrite S'.
  pose proof (no_missing_replace _ Hn N) as N'.
  apply any_isna_false in N'.
  unfold result, validate_no_nans_stmts, bind, gets. simpl.
  rewrite N'. simpl. split; [reflexivity | apply assoc_set_eq].
Qed.

End unseen.

(** * Values unseen at fit time *)

Lemma category_lists_vocabularies T cols vocs :
  no_missing T -> category_lists T cols = Ok vocs ->
  Forall2 (fun col voc =>
             exists s, pd.assoc col (columns T) = Some s /\
                       vocabulary_of voc (cells s)) cols vocs.
Proof.
  intros N C. apply category_lists_inv in C.
  eapply Forall2_impl; [exact C|].
  intros col voc (s & Hs & Hv). exists s. split; [exact Hs|].
  apply sorted_unique_vocabulary; [|exact Hv].
  apply (N col). now apply assoc_some_in.
Qed.

(** The vocabulary [fit_transform] stores for a handed-through column
    that is not of a number dtype. *)
Lemma fitted_vocabulary col X0 Y0 w0 w1 T0 s0 :
  ~ In col expected_columns -> ~ In col generated_names ->
  frames w0 !! X0 = Some T0 ->
  pd.assoc col (columns T0) = Some s0 ->
  pd.is_number (dtype_of s0) = false ->
  fit_transform X0 w0 = (w1, Ok Y0) ->
  exists i voc,
    _cat_cols (self w1) !! i = Some col /\
    _all_categories (self w1) !! i = Some voc /\
    vocabulary_of voc (cells s0).
Proof.
  intros Ne Ng HT Hs Hd Hf. apply fit_transform_inv in Hf.
  destruct Hf as (w' & T' & vocs & E & F & N & C & ->). simpl.
  destruct (transform_returns _ _ _ _ _ HT E) as (T2 & R & F2).
  assert (T2 = T') by congruence. subst T2.
  apply transform_frame_inv in R. destruct R as [S _].
  assert (Hs' : pd.assoc col (columns T') = Some s0).
  { rewrite <- Hs. now apply stages_frame_other. }
  assert (Hin : In col (pd.select_dtypes_exclude_number T')).
  { unfold pd.select_dtypes_exclude_number.
    apply (select_in (fun s => negb (pd.is_number (dtype_of s)))).
    exists s0. split; [now apply assoc_some_in | now rewrite Hd]. }
  apply list_elem_of_In, list_elem_of_lookup in Hin. destruct Hin as (i & Hi).
  pose proof (category_lists_vocabularies _ _ _ N C) as V.
  destruct (Forall2_lookup_l _ _ _ _ _ V Hi) as (voc & Hv & s & Hs2 & Hvoc).
  exists i, voc. split; [exact Hi|]. split; [exact Hv|]. congruence.
Qed.

(** C9.  Let [fit_transform] have returned on a training table whose
    column [col], a column no stage names and not of a number dtype, held
    the cells [s0]: the vocabulary stored for [col] is the sorted list of the
    distinct values of [s0].  Then take any table [Ts] on which [transform]
    returns and give its column [col] any cells [new] without a missing one,
    values absent from the vocabulary included: [transform] returns on that
    table too, the cells [new] are in the output as they are, and the role
    metadata, the vocabularies among them, are what they were.  A value of
    [new] that the training column did not hold is in no vocabulary of
    [col]. *)
Theorem vocabulary_freezing (col : string) (new s0 : Series)
    (X0 Y0 Xs H : loc) (w0 w1 : world) (T0 Ts : DataFrame) :
  ~ In col expected_columns -> ~ In col generated_names ->
  frames w0 !! X0 = Some T0 ->
  pd.assoc col (columns T0) = Some s0 ->
  pd.is_number (dtype_of s0) = false ->
  fit_transform X0 w0 = (w1, Ok Y0) ->
  frames w1 !! Xs = Some Ts -> In col (pd.labels Ts) ->
  (exists w' Y, transform Xs w1 = (w', Ok Y)) ->
  ~ In NaN (cells new) ->
  frames w1 !! H = Some (replace_column col new Ts) ->
  exists i voc w2 Y2 T2,
    _cat_cols (self w1) !! i = Some col /\
    _all_categories (self w1) !! i = Some voc /\
    vocabulary_of voc (cells s0) /\
    (forall v, In v (cells new) -> ~ In v (cells s0) -> ~ In v voc) /\
    transform H w1 = (w2, Ok Y2) /\
    frames w2 !! Y2 = Some T2 /\
    pd.assoc col (columns T2) = Some new /\
    self w2 = self w1.
Proof.
  intros Ne Ng HT0 Hs0 Hd Hf HTs Hl (w' & Y & Es) Hn HH.
  destruct (fitted_vocabulary _ _ _ _ _ _ _ Ne Ng HT0 Hs0 Hd Hf)
    as (i & voc & Hi & Hv & Hvoc).
  destruct (transform_returns _ _ _ _ _ HTs Es) as (Ts' & Rs & _).
  destruct (transform_frame_replace col new Ne Ng _ _ Hl Hn Rs) as [R A].
  destruct (transform_run _ _ _ HH) as (w2 & [Ks _] & Run).
  rewrite R in Run. destruct Run as (Y2 & E2 & _ & F2).
  exists i, voc, w2, Y2, (replace_column col new Ts').
  split; [exact Hi|]. split; [exact Hv|]. split; [exact Hvoc|].
  split; [|now repeat split].
  intros v _ Hnot Hin. apply Hnot. destruct Hvoc as (_ & Hsub & _).
  now apply Hsub.
Qed.

Lemma vocabulary_freezing_witness :
  exists w1 w2 Y2 T2,
    fit_transform 0%nat Sample.before_fit = (w1, Ok 15%nat) /\
    _cat_cols (self w1) !! 23%nat = Some "Neighborhood" /\
    _all_categories (self w1) !! 23%nat = Some [Str "A"; Str "B"] /\
    frames w1 !! 11%nat = Some (Sample.first_sale "C") /\
    transform 11%nat w1 = (w2, Ok Y2) /\
    frames w2 !! Y2 = Some T2 /\
    pd.assoc "Neighborhood" (columns T2) = Some (Sample.obj [Str "C"]) /\
    _all_categories (self w2) !! 23%nat = Some [Str "A"; Str "B"].
Proof.
  remember (fst (fit_transform 0%nat Sample.before_fit)) as w1 eqn:Hw.
  assert (Ef : fit_transform 0%nat Sample.before_fit = (w1, Ok 15%nat))
    by (subst w1; vm_compute; reflexivity).
  assert (Hc : _cat_cols (self w1) !! 23%nat = Some "Neighborhood")
    by (subst w1; vm_compute; reflexivity).
  assert (Hv : _all_categories (self w1) !! 23%nat = Some [Str "A"; Str "B"])
    by (subst w1; vm_compute; reflexivity).
  assert (H10 : frames w1 !! 10%nat = Some (Sample.first_sale "A"))
    by (subst w1; vm_compute; reflexivity).
  assert (H11 : frames w1 !! 11%nat
                = Some (replace_column "Neighborhood" (Sample.obj [Str "C"])
                          (Sample.first_sale "A")))
    by (subst w1; vm_compute; reflexivity).
  assert (Hs : exists w' Y, transform 10%nat w1 = (w', Ok Y)).
  { exists (fst (transform 10%nat w1)), 19%nat. subst w1. vm_compute. reflexivity. }
  assert (Hne : ~ In "Neighborhood" expected_columns)
    by (apply has_label_false; vm_compute; reflexivity).
  assert (Hng : ~ In "Neighborhood" generated_names)
    by (apply has_label_false; vm_compute; reflexivity).
  assert (Hl : In "Neighborhood" (pd.labels (Sample.first_sale "A")))
    by (apply has_label_true; vm_compute; reflexivity).
  assert (Hn : ~ In NaN (cells (Sample.obj [Str "C"])))
    by (simpl; intros [E|[]]; discriminate).
  destruct (vocabulary_freezing "Neighborhood" (Sample.obj [Str "C"])
              (Sample.obj [Str "A"; Str "B"]) 0%nat 15%nat 10%nat 11%nat
              Sample.before_fit w1 Sample.raw (Sample.first_sale "A")
              Hne Hng eq_refl eq_refl eq_refl Ef H10 Hl Hs Hn H11)
    as (i & voc & w2 & Y2 & T2 & _ & _ & _ & _ & E2 & F2 & A2 & S2).
  exists w1, w2, Y2, T2.
  split; [exact Ef|]. split; [exact Hc|]. split; [exact Hv|].
  split; [subst w1; vm_compute; reflexivity|].
  split; [exact E2|]. split; [exact F2|]. split; [exact A2|].
  rewrite S2. exact Hv.
Defined.

(** * More on [fit_transform] *)

(** [fit_transform] on a bound reference, in terms of the tables. *)
Lemma fit_transform_run X w T :
  frames w !! X = Some T ->
  match transform_frame T with
  | Raise e => exists w', fit_transform X w = (w', Raise e) /\ keeps w w'
  | Ok T' =>
      exists w1 Y,
        keeps w w1 /\ frames w !! Y = None /\ frames w1 !! Y = Some T' /\
        fit_transform X w
        = match category_lists T' (pd.select_dtypes_exclude_number T') with
          | Ok vocs =>
              (mkWorld (frames w1)
                 (mkAttrs (pd.select_dtypes_include_number T')
                    (pd.select_dtypes_exclude_number T') vocs), Ok Y)
          | Raise e =>
              (mkWorld (frames w1)
                 (mkAttrs (pd.select_dtypes_include_number T')
                    (pd.select_dtypes_exclude_number T')
                    (_all_categories (self w))), Raise e)
          end
  end.
Proof.
  intros HT. destruct (transform_run _ _ _ HT) as (w1 & K & R).
  destruct (transform_frame T) as [T'|e].
  - destruct R as (Y & E & P & F). exists w1, Y.
    split; [exact K|]. split; [exact P|]. split; [exact F|].
    rewrite (fit_after_transform _ _ _ _ _ E F).
    destruct K as [-> _]. reflexivity.
  - exists w1. split; [now apply fit_when_transform_raises | exact K].
Qed.

(** The role metadata is written attribute by attribute: when [sorted]
    raises, after [transform] has returned the table [T'], the two lists of
    names are already those of [T'] while the category lists are still the
    ones from before the call. *)
Theorem fit_transform_partial_update (X Y : loc) (w w1 w' : world)
    (T' : DataFrame) (e : exn) :
  transform X w = (w1, Ok Y) ->
  frames w1 !! Y = Some T' ->
  fit_transform X w = (w', Raise e) ->
  e = TypeError_not_comparable /\
  _num_cols (self w') = pd.select_dtypes_include_number T' /\
  _cat_cols (self w') = pd.select_dtypes_exclude_number T' /\
  _all_categories (self w') = _all_categories (self w) /\
  frames w' = frames w1.
Proof.
  intros E F H. rewrite (fit_after_transform _ _ _ _ _ E F) in H.
  destruct (category_lists T' (pd.select_dtypes_exclude_number T'))
    as [vocs|e'] eqn:C; [discriminate|].
  destruct (category_lists_raises _ _ _ (exclude_number_labels T') C) as [-> _].
  inversion H; subst. simpl.
  pose proof (transform_keeps X w) as [Hs _]. rewrite E in Hs. simpl in Hs.
  now rewrite Hs.
Qed.

Lemma fit_transform_partial_update_witness :
  exists w1 w' T',
    transform 0%nat (Sample.world_of Sample.mixed) = (w1, Ok 4%nat) /\
    frames w1 !! 4%nat = Some T' /\
    fit_transform 0%nat (Sample.world_of Sample.mixed)
      = (w', Raise TypeError_not_comparable) /\
    In "Neighborhood" (_cat_cols (self w')) /\
    _all_categories (self w') = [].
Proof.
  remember (fst (transform 0%nat (Sample.world_of Sample.mixed))) as w1 eqn:H1.
  remember (fst (fit_transform 0%nat (Sample.world_of Sample.mixed))) as w' eqn:H2.
  assert (E : transform 0%nat (Sample.world_of Sample.mixed) = (w1, Ok 4%nat))
    by (subst w1; vm_compute; reflexivity).
  assert (Ef : fit_transform 0%nat (Sample.world_of Sample.mixed)
               = (w', Raise TypeError_not_comparable))
    by (subst w'; vm_compute; reflexivity).
  assert (F : frames w1 !! 4%nat
              = Some (default Sample.mixed (frames w1 !! 4%nat))).
  { subst w1. vm_compute. reflexivity. }
  destruct (fit_transform_partial_update _ _ _ _ _ _ _ E F Ef)
    as (_ & _ & Hc & Ha & _).
  exists w1, w', (default Sample.mixed (frames w1 !! 4%nat)).
  split; [exact E|]. split; [exact F|]. split; [exact Ef|].
  split; [|exact Ha].
  rewrite Hc. apply has_label_true. subst w1. vm_compute. reflexivity.
Defined.

(** What [fit_transform] learns depends on the table alone: on the same
    table, from any state of the instance and in any world, it returns again
    and stores the same metadata.  In particular a second call on the same
    input changes nothing in the metadata. *)
Theorem fit_transform_refit (X Y X2 : loc) (w w' v : world) (T : DataFrame) :
  frames w !! X = Some T ->
  fit_transform X w = (w', Ok Y) ->
  frames v !! X2 = Some T ->
  exists v' Y2 T',
    fit_transform X2 v = (v', Ok Y2) /\
    self v' = self w' /\
    frames w' !! Y = Some T' /\ frames v' !! Y2 = Some T'.
Proof.
  intros HT Hf HT2.
  pose proof (fit_transform_run _ _ _ HT) as R.
  pose proof (fit_transform_run _ _ _ HT2) as R2.
  destruct (transform_frame T) as [T'|e].
  - destruct R as (w1 & Y1 & _ & _ & F1 & E1).
    destruct R2 as (v1 & Y2 & _ & _ & F2 & E2).
    destruct (category_lists T' (pd.select_dtypes_exclude_number T')) as [vocs|e].
    + rewrite Hf in E1. inversion E1; subst.
      eexists _, Y2, T'. split; [exact E2|]. now repeat split.
    + rewrite Hf in E1. discriminate.
  - destruct R as (w1 & E1 & _). rewrite Hf in E1. discriminate.
Qed.

Lemma fit_transform_refit_witness :
  exists w' w'',
    fit_transform 0%nat (Sample.world_of Sample.raw) = (w', Ok 4%nat) /\
    fit_transform 0%nat w' = (w'', Ok 8%nat) /\
    self w'' = self w'.
Proof.
  remember (fst (fit_transform 0%nat (Sample.world_of Sample.raw))) as w' eqn:H1.
  assert (E : fit_transform 0%nat (Sample.world_of Sample.raw) = (w', Ok 4%nat))
    by (subst w'; vm_compute; reflexivity).
  assert (F : frames w' !! 0%nat = Some Sample.raw)
    by (subst w'; vm_compute; reflexivity).
  destruct (fit_transform_refit 0%nat 4%nat 0%nat (Sample.world_of Sample.raw)
              w' w' Sample.raw eq_refl E F)
    as (v' & Y2 & T' & E2 & S & _ & _).
  assert (R : snd (fit_transform 0%nat w') = Ok 8%nat)
    by (subst w'; vm_compute; reflexivity).
  rewrite E2 in R. cbn [snd] in R. inversion R; subst Y2.
  exists w', v'. split; [exact E|]. split; [exact E2 | exact S].
Defined.

(** [fit_transform] never mutates a table that existed before the call:
    whether it returns or raises, every object of the world, the argument
    included, is afterwards what it was; only the metadata may change. *)
Theorem fit_transform_does_not_mutate (X : loc) (w w' : world) (r : res loc) :
  fit_transform X w = (w', r) ->
  forall Z T, frames w !! Z = Some T -> frames w' !! Z = Some T.
Proof.
  intros H Z T HZ. destruct (frames w !! X) as [T0|] eqn:HT.
  - pose proof (fit_transform_run _ _ _ HT) as R.
    destruct (transform_frame T0) as [T'|e].
    + destruct R as (w1 & Y & [_ K] & _ & _ & E). rewrite H in E.
      destruct (category_lists T' (pd.select_dtypes_exclude_number T'));
        inversion E; subst; simpl; now apply K.
    + destruct R as (w1 & E & [_ K]). rewrite H in E. inversion E; subst.
      now apply K.
  - rewrite (fit_when_transform_raises _ _ _ _ (transform_unbound _ _ HT)) in H.
    now inversion H; subst.
Qed.

Lemma fit_transform_does_not_mutate_witness :
  exists w',
    fit_transform 0%nat (Sample.world_of Sample.raw) = (w', Ok 4%nat) /\
    frames w' !! 0%nat = Some Sample.raw.
Proof.
  remember (fst (fit_transform 0%nat (Sample.world_of Sample.raw))) as w' eqn:H1.
  assert (E : fit_transform 0%nat (Sample.world_of Sample.raw) = (w', Ok 4%nat))
    by (subst w'; vm_compute; reflexivity).
  exists w'. split; [exact E|].
  exact (fit_transform_does_not_mutate _ _ _ _ E 0%nat Sample.raw eq_refl).
Defined.

(** * The labels of the tables along the pipeline *)

Section labels_along.

Implicit Types (T : DataFrame) (c : string) (l : list (string * Series)).

Lemma assign_all_in_labels c ps l :
  In c (map fst (assign_all ps l)) <-> In c (map fst ps) \/ In c (map fst l).
Proof.
  revert l. induction ps as [|[k s] ps IH]; intros l; simpl; [tauto|].
  rewrite IH, assoc_set_in_labels. intuition.
Qed.

Lemma assign_all_present_labels ps l :
  (forall c, In c (map fst ps) -> In c (map fst l)) ->
  map fst (assign_all ps l) = map fst l.
Proof.
  revert l. induction ps as [|[k s] ps IH]; intros l H; simpl; [reflexivity|].
  assert (Hk : In k (map fst l)) by (apply H; now left).
  rewrite IH.
  - rewrite assoc_set_labels. now rewrite (proj2 (has_label_true _ _) Hk).
  - intros c Hc. apply assoc_set_in_labels. right. apply H. now right.
Qed.

Lemma cast_types_labels T T1 :
  after cast_types_stmts T = Ok T1 -> pd.labels T1 = pd.labels T.
Proof.
  intros H. apply cast_types_inv in H. destruct H as (s & Hs & ->).
  unfold pd.labels. simpl. rewrite assoc_set_labels.
  assert (I : In "MSSubClass" (map fst (columns T))).
  { apply (proj2 (labels_assoc _ T)). congruence. }
  now rewrite (proj2 (has_label_true _ _) I).
Qed.

Lemma fillna_inplace_labels cols v T T' :
  after (pd.fillna_inplace cols v) T = Ok T' -> pd.labels T' = pd.labels T.
Proof.
  unfold after, pd.fillna_inplace, bind, lift.
  destruct (pd.getitems cols T) as [T0 [ss|e]] eqn:Eg; [|discriminate].
  apply getitems_inv in Eg. destruct Eg as [-> Hss].
  destruct (pd.fillna v ss) as [ss'|e] eqn:Ef; [|discriminate].
  rewrite setitems_run. intros [= <-]. unfold pd.labels. simpl.
  apply assign_all_present_labels. intros c Hc.
  apply in_map_iff in Hc. destruct Hc as ([c' s'] & <- & Hin).
  apply in_combine_l in Hin. simpl.
  clear Ef. induction Hss as [|k s cols ss Hk _ IH]; [destruct Hin|].
  destruct Hin as [<-|Hin]; [|now apply IH].
  apply (proj2 (labels_assoc _ T)). congruence.
Qed.

Lemma fillna_stmts_labels T T' :
  after fillna_stmts T = Ok T' -> pd.labels T' = pd.labels T.
Proof.
  intros H. apply fillna_stmts_inv in H. destruct H as (T1 & H1 & H2).
  apply fillna_inplace_labels in H1, H2. congruence.
Qed.

Lemma date_sold_frame_labels T ds c :
  In c (pd.labels (date_sold_frame T ds)) <->
  (c = "MonthNumSold" \/ In c (pd.labels T)) /\ ~ In c ["MoSold"; "YrSold"].
Proof.
  unfold date_sold_frame, pd.labels. cbn [columns].
  rewrite kept_labels, assoc_set_in_labels. reflexivity.
Qed.

Lemma binarize_frame_labels T c :
  In c (pd.labels (binarize_frame T)) <->
  (In c binarized_names \/ In c (pd.labels T)) /\ ~ In c binarize_sources.
Proof.
  unfold binarize_frame, pd.labels. cbn [columns].
  rewrite kept_labels, assign_all_in_labels, new_columns_labels. reflexivity.
Qed.

Lemma generated_not_removed c : In c generated_names -> ~ In c removed_names.
Proof. apply disjointb_spec. reflexivity. Qed.

(** The labels of the table the stages produce. *)
Lemma stages_frame_labels T T5 c :
  stages_frame T = Ok T5 ->
  (In c (pd.labels T5) <->
   (In c (pd.labels T) /\ ~ In c removed_names) \/ In c generated_names).
Proof.
  intros H. apply stages_frame_inv in H.
  destruct H as (T1 & T2 & T3 & T4 & H1 & H2 & H3 & H4 & H5).
  apply cast_types_labels in H1. apply fillna_stmts_labels in H2.
  apply drop_inv in H3. destruct H3 as [-> _].
  apply date_sold_inv in H4. destruct H4 as (mo & yr & ds & _ & _ & _ & ->).
  apply binarize_inv in H5. destruct H5 as [-> _].
  rewrite binarize_frame_labels, date_sold_frame_labels.
  unfold pd.labels at 1. cbn [columns]. rewrite kept_labels.
  fold (pd.labels T2). rewrite H2, H1.
  pose proof (generated_not_removed c) as G.
  assert (Eg : In c generated_names <->
               "MonthNumSold" = c \/ In c binarized_names) by reflexivity.
  assert (Er : In c removed_names <->
               In c cols_drop \/ In c ["MoSold"; "YrSold"] \/
               In c binarize_sources).
  { unfold removed_names. now rewrite !in_app_iff. }
  rewrite Eg, Er in *. clear Eg Er.
  assert (Em : c = "MonthNumSold" <-> "MonthNumSold" = c) by (split; congruence).
  rewrite Em. clear Em.
  generalize dependent (In c cols_drop).
  generalize dependent (In c ["MoSold"; "YrSold"]).
  generalize dependent (In c binarize_sources).
  generalize dependent (In c binarized_names).
  generalize dependent (In c (pd.labels T)).
  generalize dependent ("MonthNumSold" = c).
  clear. intros. tauto.
Qed.

(** From the filled table on, a column that is neither dropped nor assigned
    is handed through. *)
Lemma late_stages_other T2 T3 T4 T5 c :
  result (pd.drop cols_drop) T2 = Ok T3 ->
  result transform_date_sold_stmts T3 = Ok T4 ->
  result binarize_features_stmts T4 = Ok T5 ->
  ~ In c removed_names -> ~ In c generated_names ->
  pd.assoc c (columns T5) = pd.assoc c (columns T2).
Proof.
  intros H3 H4 H5 Nr Ng.
  apply drop_inv in H3. destruct H3 as [-> _].
  apply date_sold_inv in H4. destruct H4 as (mo & yr & ds & _ & _ & _ & ->).
  apply binarize_inv in H5. destruct H5 as [-> _].
  unfold removed_names in Nr. rewrite !in_app_iff in Nr.
  unfold generated_names in Ng. simpl in Ng.
  rewrite binarize_frame_other by tauto.
  rewrite date_sold_frame_other by (simpl in *; tauto).
  cbn [columns]. rewrite assoc_kept.
  now rewrite (proj2 (has_label_false c cols_drop)) by tauto.
Qed.

End labels_along.

(** * The columns of the output *)

(** The labels of a table returned by [transform]: the labels of the input
    that are not dropped, and the eight labels the pipeline assigns. *)
Theorem transform_output_labels (X Y : loc) (w w' : world) (T : DataFrame) :
  frames w !! X = Some T ->
  transform X w = (w', Ok Y) ->
  exists T',
    frames w' !! Y = Some T' /\
    (forall c,
       In c (pd.labels T') <->
       (In c (pd.labels T) /\ ~ In c removed_names) \/ In c generated_names) /\
    removed_names
    = ["1stFlrSF"; "GarageArea"; "GarageYrBlt"; "TotRmsAbvGrd"; "Street";
       "Utilities"; "MoSold"; "YrSold"; "Condition2"; "RoofMatl"; "Heating";
       "LowQualFinSF"; "3SsnPorch"; "PoolArea"; "MiscVal"] /\
    generated_names
    = ["MonthNumSold"; "Condition2_is_Norm"; "RoofMatl_is_CompShg";
       "Heating_is_GasA"; "LowQualFinSF_not_0"; "3SsnPorch_not_0";
       "PoolArea_not_0"; "MiscVal_not_0"].
Proof.
  intros HT E. destruct (transform_returns _ _ _ _ _ HT E) as (T' & R & F).
  apply transform_frame_inv in R. destruct R as [S _].
  exists T'. split; [exact F|]. split; [|split; reflexivity].
  intros c. now apply stages_frame_labels.
Qed.

Lemma transform_output_labels_witness :
  exists w' T',
    transform 0%nat (Sample.world_of Sample.raw) = (w', Ok 4%nat) /\
    frames w' !! 4%nat = Some T' /\
    In "LotArea" (pd.labels T') /\ In "MonthNumSold" (pd.labels T') /\
    ~ In "Street" (pd.labels T').
Proof.
  remember (fst (transform 0%nat (Sample.world_of Sample.raw))) as w' eqn:Hw.
  assert (E : transform 0%nat (Sample.world_of Sample.raw) = (w', Ok 4%nat))
    by (subst w'; vm_compute; reflexivity).
  destruct (transform_output_labels 0%nat 4%nat (Sample.world_of Sample.raw) w'
              Sample.raw eq_refl E) as (T' & F & L & _ & _).
  exists w', T'. split; [exact E|]. split; [exact F|].
  split; [|split].
  - apply L. left. split; [apply has_label_true | apply has_label_false];
      vm_compute; reflexivity.
  - apply L. right. apply has_label_true. vm_compute. reflexivity.
  - intros H. apply L in H. destruct H as [[_ N]|G].
    + apply N. apply has_label_true. vm_compute. reflexivity.
    + revert G. apply has_label_false. vm_compute. reflexivity.
Defined.

(** * [transform] on its own output *)

Section again.

Implicit Types (T : DataFrame) (c : string).

Lemma astype_category_dtype s :
  exists cats, dtype_of (pd.astype_category s) = DCategory cats.
Proof.
  unfold pd.astype_category. destruct (dtype_of s) eqn:E; simpl; eauto.
Qed.

Lemma astype_category_fixed s cats :
  dtype_of s = DCategory cats -> pd.astype_category s = s.
Proof. intros H. unfold pd.astype_category. now rewrite H. Qed.

Lemma astype_category_twice s :
  pd.astype_category (pd.astype_category s) = pd.astype_category s.
Proof.
  destruct (astype_category_dtype s) as (cats & H).
  now apply astype_category_fixed with cats.
Qed.

Lemma frame_eta T : mkFrame (index T) (columns T) = T.
Proof. now destruct T. Qed.

Lemma cast_types_fixed T s :
  pd.assoc "MSSubClass" (columns T) = Some (pd.astype_category s) ->
  cast_types_stmts T = (T, Ok tt).
Proof.
  intros H. unfold cast_types_stmts, cols_cast_category. cbn [for_each].
  unfold bind. rewrite (getitem_ok _ _ _ H).
  unfold pd.setitem, modify, ret. rewrite astype_category_twice.
  now rewrite (assoc_set_id _ _ _ H), frame_eta.
Qed.

Lemma fillna_stmts_fixed_columns T T2 :
  after fillna_stmts T = Ok T2 ->
  (forall c, In c cols_fillna_None_str ->
     exists s, pd.assoc c (columns T2) = Some s /\
               pd.fillna_series (Str "None") s = Ok s) /\
  (forall c, In c cols_fillna_0 ->
     exists s, pd.assoc c (columns T2) = Some s /\
               pd.fillna_series (Num 0) s = Ok s).
Proof.
  intros H. apply fillna_stmts_inv in H. destruct H as (T1 & H1 & H2).
  destruct (fillna_inplace_inv _ _ _ _ cols_fillna_None_str_nodup H1)
    as (_ & _ & F1).
  destruct (fillna_inplace_inv _ _ _ _ cols_fillna_0_nodup H2)
    as (_ & O2 & F2).
  split.
  - intros c Hc. destruct (F1 c Hc) as (s & s' & _ & Hf & Hs').
    exists s'. split; [|now apply fillna_series_twice with s].
    rewrite O2; [exact Hs' | now apply fill_lists_disjoint].
  - intros c Hc. destruct (F2 c Hc) as (s & s' & _ & Hf & Hs').
    exists s'. split; [exact Hs' | now apply fillna_series_twice with s].
Qed.

Lemma fillna_stmts_fixed T :
  (forall c, In c cols_fillna_None_str ->
     exists s, pd.assoc c (columns T) = Some s /\
               pd.fillna_series (Str "None") s = Ok s) ->
  (forall c, In c cols_fillna_0 ->
     exists s, pd.assoc c (columns T) = Some s /\
               pd.fillna_series (Num 0) s = Ok s) ->
  fillna_stmts T = (T, Ok tt).
Proof.
  intros H1 H2. unfold fillna_stmts, bind.
  rewrite (fillna_inplace_fixed _ _ _ H1). now apply fillna_inplace_fixed.
Qed.

Lemma kept_columns_not_removed c :
  In c (cols_cast_category ++ cols_fillna_None_str ++ cols_fillna_0) ->
  ~ In c removed_names /\ ~ In c generated_names.
Proof.
  intros H. split; revert H; apply disjointb_spec; reflexivity.
Qed.

Lemma missing_labels_all cols T :
  (forall c, In c cols -> ~ In c (pd.labels T)) ->
  pd.missing_labels cols T = cols.
Proof.
  intros H. unfold pd.missing_labels.
  induction cols as [|k cols IH]; simpl; [reflexivity|].
  fold (has_label k (pd.labels T)).
  rewrite (proj2 (has_label_false _ _) (H k (or_introl eq_refl))). simpl.
  f_equal. apply IH. intros c Hc. apply H. now right.
Qed.

(** On a table it has returned, the pipeline stops at the drop stage: the
    six columns are no longer there. *)
Lemma transform_frame_again T T' :
  transform_frame T = Ok T' -> transform_frame T' = Raise (KeyError cols_drop).
Proof.
  intros R. apply transform_frame_inv in R. destruct R as [S _].
  pose proof S as S0. apply stages_frame_inv in S.
  destruct S as (T1 & T2 & T3 & T4 & H1 & H2 & H3 & H4 & H5).
  assert (O : forall c,
             In c (cols_cast_category ++ cols_fillna_None_str ++ cols_fillna_0) ->
             pd.assoc c (columns T') = pd.assoc c (columns T2)).
  { intros c Hc. destruct (kept_columns_not_removed c Hc).
    now apply (late_stages_other T2 T3 T4). }
  destruct (fillna_stmts_fixed_columns _ _ H2) as [F1 F2].
  apply cast_types_inv in H1. destruct H1 as (s & _ & ->).
  assert (M : pd.assoc "MSSubClass" (columns T') = Some (pd.astype_category s)).
  { rewrite O by (left; reflexivity).
    rewrite (fillna_stmts_other _ _ "MSSubClass" H2).
    - simpl. apply assoc_set_eq.
    - apply has_label_false. reflexivity.
    - apply has_label_false. reflexivity. }
  unfold transform_frame, stages_frame, and_then, after.
  rewrite (cast_types_fixed _ _ M).
  rewrite fillna_stmts_fixed.
  - unfold result, pd.drop. rewrite missing_labels_all; [reflexivity|].
    intros c Hc. apply (stages_frame_removed _ _ _ S0).
    unfold removed_names. apply in_or_app. now left.
  - intros c Hc. rewrite O; [now apply F1|].
    apply in_or_app. right. apply in_or_app. now left.
  - intros c Hc. rewrite O; [now apply F2|].
    apply in_or_app. right. apply in_or_app. now right.
Qed.

End again.

(** [transform] cannot be applied to its own output: on the table it
    returned it raises [KeyError] for the six columns of the drop stage. *)
Theorem transform_twice_raises (X Y : loc) (w w' : world) :
  transform X w = (w', Ok Y) ->
  exists w'',
    transform Y w'
    = (w'', Raise (KeyError ["1stFlrSF"; "GarageArea"; "GarageYrBlt";
                             "TotRmsAbvGrd"; "Street"; "Utilities"])).
Proof.
  intros E. destruct (frames w !! X) as [T|] eqn:HT;
    [|rewrite (transform_unbound _ _ HT) in E; discriminate].
  destruct (transform_returns _ _ _ _ _ HT E) as (T' & R & F).
  destruct (transform_run _ _ _ F) as (w'' & _ & Run).
  rewrite (transform_frame_again _ _ R) in Run. now exists w''.
Qed.

Lemma transform_twice_raises_witness :
  exists w' w'',
    transform 0%nat (Sample.world_of Sample.raw) = (w', Ok 4%nat) /\
    transform 4%nat w'
    = (w'', Raise (KeyError ["1stFlrSF"; "GarageArea"; "GarageYrBlt";
                             "TotRmsAbvGrd"; "Street"; "Utilities"])).
Proof.
  remember (fst (transform 0%nat (Sample.world_of Sample.raw))) as w' eqn:Hw.
  assert (E : transform 0%nat (Sample.world_of Sample.raw) = (w', Ok 4%nat))
    by (subst w'; vm_compute; reflexivity).
  destruct (transform_twice_raises _ _ _ _ E) as (w'' & E2).
  exists w', w''. split; [exact E | exact E2].
Defined.

(** * The roles of the columns the pipeline makes *)

Section roles.

Implicit Types (T : DataFrame) (c : string).

Lemma new_columns_bool T c s : In (c, s) (new_columns T) -> dtype_of s = DBool.
Proof.
  unfold new_columns, loop_columns. rewrite in_app_iff, !in_map_iff.
  intros [([k v] & [= _ <-] & _)|([k v] & [= _ <-] & _)]; reflexivity.
Qed.

Lemma early_stages_other T T1 T2 T3 c :
  after cast_types_stmts T = Ok T1 ->
  after fillna_stmts T1 = Ok T2 ->
  result (pd.drop cols_drop) T2 = Ok T3 ->
  ~ In c (cols_cast_category ++ cols_fillna_None_str ++ cols_fillna_0 ++ cols_drop) ->
  pd.assoc c (columns T3) = pd.assoc c (columns T).
Proof.
  intros H1 H2 H3 N. rewrite !in_app_iff in N.
  apply cast_types_inv in H1. destruct H1 as (s & _ & ->).
  apply (fillna_stmts_other _ _ c) in H2; [|tauto|tauto].
  apply drop_inv in H3. destruct H3 as [-> _].
  cbn [columns]. rewrite assoc_kept.
  rewrite (proj2 (has_label_false c cols_drop)) by tauto.
  rewrite H2. cbn [columns]. apply assoc_set_ne. intros <-.
  apply N. left. now left.
Qed.

Lemma to_datetime_length l ds :
  pd.to_datetime l = Ok ds -> length ds = length l.
Proof.
  intros H. apply to_datetime_inv in H.
  induction H; simpl; [reflexivity | now f_equal].
Qed.

Lemma sale_strings_nonempty mo yr :
  cells mo <> [] -> cells yr <> [] -> sale_strings mo yr <> [].
Proof.
  unfold sale_strings, pd.str_join, pd.astype_str.
  destruct (cells mo), (cells yr); simpl; congruence.
Qed.

End roles.

(** After [fit_transform] has returned: [MSSubClass] and the seven boolean
    columns of the binarization are categorical features, whatever the input
    held, and [MonthNumSold] is a numeric feature as soon as the table has a
    row. *)
Theorem fit_transform_roles (X Y : loc) (w w' : world) (T : DataFrame)
    (mo yr : Series) :
  frames w !! X = Some T ->
  pd.assoc "MoSold" (columns T) = Some mo ->
  pd.assoc "YrSold" (columns T) = Some yr ->
  fit_transform X w = (w', Ok Y) ->
  In "MSSubClass" (_cat_cols (self w')) /\
  (forall c,
     In c ["Condition2_is_Norm"; "RoofMatl_is_CompShg"; "Heating_is_GasA";
           "LowQualFinSF_not_0"; "3SsnPorch_not_0"; "PoolArea_not_0";
           "MiscVal_not_0"] ->
     In c (_cat_cols (self w'))) /\
  (cells mo <> [] -> cells yr <> [] -> In "MonthNumSold" (_num_cols (self w'))).
Proof.
  intros HT Hmo Hyr Hf. apply fit_transform_inv in Hf.
  destruct Hf as (w1 & T' & vocs & E & F & _ & _ & ->). simpl.
  destruct (transform_returns _ _ _ _ _ HT E) as (T2' & R & F2).
  assert (T2' = T') by congruence. subst T2'.
  apply transform_frame_inv in R. destruct R as [S _].
  apply stages_frame_inv in S.
  destruct S as (T1 & T2 & T3 & T4 & H1 & H2 & H3 & H4 & H5).
  split; [|split].
  - apply (select_in (fun s => negb (pd.is_number (dtype_of s)))).
    pose proof H1 as H1'. apply cast_types_inv in H1'.
    destruct H1' as (s & _ & E1).
    exists (pd.astype_category s). split.
    + apply assoc_some_in.
      rewrite (late_stages_other T2 T3 T4 T' "MSSubClass" H3 H4 H5)
        by (apply has_label_false; reflexivity).
      rewrite (fillna_stmts_other _ _ "MSSubClass" H2)
        by (apply has_label_false; reflexivity).
      rewrite E1. simpl. apply assoc_set_eq.
    + destruct (astype_category_dtype s) as (cats & ->). reflexivity.
  - intros c Hc. apply (select_in (fun s => negb (pd.is_number (dtype_of s)))).
    apply binarize_inv in H5. destruct H5 as [-> _].
    change (In c (map fst (new_columns T4))) in Hc.
    apply in_map_iff in Hc. destruct Hc as ([c' s] & <- & Hin).
    exists s. split.
    + apply assoc_some_in. now apply binarize_frame_new.
    + simpl. now rewrite (new_columns_bool _ _ _ Hin).
  - intros Nm Ny. apply (select_in (fun s => pd.is_number (dtype_of s))).
    assert (Om : pd.assoc "MoSold" (columns T3) = Some mo).
    { rewrite <- Hmo. apply (early_stages_other T T1 T2 T3 "MoSold" H1 H2 H3).
      apply has_label_false. reflexivity. }
    assert (Oy : pd.assoc "YrSold" (columns T3) = Some yr).
    { rewrite <- Hyr. apply (early_stages_other T T1 T2 T3 "YrSold" H1 H2 H3).
      apply has_label_false. reflexivity. }
    rewrite (date_sold_run _ _ _ Om Oy) in H4.
    destruct (pd.to_datetime (sale_strings mo yr)) as [ds|] eqn:D; [|discriminate].
    simpl in H4. inversion H4; subst T4.
    apply binarize_inv in H5. destruct H5 as [-> _].
    exists (month_num_sold ds). split.
    + apply assoc_some_in. rewrite binarize_frame_other.
      * apply date_sold_frame_new.
      * apply has_label_false. reflexivity.
      * apply has_label_false. reflexivity.
    + apply to_datetime_length in D.
      pose proof (sale_strings_nonempty mo yr Nm Ny) as N.
      unfold month_num_sold, pd.apply. simpl.
      destruct ds; [|reflexivity].
      destruct (sale_strings mo yr); [congruence | discriminate].
Qed.

Lemma fit_transform_roles_witness :
  exists w',
    fit_transform 0%nat (Sample.world_of Sample.raw) = (w', Ok 4%nat) /\
    In "MSSubClass" (_cat_cols (self w')) /\
    In "PoolArea_not_0" (_cat_cols (self w')) /\
    In "MonthNumSold" (_num_cols (self w')).
Proof.
  remember (fst (fit_transform 0%nat (Sample.world_of Sample.raw))) as w' eqn:Hw.
  assert (E : fit_transform 0%nat (Sample.world_of Sample.raw) = (w', Ok 4%nat))
    by (subst w'; vm_compute; reflexivity).
  destruct (fit_transform_roles 0%nat 4%nat (Sample.world_of Sample.raw) w'
              Sample.raw (Sample.ints [5; 1]) (Sample.ints [2008; 2001])
              eq_refl eq_refl eq_refl E) as (A & B & C).
  exists w'. split; [exact E|]. split; [exact A|]. split.
  - apply B. do 5 right. left. reflexivity.
  - apply C; discriminate.
Defined.

(** * Missing columns *)

Section key_errors.

Implicit Types (T : DataFrame) (c : string) (L cols : list string).

Lemma key_safe_ret {A} L (a : A) : key_safe L (ret a).
Proof. intros T T' r [= <- <-]. now split. Qed.

Lemma key_safe_lift {A} L (r0 : res A) :
  (forall miss, r0 <> Raise (KeyError miss)) -> key_safe L (lift r0).
Proof.
  intros H T T' r [= <- <-]. split; [tauto|].
  destruct r0 as [a|[]]; try exact I. now elim (H labels).
Qed.

Lemma key_safe_bind {A B} L (m : prog DataFrame A) (k : A -> prog DataFrame B) :
  key_safe L m -> (forall a, key_safe L (k a)) -> key_safe L (bind m k).
Proof.
  intros Hm Hk T T' r. unfold bind.
  destruct (m T) as [T1 [a|e]] eqn:E; destruct (Hm _ _ _ E) as [L1 K1].
  - intros E2. destruct (Hk a _ _ _ E2) as [L2 K2]. split; [auto|].
    destruct r as [b|[]]; try exact I.
    destruct K2 as [N K2]. split; [exact N|].
    intros c Hc. destruct (K2 c Hc) as [I1 I2]. split; [exact I1|].
    intros H. apply I2. now apply L1.
  - intros [= <- <-]. now split.
Qed.

Lemma key_safe_for_each {A} L (xs : list A) (body : A -> prog DataFrame unit) :
  (forall a, In a xs -> key_safe L (body a)) -> key_safe L (for_each xs body).
Proof.
  induction xs as [|a xs IH]; intros H; simpl.
  - apply key_safe_ret.
  - apply key_safe_bind; [apply H; now left|].
    intros _. apply IH. intros b Hb. apply H. now right.
Qed.

Lemma key_safe_getitem L c : In c L -> key_safe L (pd.getitem c).
Proof.
  intros Hc T T' r. unfold pd.getitem.
  destruct (pd.assoc c (columns T)) eqn:E; intros [= <- <-]; split; try tauto.
  split; [discriminate|]. intros c' [<-|[]]. split; [exact Hc|].
  intros H. apply labels_assoc in H. contradiction.
Qed.

Lemma key_safe_setitem L c s : key_safe L (pd.setitem c s).
Proof.
  intros T T' r [= <- <-]. split; [|exact I].
  intros c' H. unfold pd.labels. simpl. apply assoc_set_in_labels. now right.
Qed.

Lemma key_safe_missing L cols T :
  (forall c, In c cols -> In c L) ->
  pd.missing_labels cols T <> [] ->
  pd.missing_labels cols T <> [] /\
  forall c, In c (pd.missing_labels cols T) -> In c L /\ ~ In c (pd.labels T).
Proof.
  intros HL N. split; [exact N|]. intros c Hc.
  apply missing_labels_in in Hc. destruct Hc. split; auto.
Qed.

Lemma key_safe_getitems L cols :
  (forall c, In c cols -> In c L) -> key_safe L (pd.getitems cols).
Proof.
  intros HL T T' r. unfold pd.getitems.
  destruct (pd.missing_labels cols T) as [|m ms] eqn:E; intros [= <- <-];
    split; try tauto.
  rewrite <- E. apply key_safe_missing; [exact HL | rewrite E; discriminate].
Qed.

Lemma key_safe_setitems L cols ss : key_safe L (pd.setitems cols ss).
Proof.
  unfold pd.setitems. apply key_safe_for_each. intros [c s] _.
  apply key_safe_setitem.
Qed.

Lemma key_safe_drop L cols :
  (forall c, In c cols -> In c L) -> key_safe L (pd.drop cols).
Proof.
  intros HL T T' r. unfold pd.drop.
  destruct (pd.missing_labels cols T) as [|m ms] eqn:E; intros [= <- <-];
    split; try tauto.
  rewrite <- E. apply key_safe_missing; [exact HL | rewrite E; discriminate].
Qed.

Lemma fillna_not_key_error v ss miss : pd.fillna v ss <> Raise (KeyError miss).
Proof.
  induction ss as [|s ss IH]; simpl; [discriminate|].
  destruct (pd.fillna_series v s) as [s'|e] eqn:E.
  - destruct (pd.fillna v ss); [discriminate|]. congruence.
  - apply fillna_series_raises in E. subst. discriminate.
Qed.

Lemma to_datetime_not_key_error l miss : pd.to_datetime l <> Raise (KeyError miss).
Proof.
  induction l as [|s l IH]; simpl; [discriminate|].
  destruct (pd.parse_one s) as [t|e] eqn:E.
  - destruct (pd.to_datetime l); [discriminate|]. congruence.
  - unfold pd.parse_one in E. destruct (pd.strptime s) as [t|].
    + destruct (pd.year t =? 0); [inversion E; discriminate|].
      destruct (pd.in_bounds t); [discriminate|]. inversion E. discriminate.
    + inversion E. discriminate.
Qed.

Lemma cast_types_key_safe : key_safe cols_cast_category cast_types_stmts.
Proof.
  apply key_safe_for_each. intros c Hc.
  apply key_safe_bind; [now apply key_safe_getitem|].
  intros s. apply key_safe_setitem.
Qed.

Lemma fillna_inplace_key_safe L cols v :
  (forall c, In c cols -> In c L) -> key_safe L (pd.fillna_inplace cols v).
Proof.
  intros HL. unfold pd.fillna_inplace.
  apply key_safe_bind; [now apply key_safe_getitems | intros ss].
  apply key_safe_bind; [|intros ss'; apply key_safe_setitems].
  apply key_safe_lift. intros miss. apply fillna_not_key_error.
Qed.

Lemma fillna_stmts_key_safe :
  key_safe (cols_fillna_None_str ++ cols_fillna_0) fillna_stmts.
Proof.
  apply key_safe_bind; [|intros _]; apply fillna_inplace_key_safe;
    intros c Hc; apply in_or_app; auto.
Qed.

Lemma transform_date_sold_key_safe :
  key_safe ["MoSold"; "YrSold"] transform_date_sold_stmts.
Proof.
  unfold transform_date_sold_stmts.
  apply key_safe_bind; [apply key_safe_getitem; now left | intros mo].
  apply key_safe_bind; [apply key_safe_getitem; right; now left | intros yr].
  apply key_safe_bind;
    [apply key_safe_lift; intros miss; apply to_datetime_not_key_error | intros ds].
  apply key_safe_bind; [apply key_safe_setitem | intros _].
  now apply key_safe_drop.
Qed.

Lemma binarize_features_key_safe :
  key_safe binarize_sources binarize_features_stmts.
Proof.
  unfold binarize_features_stmts.
  apply key_safe_bind; [|intros _; apply key_safe_bind; [|intros _]].
  - apply key_safe_for_each. intros [c v] Hin.
    apply key_safe_bind; [|intros s; apply key_safe_setitem].
    apply key_safe_getitem. now apply true_rule_source with v.
  - apply key_safe_for_each. intros [c v] Hin.
    apply key_safe_bind; [|intros s; apply key_safe_setitem].
    apply key_safe_getitem. now apply false_rule_source with v.
  - now apply key_safe_drop.
Qed.

Lemma key_safe_after {A} L (m : prog DataFrame A) T miss :
  key_safe L m -> after m T = Raise (KeyError miss) ->
  miss <> [] /\ forall c, In c miss -> In c L /\ ~ In c (pd.labels T).
Proof.
  intros H. unfold after. destruct (m T) as [T' [a|e]] eqn:E; [discriminate|].
  intros [= ->]. now destruct (H _ _ _ E) as [_ K].
Qed.

Lemma key_safe_result {A} L (m : prog DataFrame A) T miss :
  key_safe L m -> result m T = Raise (KeyError miss) ->
  miss <> [] /\ forall c, In c miss -> In c L /\ ~ In c (pd.labels T).
Proof.
  intros H. unfold result. destruct (m T) as [T' [a|e]] eqn:E; [discriminate|].
  simpl. intros [= ->]. now destruct (H _ _ _ E) as [_ K].
Qed.

Lemma date_columns_not_dropped c : In c ["MoSold"; "YrSold"] -> ~ In c cols_drop.
Proof. apply disjointb_spec. reflexivity. Qed.

Lemma sources_not_dropped c :
  In c binarize_sources -> ~ In c (cols_drop ++ ["MoSold"; "YrSold"]).
Proof. apply disjointb_spec. reflexivity. Qed.

(** A [KeyError] of the stages names expected columns that the input
    lacks. *)
Lemma stages_frame_key_error T miss :
  stages_frame T = Raise (KeyError miss) ->
  miss <> [] /\
  forall c, In c miss -> In c expected_columns /\ ~ In c (pd.labels T).
Proof.
  unfold stages_frame, and_then, expected_columns.
  fold binarize_sources.
  destruct (after cast_types_stmts T) as [T1|e1] eqn:E1.
  2:{ intros [= ->].
      destruct (key_safe_after _ _ _ _ cast_types_key_safe E1) as [N K].
      split; [exact N|]. intros c Hc. destruct (K c Hc).
      rewrite !in_app_iff. tauto. }
  pose proof (cast_types_labels _ _ E1) as L1.
  destruct (after fillna_stmts T1) as [T2|e2] eqn:E2.
  2:{ intros [= ->].
      destruct (key_safe_after _ _ _ _ fillna_stmts_key_safe E2) as [N K].
      split; [exact N|]. intros c Hc. destruct (K c Hc) as [I1 I2].
      rewrite L1 in I2. rewrite !in_app_iff in *. tauto. }
  pose proof (fillna_stmts_labels _ _ E2) as L2.
  destruct (result (pd.drop cols_drop) T2) as [T3|e3] eqn:E3.
  2:{ intros [= ->].
      destruct (key_safe_result cols_drop _ _ _
                  (key_safe_drop _ _ (fun c H => H)) E3) as [N K].
      split; [exact N|]. intros c Hc. destruct (K c Hc) as [I1 I2].
      rewrite L2, L1 in I2. rewrite !in_app_iff. tauto. }
  apply drop_inv in E3. destruct E3 as [-> _].
  destruct (result transform_date_sold_stmts _) as [T4|e4] eqn:E4.
  2:{ intros [= ->].
      destruct (key_safe_result _ _ _ _ transform_date_sold_key_safe E4) as [N K].
      split; [exact N|]. intros c Hc. destruct (K c Hc) as [I1 I2].
      split; [rewrite !in_app_iff; tauto|].
      intros H. apply I2. unfold pd.labels. cbn [columns].
      apply kept_labels. split.
      - fold (pd.labels T2). now rewrite L2, L1.
      - now apply date_columns_not_dropped. }
  apply date_sold_inv in E4. destruct E4 as (mo & yr & ds & _ & _ & _ & ->).
  intros E5.
  destruct (key_safe_result _ _ _ _ binarize_features_key_safe E5) as [N K].
  split; [exact N|]. intros c Hc. destruct (K c Hc) as [I1 I2].
  split; [rewrite !in_app_iff; tauto|].
  intros H. apply I2. apply date_sold_frame_labels.
  pose proof (sources_not_dropped c I1) as D. rewrite in_app_iff in D.
  split; [|tauto]. right. unfold pd.labels. cbn [columns].
  apply kept_labels. split; [|tauto].
  fold (pd.labels T2). now rewrite L2, L1.
Qed.

End key_errors.

(** [transform] raises [KeyError] only for columns of its configuration
    that the input does not have: the labels of the error are expected
    columns absent from the input table, and there is at least one.  On a
    table with every expected column it never raises [KeyError]. *)
Theorem transform_key_error (X : loc) (w w' : world) (T : DataFrame)
    (miss : list string) :
  frames w !! X = Some T ->
  transform X w = (w', Raise (KeyError miss)) ->
  miss <> [] /\
  forall c, In c miss -> In c expected_columns /\ ~ In c (pd.labels T).
Proof.
  intros HT E. destruct (transform_run _ _ _ HT) as (w2 & _ & R).
  destruct (transform_frame T) as [T'|e] eqn:F.
  - destruct R as (Y & E2 & _). rewrite E in E2. discriminate.
  - rewrite E in R. inversion R; subst e.
    unfold transform_frame, and_then in F.
    destruct (stages_frame T) as [T5|e5] eqn:S.
    + pose proof (validate_inv T5 _ eq_refl) as V.
      destruct (result validate_no_nans_stmts T5) as [[]|e]; [discriminate|].
      destruct V as [-> _]. discriminate.
    + inversion F; subst e5. now apply stages_frame_key_error.
Qed.

Lemma transform_key_error_witness :
  exists w',
    transform 0%nat (Sample.world_of Sample.no_street)
    = (w', Raise (KeyError ["Street"; "Utilities"])) /\
    ~ In "Street" (pd.labels Sample.no_street) /\
    In "Street" expected_columns.
Proof.
  remember (fst (transform 0%nat (Sample.world_of Sample.no_street))) as w' eqn:Hw.
  assert (E : transform 0%nat (Sample.world_of Sample.no_street)
              = (w', Raise (KeyError ["Street"; "Utilities"])))
    by (subst w'; vm_compute; reflexivity).
  destruct (transform_key_error 0%nat (Sample.world_of Sample.no_street) w'
              Sample.no_street _ eq_refl E) as [_ K].
  exists w'. split; [exact E|].
  destruct (K "Street" (or_introl eq_refl)) as [K1 K2]. split; [exact K2 | exact K1].
Defined.

(** * The private methods, called on their own *)

Section private_methods.

Implicit Types (w : world) (X Y Z : loc) (T : DataFrame) (c : string).

Lemma new_method_world (stmts : prog DataFrame DataFrame) X w T :
  frames w !! X = Some T ->
  (T <- on X stmts ;; new T) w
  = match snd (stmts T) with
    | Ok T' =>
        (set_frame (fresh (dom (frames (set_frame X (fst (stmts T)) w)))) T'
           (set_frame X (fst (stmts T)) w),
         Ok (fresh (dom (frames (set_frame X (fst (stmts T)) w)))))
    | Raise e => (set_frame X (fst (stmts T)) w, Raise e)
    end.
Proof.
  intros HT. unfold bind. rewrite (on_run _ _ _ _ HT).
  destruct (snd (stmts T)); reflexivity.
Qed.

Lemma fresh_after_set X T w :
  fresh (dom (frames (set_frame X T w))) <> X /\
  frames w !! fresh (dom (frames (set_frame X T w))) = None.
Proof.
  pose proof (fresh_unbound (set_frame X T w)) as H.
  remember (fresh (dom (frames (set_frame X T w)))) as F eqn:EF. clear EF.
  destruct (decide (X = F)) as [<-|N].
  - rewrite lookup_set_frame in H. discriminate.
  - rewrite lookup_set_frame_ne in H by exact N. split; [congruence | exact H].
Qed.

Lemma date_sold_state T mo yr ds :
  pd.assoc "MoSold" (columns T) = Some mo ->
  pd.assoc "YrSold" (columns T) = Some yr ->
  pd.to_datetime (sale_strings mo yr) = Ok ds ->
  transform_date_sold_stmts T
  = (mkFrame (index T)
       (pd.assoc_set "MonthNumSold" (month_num_sold ds) (columns T)),
     Ok (date_sold_frame T ds)).
Proof.
  intros Hm Hy D. unfold transform_date_sold_stmts, bind.
  rewrite (getitem_ok _ _ _ Hm), (getitem_ok _ _ _ Hy). unfold lift.
  fold (sale_strings mo yr). rewrite D. simpl.
  rewrite drop_ok; [reflexivity|].
  intros c [<-|[<-|[]]]; apply labels_assoc; simpl;
    rewrite assoc_set_ne by discriminate; congruence.
Qed.

Lemma fillna_series_cells v s s' :
  pd.fillna_series v s = Ok s' ->
  (dtype_of s = DInt \/ dtype_of s = DBool -> s' = s) /\
  (dtype_of s <> DInt -> dtype_of s <> DBool ->
   cells s' = map (pd.fill v) (cells s)).
Proof.
  unfold pd.fillna_series. destruct s as [d l]. cbn [dtype_of cells].
  assert (Hid : existsb isna l = false -> map (pd.fill v) l = l).
  { intros E. rewrite <- (map_id l) at 2. apply map_ext_in. intros x Hx.
    unfold pd.fill. destruct (isna x) eqn:Ex; [|reflexivity].
    assert (existsb isna l = true) by (apply existsb_exists; eauto).
    congruence. }
  destruct d; intros H.
  - inversion H. split; [reflexivity | congruence].
  - destruct (existsb isna l) eqn:E; inversion H; simpl;
      split; intros; try reflexivity; try (destruct H0; discriminate).
    symmetry. now apply Hid.
  - inversion H. split; [reflexivity | congruence].
  - inversion H. simpl. split; [intros [?|?]; discriminate | reflexivity].
  - destruct (existsb (value_eqb v) categories); inversion H. simpl.
    split; [intros [?|?]; discriminate | reflexivity].
  - destruct (existsb isna l) eqn:E; inversion H; simpl;
      split; intros; try reflexivity; try (destruct H0; discriminate).
    symmetry. now apply Hid.
Qed.

End private_methods.

Lemma sort_mixed_in (l : list value) (v : value) :
  In v (pd.sort_mixed l) <-> In v l.
Proof.
  unfold pd.sort_mixed. rewrite in_app_iff, !sort_in, !filter_In.
  destruct (pd.is_str v); simpl; intuition discriminate.
Qed.

Lemma astype_category_categories s cats :
  (forall k, dtype_of s <> DCategory k) ->
  dtype_of (pd.astype_category s) = DCategory cats ->
  (forall v, In v cats -> v <> NaN /\ In v (cells s)) /\
  (forall x, In x (cells s) -> x <> NaN ->
             exists v, In v cats /\ py_eq x v = true).
Proof.
  intros Hk. unfold pd.astype_category.
  destruct (dtype_of s) eqn:E; try (now elim (Hk categories));
    cbn [dtype_of]; intros [= <-];
    set (vals := List.filter (fun v => negb (isna v)) (pd.unique s));
    (assert (Hin : forall v,
               In v (match pd.sorted vals with
                     | Ok l => l
                     | Raise _ => pd.sort_mixed vals
                     end)
               <-> In v vals)
      by (intros v; unfold pd.sorted; destruct (pd.homogeneous vals);
          [apply sort_in | apply sort_mixed_in]));
    (split;
     [ intros v Hv; apply Hin in Hv; apply filter_In in Hv;
       destruct Hv as [Hu Hn]; split;
       [ intros ->; discriminate | now apply unique_from_in in Hu ]
     | intros x Hx Nx;
       destruct (unique_from_covers [] _ x Hx) as (v & [[]|Hv] & K);
       rewrite (same_key_py_eq _ _ Nx) in K;
       exists v; split; [|exact K];
       apply Hin; apply filter_In; split; [exact Hv|];
       destruct v; try reflexivity; destruct x as [| | |[|]]; discriminate ]).
Qed.

(** [_cast_types] works in place: it returns the reference it was given
    and the table behind it has changed.  On a table with a column
    [MSSubClass] it turns that column into a categorical column with the
    same cells, whose categories (unless the column was categorical already)
    are the distinct non-missing values of the column; the row-ids, the
    labels and every other column are untouched, and so is every other
    object.  Without the column it raises [KeyError] and changes nothing. *)
Theorem cast_types_in_place (X : loc) (w : world) (T : DataFrame) :
  frames w !! X = Some T ->
  (forall s, pd.assoc "MSSubClass" (columns T) = Some s ->
     exists w' T' s' cats,
       _cast_types X w = (w', Ok X) /\
       frames w' !! X = Some T' /\
       (forall Z, Z <> X -> frames w' !! Z = frames w !! Z) /\
       self w' = self w /\
       index T' = index T /\ pd.labels T' = pd.labels T /\
       (forall c, c <> "MSSubClass" ->
                  pd.assoc c (columns T') = pd.assoc c (columns T)) /\
       pd.assoc "MSSubClass" (columns T') = Some s' /\
       cells s' = cells s /\ dtype_of s' = DCategory cats /\
       ((forall k, dtype_of s <> DCategory k) ->
        (forall v, In v cats -> v <> NaN /\ In v (cells s)) /\
        (forall x, In x (cells s) -> x <> NaN ->
                   exists v, In v cats /\ py_eq x v = true))) /\
  (pd.assoc "MSSubClass" (columns T) = None ->
   _cast_types X w = (w, Raise (KeyError ["MSSubClass"]))).
Proof.
  intros HT. split.
  - intros s Hs.
    destruct (astype_category_dtype s) as (cats & Hc).
    exists (set_frame X (mkFrame (index T)
              (pd.assoc_set "MSSubClass" (pd.astype_category s) (columns T))) w),
      (mkFrame (index T)
         (pd.assoc_set "MSSubClass" (pd.astype_category s) (columns T))),
      (pd.astype_category s), cats.
    split; [|split; [|split; [|split; [|split; [|split; [|split; [|split; [|split; [|split]]]]]]]]].
    + unfold _cast_types, bind. rewrite (on_run _ _ _ _ HT).
      unfold cast_types_stmts, cols_cast_category. cbn [for_each].
      unfold bind. rewrite (getitem_ok _ _ _ Hs). reflexivity.
    + apply lookup_set_frame.
    + intros Z HZ. apply lookup_set_frame_ne. congruence.
    + reflexivity.
    + reflexivity.
    + unfold pd.labels. cbn [columns]. rewrite assoc_set_labels.
      assert (I : In "MSSubClass" (map fst (columns T))).
      { apply (proj2 (labels_assoc _ T)). congruence. }
      now rewrite (proj2 (has_label_true _ _) I).
    + intros c Hc'. cbn [columns]. apply assoc_set_ne. congruence.
    + cbn [columns]. apply assoc_set_eq.
    + unfold pd.astype_category. now destruct (dtype_of s).
    + exact Hc.
    + intros Hk. now apply astype_category_categories.
  - intros Hn. unfold _cast_types, bind. rewrite (on_run _ _ _ _ HT).
    unfold cast_types_stmts, cols_cast_category. cbn [for_each].
    unfold bind. rewrite (getitem_missing _ _ Hn). cbn [fst snd].
    now rewrite (set_frame_id _ _ _ HT).
Qed.

Lemma cast_types_in_place_witness :
  exists w' T',
    _cast_types 0%nat (Sample.world_of Sample.raw) = (w', Ok 0%nat) /\
    frames w' !! 0%nat = Some T' /\
    pd.assoc "MSSubClass" (columns T')
      = Some (mkSeries (DCategory [Num 20; Num 60]) [Num 60; Num 20]).
Proof.
  destruct (cast_types_in_place 0%nat (Sample.world_of Sample.raw) Sample.raw
              eq_refl) as [A _].
  destruct (A (Sample.ints [60; 20]) eq_refl)
    as (w' & T' & s' & cats & E & F & _ & _ & _ & _ & _ & M & _).
  exists w', T'. split; [exact E|]. split; [exact F|].
  assert (R : frames (fst (_cast_types 0%nat (Sample.world_of Sample.raw))) !! 0%nat
              = Some (mkFrame (index Sample.raw)
                        (pd.assoc_set "MSSubClass"
                           (mkSeries (DCategory [Num 20; Num 60]) [Num 60; Num 20])
                           (columns Sample.raw))))
    by (vm_compute; reflexivity).
  rewrite E in R. cbn [fst] in R.
  pose proof (eq_trans (eq_sym F) R) as Q. inversion Q; subst T'.
  vm_compute. reflexivity.
Defined.

(** [_transform_date_sold] changes the table it is given and returns
    another one.  When it returns, the argument has gained the column
    [MonthNumSold] and still holds [MoSold] and [YrSold], its other columns
    and its row-ids being as before, while the result is an object that did
    not exist before, with the same [MonthNumSold] column and without
    [MoSold] and [YrSold].  When it raises, nothing has changed. *)
Theorem transform_date_sold_in_place (X : loc) (w : world) (T : DataFrame) :
  frames w !! X = Some T ->
  (forall w' Y,
     _transform_date_sold X w = (w', Ok Y) ->
     exists TX TY m,
       Y <> X /\ frames w !! Y = None /\
       frames w' !! X = Some TX /\ frames w' !! Y = Some TY /\
       (forall Z, Z <> X -> Z <> Y -> frames w' !! Z = frames w !! Z) /\
       self w' = self w /\
       index TX = index T /\ index TY = index T /\
       pd.assoc "MonthNumSold" (columns TX) = Some m /\
       pd.assoc "MonthNumSold" (columns TY) = Some m /\
       (forall c, c <> "MonthNumSold" ->
                  pd.assoc c (columns TX) = pd.assoc c (columns T)) /\
       pd.assoc "MoSold" (columns TX) <> None /\
       pd.assoc "YrSold" (columns TX) <> None /\
       pd.assoc "MoSold" (columns TY) = None /\
       pd.assoc "YrSold" (columns TY) = None /\
       (forall c, c <> "MonthNumSold" -> c <> "MoSold" -> c <> "YrSold" ->
                  pd.assoc c (columns TY) = pd.assoc c (columns T))) /\
  (forall w' e, _transform_date_sold X w = (w', Raise e) -> w' = w).
Proof.
  intros HT. unfold _transform_date_sold.
  rewrite (new_method_world _ _ _ _ HT).
  destruct (pd.assoc "MoSold" (columns T)) as [mo|] eqn:Hm.
  - destruct (pd.assoc "YrSold" (columns T)) as [yr|] eqn:Hy.
    + destruct (pd.to_datetime (sale_strings mo yr)) as [ds|e0] eqn:D.
      * rewrite (date_sold_state _ _ _ _ Hm Hy D). cbn [fst snd].
        set (TX := mkFrame (index T)
                     (pd.assoc_set "MonthNumSold" (month_num_sold ds) (columns T))).
        destruct (fresh_after_set X TX w) as [N U].
        split; [|discriminate].
        intros w' Y [= <- <-].
        exists TX, (date_sold_frame T ds), (month_num_sold ds).
        split; [exact N|]. split; [exact U|].
        split; [etransitivity; [apply lookup_set_frame_ne; exact N|];
                apply lookup_set_frame|].
        split; [apply lookup_set_frame|].
        split; [intros Z Z1 Z2;
                etransitivity; [apply lookup_set_frame_ne; congruence|];
                apply lookup_set_frame_ne; congruence|].
        split; [reflexivity|]. split; [reflexivity|]. split; [reflexivity|].
        split; [apply assoc_set_eq|].
        split; [apply date_sold_frame_new|].
        split; [intros c Hc; cbn [TX columns]; apply assoc_set_ne; congruence|].
        split; [cbn [TX columns]; rewrite assoc_set_ne by discriminate;
                congruence|].
        split; [cbn [TX columns]; rewrite assoc_set_ne by discriminate;
                congruence|].
        split; [unfold date_sold_frame; cbn [columns]; rewrite assoc_kept;
                reflexivity|].
        split; [unfold date_sold_frame; cbn [columns]; rewrite assoc_kept;
                reflexivity|].
        intros c C1 C2 C3. unfold date_sold_frame. cbn [columns].
        rewrite assoc_kept.
        rewrite (proj2 (has_label_false c ["MoSold"; "YrSold"])).
        -- apply assoc_set_ne. congruence.
        -- intros [<-|[<-|[]]]; congruence.
      * assert (E : transform_date_sold_stmts T = (T, Raise e0)).
        { unfold transform_date_sold_stmts, bind.
          rewrite (getitem_ok _ _ _ Hm), (getitem_ok _ _ _ Hy). unfold lift.
          fold (sale_strings mo yr). rewrite D. reflexivity. }
        rewrite E. cbn [fst snd]. rewrite (set_frame_id _ _ _ HT).
        split; [discriminate|]. now intros w' e [= <- _].
    + assert (E : transform_date_sold_stmts T = (T, Raise (KeyError ["YrSold"]))).
      { unfold transform_date_sold_stmts, bind.
        rewrite (getitem_ok _ _ _ Hm), (getitem_missing _ _ Hy). reflexivity. }
      rewrite E. cbn [fst snd]. rewrite (set_frame_id _ _ _ HT).
      split; [discriminate|]. now intros w' e [= <- _].
  - assert (E : transform_date_sold_stmts T = (T, Raise (KeyError ["MoSold"]))).
    { unfold transform_date_sold_stmts, bind.
      rewrite (getitem_missing _ _ Hm). reflexivity. }
    rewrite E. cbn [fst snd]. rewrite (set_frame_id _ _ _ HT).
    split; [discriminate|]. now intros w' e [= <- _].
Qed.

Lemma transform_date_sold_in_place_witness :
  exists w' TX TY,
    _transform_date_sold 0%nat (Sample.world_of Sample.sales) = (w', Ok 1%nat) /\
    frames w' !! 0%nat = Some TX /\ frames w' !! 1%nat = Some TY /\
    pd.assoc "MonthNumSold" (columns TX) <> None /\
    pd.assoc "MoSold" (columns TX) <> None /\
    pd.assoc "MoSold" (columns TY) = None.
Proof.
  remember (fst (_transform_date_sold 0%nat (Sample.world_of Sample.sales)))
    as w' eqn:Hw.
  assert (E : _transform_date_sold 0%nat (Sample.world_of Sample.sales)
              = (w', Ok 1%nat))
    by (subst w'; vm_compute; reflexivity).
  destruct (transform_date_sold_in_place 0%nat (Sample.world_of Sample.sales)
              Sample.sales eq_refl) as [A _].
  destruct (A w' 1%nat E)
    as (TX & TY & m & _ & _ & FX & FY & _ & _ & _ & _ & MX & _ & _ & SX & _ & SY & _).
  exists w', TX, TY. split; [exact E|]. split; [exact FX|]. split; [exact FY|].
  split; [congruence|]. split; [exact SX | exact SY].
Defined.

Section binarize_partial.

Variable name : string -> value -> string.
Variable mk : Series -> value -> Series.

Let body : string * value -> prog DataFrame unit :=
  fun '(col, v) => s <- pd.getitem col ;; pd.setitem (name col v) (mk s v).

(** A loop over rules stops at the first rule whose source column is
    missing, after the assignments of the rules before it. *)
Lemma loop_stop (done : list (string * value)) (col : string) (v : value)
    (rest : list (string * value)) (T : DataFrame) (idx : list Z)
    (l : list (string * Series)) :
  (forall c x, In (c, x) done -> pd.assoc c (columns T) <> None) ->
  pd.assoc col (columns T) = None ->
  (forall c x c' x', In (c, x) (done ++ [(col, v)]) -> In (c', x') done ->
                     name c' x' <> c) ->
  (forall c x, In (c, x) (done ++ [(col, v)]) ->
               pd.assoc c l = pd.assoc c (columns T)) ->
  for_each (done ++ (col, v) :: rest) body (mkFrame idx l)
  = (mkFrame idx (assign_all (loop_columns name mk done T) l),
     Raise (KeyError [col])).
Proof.
  revert l. induction done as [|[c0 v0] done IH]; intros l Hp Hm Hn Hl.
  - cbn [app for_each]. unfold bind at 1. unfold body at 1. unfold bind at 1.
    assert (Hc : pd.assoc col (columns (mkFrame idx l)) = None).
    { cbn [columns]. rewrite (Hl col v) by now left. exact Hm. }
    rewrite (getitem_missing _ _ Hc). reflexivity.
  - cbn [app for_each]. unfold bind at 1. unfold body at 1. unfold bind at 1.
    assert (Hc : pd.assoc c0 l = Some (col_or_empty T c0)).
    { rewrite (Hl c0 v0) by now left. unfold col_or_empty.
      specialize (Hp c0 v0 (or_introl eq_refl)).
      now destruct (pd.assoc c0 (columns T)). }
    rewrite (getitem_ok c0 (col_or_empty T c0) (mkFrame idx l) Hc).
    unfold pd.setitem, modify. cbn [index columns].
    rewrite IH.
    + reflexivity.
    + intros c' v' H. apply (Hp c' v'). now right.
    + exact Hm.
    + intros c1 v1 c2 v2 H1 H2. apply (Hn c1 v1 c2 v2); now right.
    + intros c' v' H. rewrite assoc_set_ne.
      * apply (Hl c' v'). now right.
      * apply (Hn c' v' c0 v0); [now right | now left].
Qed.

End binarize_partial.

Section binarize_stops.

Implicit Types (T : DataFrame) (dr rr : list (string * value)).

Lemma true_loop_stop dr c v rr T :
  binarize_features_by_true_value = dr ++ (c, v) :: rr ->
  (forall b x, In (b, x) dr -> In b (pd.labels T)) ->
  ~ In c (pd.labels T) ->
  for_each binarize_features_by_true_value (fun '(col, true_val) =>
    s <- pd.getitem col ;;
    pd.setitem (true_name col true_val) (pd.eq_scalar s true_val)) T
  = (mkFrame (index T)
       (assign_all (loop_columns true_name pd.eq_scalar dr T) (columns T)),
     Raise (KeyError [c])).
Proof.
  intros E Hd Hc.
  assert (Hin : forall b x, In (b, x) (dr ++ [(c, v)]) ->
                            In (b, x) binarize_features_by_true_value).
  { intros b x H. rewrite E. apply in_app_or in H. apply in_or_app.
    destruct H as [H|[H|[]]]; [now left | right; now left]. }
  rewrite E. destruct T as [idx l]. cbn [index columns].
  apply (loop_stop true_name pd.eq_scalar dr c v rr (mkFrame idx l) idx l).
  - intros b x H. apply labels_assoc. now apply (Hd b x).
  - now apply labels_assoc_none.
  - intros b x b' x' H H' Eq.
    apply (binarized_names_not_sources (true_name b' x')).
    + apply true_rule_name, Hin, in_or_app. now left.
    + rewrite Eq. apply (true_rule_source b x). now apply Hin.
  - reflexivity.
Qed.

Lemma false_loop_stop dr c v rr T idx l :
  binarize_features_by_false_value = dr ++ (c, v) :: rr ->
  (forall b x, In (b, x) dr -> In b (pd.labels T)) ->
  ~ In c (pd.labels T) ->
  (forall b, In b binarize_sources -> pd.assoc b l = pd.assoc b (columns T)) ->
  for_each binarize_features_by_false_value (fun '(col, false_val) =>
    s <- pd.getitem col ;;
    pd.setitem (false_name col false_val) (pd.ne_scalar s false_val))
    (mkFrame idx l)
  = (mkFrame idx (assign_all (loop_columns false_name pd.ne_scalar dr T) l),
     Raise (KeyError [c])).
Proof.
  intros E Hd Hc Hl.
  assert (Hin : forall b x, In (b, x) (dr ++ [(c, v)]) ->
                            In (b, x) binarize_features_by_false_value).
  { intros b x H. rewrite E. apply in_app_or in H. apply in_or_app.
    destruct H as [H|[H|[]]]; [now left | right; now left]. }
  rewrite E.
  apply (loop_stop false_name pd.ne_scalar dr c v rr T idx l).
  - intros b x H. apply labels_assoc. now apply (Hd b x).
  - now apply labels_assoc_none.
  - intros b x b' x' H H' Eq.
    apply (binarized_names_not_sources (false_name b' x')).
    + apply false_rule_name, Hin, in_or_app. now left.
    + rewrite Eq. apply (false_rule_source b x). now apply Hin.
  - intros b x H. apply Hl. apply (false_rule_source b x). now apply Hin.
Qed.

End binarize_stops.

(** The binarization stops at the first source column, in the order of the
    two loops, that the table does not have. *)
Lemma binarize_stop (done : list string) (c : string) (rest : list string)
    (T : DataFrame) :
  binarize_sources = done ++ c :: rest ->
  (forall b, In b done -> In b (pd.labels T)) ->
  ~ In c (pd.labels T) ->
  binarize_features_stmts T
  = (mkFrame (index T)
       (assign_all (firstn (length done) (new_columns T)) (columns T)),
     Raise (KeyError [c])).
Proof.
  intros E Hd Hc. unfold binarize_features_stmts.
  assert (Hl : forall b, In b binarize_sources ->
                 pd.assoc b (assign_all
                               (loop_columns true_name pd.eq_scalar
                                  binarize_features_by_true_value T) (columns T))
                 = pd.assoc b (columns T)).
  { intros b Hb. apply assign_all_other. intros N.
    apply (binarized_names_not_sources b); [|exact Hb].
    unfold binarized_names. apply in_or_app. now left. }
  assert (Ht : forall dr cc v rr,
             binarize_features_by_true_value = dr ++ (cc, v) :: rr ->
             done = map fst dr -> c = cc ->
             (for_each binarize_features_by_true_value (fun '(col, true_val) =>
                s <- pd.getitem col ;;
                pd.setitem (true_name col true_val) (pd.eq_scalar s true_val)) ;;
              for_each binarize_features_by_false_value (fun '(col, false_val) =>
                s <- pd.getitem col ;;
                pd.setitem (false_name col false_val) (pd.ne_scalar s false_val)) ;;
              pd.drop (map fst binarize_features_by_true_value
                         ++ map fst binarize_features_by_false_value)) T
             = (mkFrame (index T)
                  (assign_all (loop_columns true_name pd.eq_scalar dr T) (columns T)),
                Raise (KeyError [c]))).
  { intros dr cc v rr Er Ed Ec. subst cc. unfold bind at 1.
    rewrite (true_loop_stop dr c v rr T Er); [reflexivity| |exact Hc].
    intros b x H. apply Hd. rewrite Ed. apply in_map_iff. now exists (b, x). }
  assert (Hf : (forall b, In b (map fst binarize_features_by_true_value) ->
                          In b (pd.labels T)) ->
             forall dr cc v rr,
             binarize_features_by_false_value = dr ++ (cc, v) :: rr ->
             (forall b x, In (b, x) dr -> In b done) -> c = cc ->
             (for_each binarize_features_by_true_value (fun '(col, true_val) =>
                s <- pd.getitem col ;;
                pd.setitem (true_name col true_val) (pd.eq_scalar s true_val)) ;;
              for_each binarize_features_by_false_value (fun '(col, false_val) =>
                s <- pd.getitem col ;;
                pd.setitem (false_name col false_val) (pd.ne_scalar s false_val)) ;;
              pd.drop (map fst binarize_features_by_true_value
                         ++ map fst binarize_features_by_false_value)) T
             = (mkFrame (index T)
                  (assign_all
                     (loop_columns true_name pd.eq_scalar
                        binarize_features_by_true_value T
                      ++ loop_columns false_name pd.ne_scalar dr T) (columns T)),
                Raise (KeyError [c]))).
  { intros Hall dr cc v rr Er Ed Ec. subst cc. unfold bind at 1.
    destruct T as [idx l]. cbn [index columns] in *.
    rewrite (loop_run true_name pd.eq_scalar _ (mkFrame idx l) idx l).
    - unfold bind at 1.
      rewrite (false_loop_stop dr c v rr (mkFrame idx l) idx _ Er).
      + rewrite <- assign_all_app. reflexivity.
      + intros b x H. apply Hd. now apply (Ed b x).
      + exact Hc.
      + exact Hl.
    - intros col x H. apply (proj1 (labels_assoc col (mkFrame idx l))), Hall.
      apply in_map_iff. now exists (col, x).
    - intros col x col' x' H H' Eq.
      apply (binarized_names_not_sources (true_name col' x')).
      + now apply true_rule_name.
      + rewrite Eq. now apply true_rule_source with x.
    - reflexivity. }
  unfold binarize_sources in E. cbn in E.
  destruct done as [|d0 done]; cbn in E.
  { injection E as <- <-.
    exact (Ht [] _ _ _ eq_refl eq_refl eq_refl). }
  injection E as <- E.
  destruct done as [|d1 done]; cbn in E.
  { injection E as <- <-.
    exact (Ht [("Condition2", Str "Norm")] _ _ _ eq_refl eq_refl eq_refl). }
  injection E as <- E.
  destruct done as [|d2 done]; cbn in E.
  { injection E as <- <-.
    exact (Ht [("Condition2", Str "Norm"); ("RoofMatl", Str "CompShg")]
             _ _ _ eq_refl eq_refl eq_refl). }
  injection E as <- E.
  assert (Hall : forall b, In b (map fst binarize_features_by_true_value) ->
                           In b (pd.labels T)).
  { intros b Hb. apply Hd. simpl in Hb. simpl. tauto. }
  specialize (Hf Hall).
  destruct done as [|d3 done]; cbn in E.
  { injection E as <- <-.
    apply (Hf [] _ _ _ eq_refl); [intros b x []|reflexivity]. }
  injection E as <- E.
  destruct done as [|d4 done]; cbn in E.
  { injection E as <- <-.
    apply (Hf [("LowQualFinSF", Num 0)] _ _ _ eq_refl); [|reflexivity].
    intros b x H. apply (in_map fst) in H. simpl in H. simpl. tauto. }
  injection E as <- E.
  destruct done as [|d5 done]; cbn in E.
  { injection E as <- <-.
    apply (Hf [("LowQualFinSF", Num 0); ("3SsnPorch", Num 0)] _ _ _ eq_refl);
      [|reflexivity].
    intros b x H. apply (in_map fst) in H. simpl in H. simpl. tauto. }
  injection E as <- E.
  destruct done as [|d6 done]; cbn in E.
  { injection E as <- <-.
    apply (Hf [("LowQualFinSF", Num 0); ("3SsnPorch", Num 0); ("PoolArea", Num 0)]
             _ _ _ eq_refl); [|reflexivity].
    intros b x H. apply (in_map fst) in H. simpl in H. simpl. tauto. }
  injection E as <- E.
  destruct done; discriminate.
Qed.

(** [_binarize_features] changes the table it is given and returns another
    one.  With the seven source columns present it returns an object that
    did not exist before, holding the seven boolean columns and none of the
    sources, while the argument has gained the same boolean columns and
    keeps its sources.  Otherwise it raises [KeyError] for the first source
    column, in the order of the two loops, that the table does not have, and
    the argument has by then gained the boolean columns of the sources
    before that one. *)
Theorem binarize_features_in_place (X : loc) (w : world) (T : DataFrame) :
  frames w !! X = Some T ->
  ((forall c, In c binarize_sources -> In c (pd.labels T)) ->
   exists w' Y TX TY,
     _binarize_features X w = (w', Ok Y) /\
     Y <> X /\ frames w !! Y = None /\
     frames w' !! X = Some TX /\ frames w' !! Y = Some TY /\
     (forall Z, Z <> X -> Z <> Y -> frames w' !! Z = frames w !! Z) /\
     self w' = self w /\
     index TX = index T /\ index TY = index T /\
     (forall c s, In (c, s) (new_columns T) ->
        pd.assoc c (columns TX) = Some s /\ pd.assoc c (columns TY) = Some s) /\
     (forall c, In c binarize_sources ->
        pd.assoc c (columns TX) = pd.assoc c (columns T) /\
        pd.assoc c (columns TY) = None) /\
     (forall c, ~ In c binarized_names ->
        pd.assoc c (columns TX) = pd.assoc c (columns T))) /\
  (forall done c rest,
     binarize_sources = done ++ c :: rest ->
     (forall b, In b done -> In b (pd.labels T)) ->
     ~ In c (pd.labels T) ->
     exists w',
       _binarize_features X w = (w', Raise (KeyError [c])) /\
       frames w' !! X
       = Some (mkFrame (index T)
                 (assign_all (firstn (length done) (new_columns T)) (columns T))) /\
       (forall Z, Z <> X -> frames w' !! Z = frames w !! Z) /\
       self w' = self w).
Proof.
  intros HT. unfold _binarize_features.
  rewrite (new_method_world _ _ _ _ HT). split.
  - intros Hp. rewrite (binarize_run _ Hp). cbn [fst snd].
    set (TX := mkFrame (index T) (assign_all (new_columns T) (columns T))).
    destruct (fresh_after_set X TX w) as [N U].
    eexists _, _, TX, (binarize_frame T).
    split; [reflexivity|]. split; [exact N|]. split; [exact U|].
    split; [etransitivity; [apply lookup_set_frame_ne; exact N|];
            apply lookup_set_frame|].
    split; [apply lookup_set_frame|].
    split; [intros Z Z1 Z2;
            etransitivity; [apply lookup_set_frame_ne; congruence|];
            apply lookup_set_frame_ne; congruence|].
    split; [reflexivity|]. split; [reflexivity|]. split; [reflexivity|].
    split; [|split].
    + intros c s H. split; [|now apply binarize_frame_new].
      cbn [TX columns]. apply assign_all_in; [|exact H].
      rewrite new_columns_labels. apply binarized_names_nodup.
    + intros c Hc. split.
      * cbn [TX columns]. apply assign_all_other. rewrite new_columns_labels.
        intros Hn. now apply (binarized_names_not_sources c).
      * apply labels_assoc_none. now apply binarize_frame_dropped.
    + intros c Hc. cbn [TX columns]. apply assign_all_other.
      now rewrite new_columns_labels.
  - intros done c rest E Hd Hc.
    rewrite (binarize_stop done c rest T E Hd Hc). cbn [fst snd].
    eexists. split; [reflexivity|].
    split; [apply lookup_set_frame|].
    split; [|reflexivity].
    intros Z HZ. apply lookup_set_frame_ne. congruence.
Qed.

Lemma binarize_features_in_place_witness :
  (exists w' TX TY,
     _binarize_features 0%nat (Sample.world_of Sample.raw) = (w', Ok 1%nat) /\
     frames w' !! 0%nat = Some TX /\ frames w' !! 1%nat = Some TY /\
     pd.assoc "PoolArea_not_0" (columns TX)
       = Some (mkSeries DBool [Bool false; Bool true]) /\
     pd.assoc "PoolArea" (columns TX) = Some (Sample.ints [0; 150]) /\
     pd.assoc "PoolArea" (columns TY) = None) /\
  (exists w',
     _binarize_features 0%nat
       (Sample.world_of
          (mkFrame [1] [("Condition2", Sample.obj [Str "Feedr"])]))
     = (w', Raise (KeyError ["RoofMatl"])) /\
     frames w' !! 0%nat
     = Some (mkFrame [1]
               [("Condition2", Sample.obj [Str "Feedr"]);
                ("Condition2_is_Norm", mkSeries DBool [Bool false])])).
Proof.
  split.
  - destruct (binarize_features_in_place 0%nat (Sample.world_of Sample.raw)
                Sample.raw eq_refl) as [A _].
    destruct A as (w' & Y & TX & TY & E & _ & _ & FX & FY & _ & _ & _ & _
                   & New & Src & _).
    { intros c Hc. vm_compute in Hc. vm_compute. tauto. }
    assert (R : snd (_binarize_features 0%nat (Sample.world_of Sample.raw))
                = Ok 1%nat) by (vm_compute; reflexivity).
    rewrite E in R. cbn [snd] in R. inversion R; subst Y.
    exists w', TX, TY. split; [exact E|]. split; [exact FX|]. split; [exact FY|].
    destruct (New "PoolArea_not_0" (mkSeries DBool [Bool false; Bool true]))
      as [N1 _].
    { vm_compute. tauto. }
    destruct (Src "PoolArea") as [S1 S2].
    { vm_compute. tauto. }
    split; [exact N1|]. split; [|exact S2].
    rewrite S1. vm_compute. reflexivity.
  - destruct (binarize_features_in_place 0%nat
                (Sample.world_of
                   (mkFrame [1] [("Condition2", Sample.obj [Str "Feedr"])]))
                (mkFrame [1] [("Condition2", Sample.obj [Str "Feedr"])])
                eq_refl) as [_ B].
    destruct (B ["Condition2"] "RoofMatl"
                ["Heating"; "LowQualFinSF"; "3SsnPorch"; "PoolArea"; "MiscVal"]
                eq_refl) as (w' & E & F & _).
    { intros b [<-|[]]. left. reflexivity. }
    { intros [H|[]]. discriminate. }
    exists w'. split; [exact E|]. refine (eq_trans F _). vm_compute. reflexivity.
Defined.

Section reports.

Lemma filter_sublist {A} (f : A -> bool) (l : list A) :
  sublist (List.filter f l) l.
Proof.
  induction l as [|x l IH]; simpl; [constructor|].
  destruct (f x); now constructor.
Qed.

Lemma map_sublist {A B} (f : A -> B) (l1 l2 : list A) :
  sublist l1 l2 -> sublist (map f l1) (map f l2).
Proof. induction 1; simpl; now constructor. Qed.

Lemma imap_snd {A B} (f : nat -> A -> B * A) (l : list A) :
  (forall i x, snd (f i x) = x) -> map snd (imap f l) = l.
Proof.
  revert f. induction l as [|x l IH]; intros f Hf; simpl; [reflexivity|].
  rewrite Hf. f_equal. apply IH. intros i y. apply Hf.
Qed.

Lemma ids_with_na_sublist (T : DataFrame) :
  sublist (pd.ids_with_na T) (index T).
Proof.
  unfold pd.ids_with_na.
  rewrite <- (imap_snd pair (index T)) at 2 by reflexivity.
  apply map_sublist. apply filter_sublist.
Qed.

Lemma kept_sublist (cols : list string) (l : list (string * Series)) :
  sublist (map fst (kept cols l)) (map fst l).
Proof. apply map_sublist. apply filter_sublist. Qed.

End reports.

(** [_drop_columns] never changes the table it is given, nor anything else
    that exists.  With the six columns present it returns an object that did
    not exist before, with the same row-ids and the remaining columns, in
    their order and unchanged.  Otherwise it raises [KeyError] with every
    column of the list that the table lacks, in the order of the list, and
    the world is as before. *)
Theorem drop_columns_new_object (X : loc) (w : world) (T : DataFrame) :
  frames w !! X = Some T ->
  exists w' r,
    _drop_columns X w = (w', r) /\
    (forall Z T0, frames w !! Z = Some T0 -> frames w' !! Z = Some T0) /\
    self w' = self w /\
    match r with
    | Ok Y =>
        frames w !! Y = None /\
        (forall c, In c cols_drop -> In c (pd.labels T)) /\
        exists T',
          frames w' !! Y = Some T' /\ index T' = index T /\
          sublist (pd.labels T') (pd.labels T) /\
          (forall c, In c cols_drop -> ~ In c (pd.labels T')) /\
          (forall c, ~ In c cols_drop ->
                     pd.assoc c (columns T') = pd.assoc c (columns T))
    | Raise e =>
        w' = w /\
        exists miss,
          e = KeyError miss /\ miss <> [] /\ sublist miss cols_drop /\
          forall c, In c miss <-> In c cols_drop /\ ~ In c (pd.labels T)
    end.
Proof.
  intros HT. unfold _drop_columns. rewrite (new_method_world _ _ _ _ HT).
  rewrite drop_state. rewrite (set_frame_id _ _ _ HT).
  destruct (snd (pd.drop cols_drop T)) as [T'|e] eqn:R.
  - apply drop_inv in R. destruct R as [-> Hp].
    eexists _, _. split; [reflexivity|].
    pose proof (fresh_unbound w) as U.
    split; [|split; [reflexivity|]].
    + intros Z T0 HZ. rewrite lookup_set_frame_ne; [exact HZ|].
      intros <-. congruence.
    + split; [exact U|]. split; [exact Hp|].
      eexists. split; [apply lookup_set_frame|]. split; [reflexivity|].
      split; [apply kept_sublist|]. split.
      * intros c Hc H. apply kept_labels in H. tauto.
      * intros c Hc. cbn [columns]. rewrite assoc_kept.
        now rewrite (proj2 (has_label_false c cols_drop) Hc).
  - apply drop_raises in R. destruct R as [-> Hne].
    eexists _, _. split; [reflexivity|].
    split; [now intros|]. split; [reflexivity|]. split; [reflexivity|].
    eexists. split; [reflexivity|]. split; [exact Hne|]. split.
    + apply filter_sublist.
    + intros c. apply missing_labels_in.
Qed.

Lemma drop_columns_new_object_witness :
  (exists w' T',
     _drop_columns 0%nat (Sample.world_of Sample.raw) = (w', Ok 1%nat) /\
     frames w' !! 0%nat = Some Sample.raw /\
     frames w' !! 1%nat = Some T' /\
     ~ In "Street" (pd.labels T')) /\
  _drop_columns 0%nat (Sample.world_of Sample.no_street)
  = (Sample.world_of Sample.no_street, Raise (KeyError ["Street"; "Utilities"])).
Proof.
  split.
  - destruct (drop_columns_new_object 0%nat (Sample.world_of Sample.raw)
                Sample.raw eq_refl) as (w' & r & E & K & _ & H).
    assert (R : snd (_drop_columns 0%nat (Sample.world_of Sample.raw)) = Ok 1%nat)
      by (vm_compute; reflexivity).
    rewrite E in R. cbn [snd] in R. subst r.
    destruct H as (_ & _ & T' & F & _ & _ & D & _).
    exists w', T'. split; [exact E|].
    split; [exact (K 0%nat Sample.raw eq_refl)|]. split; [exact F|].
    apply D. vm_compute. tauto.
  - destruct (drop_columns_new_object 0%nat (Sample.world_of Sample.no_street)
                Sample.no_street eq_refl) as (w' & r & E & _ & _ & H).
    assert (R : snd (_drop_columns 0%nat (Sample.world_of Sample.no_street))
                = Raise (KeyError ["Street"; "Utilities"]))
      by (vm_compute; reflexivity).
    rewrite E in R. cbn [snd] in R. subst r.
    destruct H as (-> & _). exact E.
Defined.

(** [_validate_no_nans] only looks: the world is afterwards what it was.
    It returns exactly when no cell of the table is missing.  Otherwise the
    error lists the row-ids of the rows with a missing cell, in the order of
    the rows, and the labels of the columns with a missing cell, in the
    order of the columns; there is at least one such column. *)
Theorem validate_no_nans_check (X : loc) (w : world) (T : DataFrame) :
  frames w !! X = Some T ->
  exists r,
    _validate_no_nans X w = (w, r) /\
    (r = Ok tt <-> no_missing T) /\
    forall e, r = Raise e ->
      exists ids cols,
        e = ValueError_NaNs ids cols /\ cols <> [] /\
        (forall id, In id ids <-> affected_row T id) /\
        (forall c, In c cols <-> affected_column T c) /\
        sublist ids (index T) /\ sublist cols (pd.labels T).
Proof.
  intros HT. unfold _validate_no_nans. rewrite (on_run _ _ _ _ HT).
  assert (E : fst (validate_no_nans_stmts T) = T).
  { unfold validate_no_nans_stmts, bind, gets, raise, ret. simpl.
    now destruct (pd.any_isna T). }
  rewrite E, (set_frame_id _ _ _ HT).
  pose proof (validate_inv T _ eq_refl) as V. unfold result in V.
  exists (snd (validate_no_nans_stmts T)). split; [reflexivity|].
  destruct (snd (validate_no_nans_stmts T)) as [[]|e0].
  - split; [tauto | discriminate].
  - destruct V as [-> A]. split.
    + split; [discriminate|]. intros N. exfalso.
      destruct (any_isna_true _ A) as (c & s & Hin & Hna).
      exact (N c s Hin Hna).
    + intros e [= <-]. eexists _, _. split; [reflexivity|].
      split.
      { destruct (any_isna_true _ A) as (c & Hc).
        apply columns_with_na_spec in Hc. intros N. now rewrite N in Hc. }
      split; [intros id; apply ids_with_na_spec|].
      split; [intros c; apply columns_with_na_spec|].
      split; [apply ids_with_na_sublist|].
      apply (select_sublist pd.has_na).
Qed.

Lemma validate_no_nans_check_witness :
  _validate_no_nans 0%nat (Sample.world_of Sample.missing_area)
  = (Sample.world_of Sample.missing_area,
     Raise (ValueError_NaNs [1; 2]
              (cols_fillna_None_str ++ cols_fillna_0 ++ ["LotArea"]))).
Proof.
  destruct (validate_no_nans_check 0%nat (Sample.world_of Sample.missing_area)
              Sample.missing_area eq_refl) as (r & E & _).
  assert (R : snd (_validate_no_nans 0%nat (Sample.world_of Sample.missing_area))
              = Raise (ValueError_NaNs [1; 2]
                         (cols_fillna_None_str ++ cols_fillna_0 ++ ["LotArea"])))
    by (vm_compute; reflexivity).
  rewrite E in R. cbn [snd] in R. subst r. exact E.
Defined.

Lemma fill_not_missing (v : value) (l : list value) :
  isna v = false -> ~ In NaN (map (pd.fill v) l).
Proof.
  intros Hv H. apply in_map_iff in H. destruct H as (x & E & _).
  unfold pd.fill in E. destruct (isna x) eqn:Ex.
  - subst v. discriminate.
  - subst x. discriminate.
Qed.

(** [_fillna] works in place and returns the reference it was given.  When
    it returns, the row-ids and the labels are as before and every column
    outside the two fill lists is untouched.  A column of the first list has
    the string [None] in every cell that was missing, a column of the second
    list the number 0, and their other cells are unchanged, so that no cell
    of such a column is missing any more; integer and boolean columns, which
    hold no missing value, are left as they are. *)
Theorem fillna_in_place (X Y : loc) (w w' : world) (T : DataFrame) :
  frames w !! X = Some T ->
  _fillna X w = (w', Ok Y) ->
  Y = X /\
  (forall Z, Z <> X -> frames w' !! Z = frames w !! Z) /\
  self w' = self w /\
  exists T',
    frames w' !! X = Some T' /\
    index T' = index T /\ pd.labels T' = pd.labels T /\
    (forall c, ~ In c cols_fillna_None_str -> ~ In c cols_fillna_0 ->
               pd.assoc c (columns T') = pd.assoc c (columns T)) /\
    (forall c v,
       (In c cols_fillna_None_str /\ v = Str "None") \/
       (In c cols_fillna_0 /\ v = Num 0) ->
       exists s s',
         pd.assoc c (columns T) = Some s /\
         pd.assoc c (columns T') = Some s' /\
         (dtype_of s = DInt \/ dtype_of s = DBool -> s' = s) /\
         (dtype_of s <> DInt -> dtype_of s <> DBool ->
          cells s' = map (pd.fill v) (cells s) /\ ~ In NaN (cells s'))).
Proof.
  intros HT. unfold _fillna, bind. rewrite (on_run _ _ _ _ HT).
  destruct (fillna_stmts T) as [T' [[]|e]] eqn:E; cbn [fst snd]; [|discriminate].
  unfold ret. intros [= <- <-].
  assert (A : after fillna_stmts T = Ok T') by (unfold after; now rewrite E).
  split; [reflexivity|].
  split; [intros Z HZ; apply lookup_set_frame_ne; congruence|].
  split; [reflexivity|].
  exists T'. split; [apply lookup_set_frame|].
  split; [now apply fillna_stmts_index|].
  split; [now apply fillna_stmts_labels|].
  split; [intros c; now apply fillna_stmts_other|].
  apply fillna_stmts_inv in A. destruct A as (T1 & H1 & H2).
  destruct (fillna_inplace_inv _ _ _ _ cols_fillna_None_str_nodup H1)
    as (_ & O1 & F1).
  destruct (fillna_inplace_inv _ _ _ _ cols_fillna_0_nodup H2)
    as (_ & O2 & F2).
  intros c v [[Hc ->]|[Hc ->]].
  - destruct (F1 c Hc) as (s & s' & Hs & Hf & Hs').
    exists s, s'. split; [exact Hs|].
    split; [rewrite O2; [exact Hs' | now apply fill_lists_disjoint]|].
    destruct (fillna_series_cells _ _ _ Hf) as [K1 K2].
    split; [exact K1|]. intros D1 D2. rewrite (K2 D1 D2).
    split; [reflexivity | now apply fill_not_missing].
  - destruct (F2 c Hc) as (s & s' & Hs & Hf & Hs').
    exists s, s'. split.
    + rewrite <- (O1 c); [exact Hs|].
      intros N. exact (fill_lists_disjoint c N Hc).
    + split; [exact Hs'|].
      destruct (fillna_series_cells _ _ _ Hf) as [K1 K2].
      split; [exact K1|]. intros D1 D2. rewrite (K2 D1 D2).
      split; [reflexivity | now apply fill_not_missing].
Qed.

Lemma fillna_in_place_witness :
  exists w' T' s',
    _fillna 0%nat (Sample.world_of Sample.raw) = (w', Ok 0%nat) /\
    frames w' !! 0%nat = Some T' /\
    pd.assoc "Alley" (columns T') = Some s' /\
    cells s' = [Str "None"; Str "Gd"].
Proof.
  remember (fst (_fillna 0%nat (Sample.world_of Sample.raw))) as w' eqn:Hw.
  assert (E : _fillna 0%nat (Sample.world_of Sample.raw) = (w', Ok 0%nat))
    by (subst w'; vm_compute; reflexivity).
  destruct (fillna_in_place 0%nat 0%nat (Sample.world_of Sample.raw) w'
              Sample.raw eq_refl E) as (_ & _ & _ & T' & F & _ & _ & _ & Fill).
  destruct (Fill "Alley" (Str "None")) as (s & s' & Hs & Hs' & _ & K).
  { left. split; [|reflexivity]. vm_compute. tauto. }
  assert (Hs0 : pd.assoc "Alley" (columns Sample.raw)
                = Some (Sample.obj [NaN; Str "Gd"])) by reflexivity.
  pose proof (eq_trans (eq_sym Hs) Hs0) as Q. inversion Q as [Q']. subst s.
  destruct K as [K _]; [discriminate | discriminate |].
  exists w', T', s'. split; [exact E|]. split; [exact F|].
  split; [exact Hs' | exact K].
Defined.

(** * Tables that [transform] accepts *)

Section accepts.

Implicit Types (T : DataFrame) (c : string) (l : list (string * Series)).

Lemma assoc_set_nodup c s l :
  List.NoDup (map fst l) -> List.NoDup (map fst (pd.assoc_set c s l)).
Proof.
  induction l as [|[k s'] l IH]; simpl; intros H.
  - constructor; [intros [] | constructor].
  - destruct (String.eqb_spec c k) as [->|N]; simpl; [exact H|].
    inversion H as [|? ? Hk Hl]; subst. constructor; [|now apply IH].
    intros I. apply assoc_set_in_labels in I. destruct I as [->|I];
      [now apply N | now apply Hk].
Qed.

Lemma assign_all_nodup ps l :
  List.NoDup (map fst l) -> List.NoDup (map fst (assign_all ps l)).
Proof.
  revert l. induction ps as [|[k s] ps IH]; intros l H; simpl; [exact H|].
  apply IH. now apply assoc_set_nodup.
Qed.

Lemma kept_nodup cols l :
  List.NoDup (map fst l) -> List.NoDup (map fst (kept cols l)).
Proof.
  induction l as [|[k s] l IH]; simpl; intros H; [constructor|].
  inversion H as [|? ? Hk Hl]; subst.
  destruct (negb (existsb (String.eqb k) cols)); simpl; [|now apply IH].
  constructor; [|now apply IH].
  intros I. apply kept_labels in I. now apply Hk.
Qed.

Lemma nodup_in_assoc c s l :
  List.NoDup (map fst l) -> In (c, s) l -> pd.assoc c l = Some s.
Proof.
  induction l as [|[k s'] l IH]; simpl; intros H Hin; [destruct Hin|].
  inversion H as [|? ? Hk Hl]; subst.
  destruct Hin as [[= -> ->]|Hin].
  - now rewrite String.eqb_refl.
  - destruct (String.eqb_spec c k) as [->|N]; [|now apply IH].
    exfalso. apply Hk. apply in_map_iff. now exists (k, s).
Qed.

Lemma stages_frame_nodup T T5 :
  List.NoDup (pd.labels T) -> stages_frame T = Ok T5 ->
  List.NoDup (pd.labels T5).
Proof.
  intros H S. apply stages_frame_inv in S.
  destruct S as (T1 & T2 & T3 & T4 & H1 & H2 & H3 & H4 & H5).
  apply cast_types_labels in H1. apply fillna_stmts_labels in H2.
  apply drop_inv in H3. destruct H3 as [-> _].
  apply date_sold_inv in H4. destruct H4 as (mo & yr & ds & _ & _ & _ & ->).
  apply binarize_inv in H5. destruct H5 as [-> _].
  unfold binarize_frame, date_sold_frame, pd.labels in *. cbn [columns].
  apply kept_nodup, assign_all_nodup, kept_nodup, assoc_set_nodup, kept_nodup.
  congruence.
Qed.

Lemma fillna_series_ok (v : value) (s : Series) :
  (forall k, dtype_of s <> DCategory k) ->
  exists s', pd.fillna_series v s = Ok s'.
Proof.
  intros H. unfold pd.fillna_series.
  destruct (dtype_of s) eqn:E; try (now elim (H categories));
    try destruct (existsb isna (cells s)); eexists; reflexivity.
Qed.

Lemma fillna_ok (v : value) (ss : list Series) :
  Forall (fun s => forall k, dtype_of s <> DCategory k) ss ->
  exists ss', pd.fillna v ss = Ok ss'.
Proof.
  induction 1 as [|s ss Hs _ (r & IH)]; simpl; [now exists []|].
  destruct (fillna_series_ok v s Hs) as (s' & ->). rewrite IH.
  eexists. reflexivity.
Qed.

Lemma fillna_inplace_ok cols (v : value) T :
  (forall c, In c cols -> In c (pd.labels T)) ->
  (forall c s, In c cols -> pd.assoc c (columns T) = Some s ->
               forall k, dtype_of s <> DCategory k) ->
  exists T', after (pd.fillna_inplace cols v) T = Ok T'.
Proof.
  intros Hp Hd. unfold after, pd.fillna_inplace, bind, lift.
  destruct (getitems_ok cols T Hp) as (ss & -> & Hss).
  assert (F : Forall (fun s => forall k, dtype_of s <> DCategory k) ss).
  { clear Hp. induction Hss as [|c s cols ss Hc _ IH]; constructor.
    - now apply (Hd c s (or_introl eq_refl)).
    - apply IH. intros c' s' H'. apply Hd. now right. }
  destruct (fillna_ok v ss F) as (ss' & ->). rewrite setitems_run.
  eexists. reflexivity.
Qed.

(** What the fill stage does to a column of one of its two lists. *)
Lemma fillna_stmts_filled T T' c (v : value) :
  after fillna_stmts T = Ok T' ->
  (In c cols_fillna_None_str /\ v = Str "None") \/
  (In c cols_fillna_0 /\ v = Num 0) ->
  exists s s',
    pd.assoc c (columns T) = Some s /\ pd.assoc c (columns T') = Some s' /\
    pd.fillna_series v s = Ok s'.
Proof.
  intros A Hc. apply fillna_stmts_inv in A. destruct A as (T1 & H1 & H2).
  destruct (fillna_inplace_inv _ _ _ _ cols_fillna_None_str_nodup H1)
    as (_ & O1 & F1).
  destruct (fillna_inplace_inv _ _ _ _ cols_fillna_0_nodup H2)
    as (_ & O2 & F2).
  destruct Hc as [[Hc ->]|[Hc ->]].
  - destruct (F1 c Hc) as (s & s' & Hs & Hf & Hs').
    exists s, s'. split; [exact Hs|]. split; [|exact Hf].
    rewrite O2; [exact Hs' | now apply fill_lists_disjoint].
  - destruct (F2 c Hc) as (s & s' & Hs & Hf & Hs').
    exists s, s'. split; [|split; [exact Hs' | exact Hf]].
    rewrite <- (O1 c); [exact Hs|].
    intros N. exact (fill_lists_disjoint c N Hc).
Qed.

Lemma new_columns_cells T c s :
  In (c, s) (new_columns T) -> ~ In NaN (cells s).
Proof.
  unfold new_columns, loop_columns. rewrite in_app_iff, !in_map_iff.
  intros [([k v] & [= _ <-] & _)|([k v] & [= _ <-] & _)] Hna;
    simpl in Hna; apply in_map_iff in Hna; destruct Hna as (x & E & _);
    discriminate.
Qed.

End accepts.

Lemma stages_frame_compose (T T1 T2 T3 T4 T5 : DataFrame) :
  after cast_types_stmts T = Ok T1 ->
  after fillna_stmts T1 = Ok T2 ->
  result (pd.drop cols_drop) T2 = Ok T3 ->
  result transform_date_sold_stmts T3 = Ok T4 ->
  result binarize_features_stmts T4 = Ok T5 ->
  stages_frame T = Ok T5.
Proof.
  intros H1 H2 H3 H4 H5. unfold stages_frame.
  rewrite H1. cbn [and_then]. rewrite H2. cbn [and_then].
  rewrite H3. cbn [and_then]. rewrite H4. cbn [and_then]. exact H5.
Qed.

Lemma fillna_stmts_compose (T Ta T2 : DataFrame) :
  after (pd.fillna_inplace cols_fillna_None_str (Str "None")) T = Ok Ta ->
  after (pd.fillna_inplace cols_fillna_0 (Num 0)) Ta = Ok T2 ->
  after fillna_stmts T = Ok T2.
Proof.
  unfold after, fillna_stmts, bind.
  destruct (pd.fillna_inplace cols_fillna_None_str (Str "None") T)
    as [Ta' [[]|e]]; [|discriminate].
  now intros [= ->].
Qed.

(** The stages return on a table that has every expected column, whose
    fill columns are not categorical and whose sale dates are valid. *)
Lemma stages_frame_ok (T : DataFrame) (mo yr : Series) :
  (forall c, In c expected_columns -> In c (pd.labels T)) ->
  (forall c s, In c (cols_fillna_None_str ++ cols_fillna_0) ->
               pd.assoc c (columns T) = Some s ->
               forall k, dtype_of s <> DCategory k) ->
  pd.assoc "MoSold" (columns T) = Some mo ->
  pd.assoc "YrSold" (columns T) = Some yr ->
  dtype_of mo <> DFloat -> dtype_of yr <> DFloat ->
  Forall2 (fun a b => exists m y, a = Num m /\ b = Num y /\ valid_sale m y)
    (cells mo) (cells yr) ->
  exists T5, stages_frame T = Ok T5.
Proof.
  intros Hp Hd Hmo Hyr Dm Dy V.
  assert (Hexp : forall c, In c expected_columns <->
            In c cols_cast_category \/ In c cols_fillna_None_str \/
            In c cols_fillna_0 \/ In c cols_drop \/ In c ["MoSold"; "YrSold"] \/
            In c binarize_sources).
  { intros c. unfold expected_columns, binarize_sources.
    rewrite !in_app_iff. tauto. }
  (* cast *)
  destruct (assoc_is_some "MSSubClass" (columns T)) as (s0 & Hs0).
  { apply Hp, Hexp. left. now left. }
  assert (H1 : after cast_types_stmts T
               = Ok (mkFrame (index T)
                       (pd.assoc_set "MSSubClass" (pd.astype_category s0)
                          (columns T)))).
  { unfold after, cast_types_stmts, cols_cast_category. cbn [for_each].
    unfold bind. rewrite (getitem_ok _ _ _ Hs0). reflexivity. }
  set (T1 := mkFrame (index T)
               (pd.assoc_set "MSSubClass" (pd.astype_category s0) (columns T)))
    in *.
  pose proof (cast_types_labels _ _ H1) as L1.
  assert (O1 : forall c, c <> "MSSubClass" ->
                 pd.assoc c (columns T1) = pd.assoc c (columns T)).
  { intros c Hc. cbn [T1 columns]. apply assoc_set_ne. congruence. }
  (* fill *)
  destruct (fillna_inplace_ok cols_fillna_None_str (Str "None") T1)
    as (Ta & Ha).
  { intros c Hc. rewrite L1. apply Hp, Hexp. tauto. }
  { intros c s Hc Hs. apply (Hd c s); [apply in_or_app; now left|].
    rewrite <- (O1 c); [exact Hs|]. intros ->. revert Hc.
    apply has_label_false. reflexivity. }
  pose proof (fillna_inplace_labels _ _ _ _ Ha) as La.
  destruct (fillna_inplace_inv _ _ _ _ cols_fillna_None_str_nodup Ha)
    as (_ & Oa & _).
  destruct (fillna_inplace_ok cols_fillna_0 (Num 0) Ta) as (T2 & Hb).
  { intros c Hc. rewrite La, L1. apply Hp, Hexp. tauto. }
  { intros c s Hc Hs. apply (Hd c s); [apply in_or_app; now right|].
    rewrite <- (O1 c).
    - rewrite <- (Oa c); [exact Hs|].
      intros N. exact (fill_lists_disjoint c N Hc).
    - intros ->. revert Hc. apply has_label_false. reflexivity. }
  pose proof (fillna_stmts_compose _ _ _ Ha Hb) as H2.
  pose proof (fillna_stmts_labels _ _ H2) as L2.
  (* drop *)
  assert (H3 : result (pd.drop cols_drop) T2
               = Ok (mkFrame (index T2) (kept cols_drop (columns T2)))).
  { unfold result. rewrite drop_ok; [reflexivity|].
    intros c Hc. rewrite L2, L1. apply Hp, Hexp. tauto. }
  set (T3 := mkFrame (index T2) (kept cols_drop (columns T2))) in *.
  (* dates *)
  assert (Om : pd.assoc "MoSold" (columns T3) = Some mo).
  { rewrite <- Hmo. apply (early_stages_other T T1 T2 T3 "MoSold" H1 H2 H3).
    apply has_label_false. reflexivity. }
  assert (Oy : pd.assoc "YrSold" (columns T3) = Some yr).
  { rewrite <- Hyr. apply (early_stages_other T T1 T2 T3 "YrSold" H1 H2 H3).
    apply has_label_false. reflexivity. }
  destruct (sale_strings_valid _ _ Dm Dy V) as (ds & D).
  assert (H4 : result transform_date_sold_stmts T3 = Ok (date_sold_frame T3 ds)).
  { rewrite (date_sold_run _ _ _ Om Oy), D. reflexivity. }
  (* binarization *)
  assert (H5 : result binarize_features_stmts (date_sold_frame T3 ds)
               = Ok (binarize_frame (date_sold_frame T3 ds))).
  { unfold result. rewrite binarize_run; [reflexivity|].
    intros c Hc. apply date_sold_frame_labels.
    pose proof (sources_not_dropped c Hc) as N. rewrite in_app_iff in N.
    split; [right | tauto].
    unfold pd.labels. cbn [T3 columns]. apply kept_labels.
    split; [|tauto]. fold (pd.labels T2). rewrite L2, L1.
    apply Hp, Hexp. tauto. }
  exists (binarize_frame (date_sold_frame T3 ds)).
  exact (stages_frame_compose _ _ _ _ _ _ H1 H2 H3 H4 H5).
Qed.

(** No cell is missing after the stages when the fill columns can be
    filled and the columns that are handed through have no missing cell. *)
Lemma stages_no_missing (T T5 : DataFrame) :
  List.NoDup (pd.labels T) ->
  (forall c s, In c (cols_fillna_None_str ++ cols_fillna_0) ->
               pd.assoc c (columns T) = Some s ->
               dtype_of s = DInt \/ dtype_of s = DBool -> ~ In NaN (cells s)) ->
  (forall c s, In (c, s) (columns T) ->
               ~ In c (cols_fillna_None_str ++ cols_fillna_0) ->
               ~ In c removed_names -> ~ In c generated_names ->
               ~ In NaN (cells s)) ->
  stages_frame T = Ok T5 -> no_missing T5.
Proof.
  intros Hnd Hw Hc S c s Hin.
  pose proof (stages_frame_nodup _ _ Hnd S) as Hnd5.
  pose proof (nodup_in_assoc _ _ _ Hnd5 Hin) as A5.
  assert (L5 : In c (pd.labels T5)).
  { unfold pd.labels. apply in_map_iff. now exists (c, s). }
  pose proof (proj1 (stages_frame_labels T T5 c S) L5) as Cl.
  pose proof S as S'. apply stages_frame_inv in S'.
  destruct S' as (T1 & T2 & T3 & T4 & H1 & H2 & H3 & H4 & H5).
  destruct (in_dec string_dec c generated_names) as [G|G].
  - (* a column the pipeline assigns *)
    pose proof H4 as H4'. apply date_sold_inv in H4'.
    destruct H4' as (mo & yr & ds & _ & _ & _ & E4).
    pose proof H5 as H5'. apply binarize_inv in H5'. destruct H5' as [E5 _].
    destruct G as [<-|G].
    + rewrite E5, E4 in A5.
      rewrite binarize_frame_other in A5
        by (apply has_label_false; reflexivity).
      rewrite date_sold_frame_new in A5. inversion A5; subst s.
      intros N. unfold month_num_sold, pd.apply in N. simpl in N.
      apply in_map_iff in N. destruct N as (x & E & _). discriminate.
    + change (In c (map fst (new_columns T4))) in G.
      apply in_map_iff in G. destruct G as ([c' s'] & Ec & G).
      simpl in Ec. subst c'.
      rewrite E5, (binarize_frame_new _ _ _ G) in A5. inversion A5; subst s'.
      now apply (new_columns_cells T4 c).
  - destruct Cl as [[Lc R]|Gc]; [|contradiction].
    rewrite (late_stages_other T2 T3 T4 T5 c H3 H4 H5 R G) in A5.
    pose proof H1 as H1'. apply cast_types_inv in H1'.
    destruct H1' as (s0 & Hs0 & E1).
    assert (O1 : c <> "MSSubClass" ->
                 pd.assoc c (columns T1) = pd.assoc c (columns T)).
    { intros N. rewrite E1. cbn [columns]. apply assoc_set_ne. congruence. }
    destruct (in_dec string_dec c (cols_fillna_None_str ++ cols_fillna_0))
      as [F|F].
    + (* a filled column *)
      assert (Fv : exists v, isna v = false /\
                   ((In c cols_fillna_None_str /\ v = Str "None") \/
                    (In c cols_fillna_0 /\ v = Num 0))).
      { apply in_app_or in F. destruct F as [F|F];
          [exists (Str "None") | exists (Num 0)]; (split; [reflexivity|]);
          [left | right]; now split. }
      destruct Fv as (v & Hv & Fv).
      destruct (fillna_stmts_filled T1 T2 c v H2 Fv) as (s1 & s2 & Hs1 & Hs2 & Hf).
      assert (s2 = s) by congruence. subst s2.
      rewrite O1 in Hs1.
      * destruct (fillna_series_cells _ _ _ Hf) as [K1 K2].
        destruct (dtype_of s1) eqn:Ed;
          try (rewrite K2 by discriminate; now apply fill_not_missing).
        -- rewrite (K1 (or_introl eq_refl)). apply (Hw c s1 F Hs1).
           left. exact Ed.
        -- rewrite (K1 (or_intror eq_refl)). apply (Hw c s1 F Hs1).
           right. exact Ed.
      * intros ->. revert F. apply has_label_false. reflexivity.
    + rewrite in_app_iff in F.
      rewrite (fillna_stmts_other _ _ c H2) in A5 by tauto.
      destruct (String.eqb_spec c "MSSubClass") as [->|N].
      * (* the cast column *)
        rewrite E1 in A5. cbn [columns] in A5. rewrite assoc_set_eq in A5.
        inversion A5; subst s.
        assert (Ec : cells (pd.astype_category s0) = cells s0).
        { unfold pd.astype_category. now destruct (dtype_of s0). }
        rewrite Ec. apply (Hc "MSSubClass" s0).
        -- now apply assoc_some_in.
        -- apply has_label_false. reflexivity.
        -- exact R.
        -- exact G.
      * (* a column handed through *)
        rewrite (O1 N) in A5. apply (Hc c s).
        -- now apply assoc_some_in.
        -- rewrite in_app_iff. tauto.
        -- exact R.
        -- exact G.
Qed.

(** [transform] returns, and returns a table without a missing cell, on
    every table with distinct labels that has the columns the configuration
    names, whose fill columns are not categorical (and, where integer or
    boolean, hold no missing value), whose [MoSold] and [YrSold] are integer
    columns of valid dates, and whose columns that are neither filled nor
    dropped nor overwritten have no missing cell.  Missing cells in the
    columns that are dropped do no harm. *)
Theorem transform_accepts (X : loc) (w : world) (T : DataFrame)
    (mo yr : Series) :
  frames w !! X = Some T ->
  List.NoDup (pd.labels T) ->
  (forall c, In c expected_columns -> In c (pd.labels T)) ->
  (forall c s, In c (cols_fillna_None_str ++ cols_fillna_0) ->
               pd.assoc c (columns T) = Some s ->
               (forall k, dtype_of s <> DCategory k) /\
               (dtype_of s = DInt \/ dtype_of s = DBool -> ~ In NaN (cells s))) ->
  pd.assoc "MoSold" (columns T) = Some mo ->
  pd.assoc "YrSold" (columns T) = Some yr ->
  dtype_of mo <> DFloat -> dtype_of yr <> DFloat ->
  Forall2 (fun a b => exists m y, a = Num m /\ b = Num y /\ valid_sale m y)
    (cells mo) (cells yr) ->
  (forall c s, In (c, s) (columns T) ->
               ~ In c (cols_fillna_None_str ++ cols_fillna_0) ->
               ~ In c removed_names -> ~ In c generated_names ->
               ~ In NaN (cells s)) ->
  exists w' Y T',
    transform X w = (w', Ok Y) /\ frames w' !! Y = Some T' /\ no_missing T'.
Proof.
  intros HT Hnd Hp Hf Hmo Hyr Dm Dy V Hc.
  destruct (stages_frame_ok T mo yr Hp) as (T5 & S); try assumption.
  { intros c s H1 H2. now apply (Hf c s). }
  assert (N : no_missing T5).
  { apply (stages_no_missing T T5 Hnd); try assumption.
    intros c s H1 H2. now apply (Hf c s). }
  destruct (transform_run _ _ _ HT) as (w' & _ & R).
  unfold transform_frame in R. rewrite S in R. cbn [and_then] in R.
  assert (E : result validate_no_nans_stmts T5 = Ok tt).
  { unfold result, validate_no_nans_stmts, bind, gets, raise, ret. simpl.
    now rewrite (proj2 (any_isna_false T5) N). }
  rewrite E in R. cbn [and_then] in R.
  destruct R as (Y & Er & _ & F). now exists w', Y, T5.
Qed.

Lemma transform_accepts_witness :
  exists w' T',
    transform 0%nat (Sample.world_of Sample.raw) = (w', Ok 4%nat) /\
    frames w' !! 4%nat = Some T' /\ no_missing T'.
Proof.
  destruct (transform_accepts 0%nat (Sample.world_of Sample.raw) Sample.raw
              (Sample.ints [5; 1]) (Sample.ints [2008; 2001]))
    as (w' & Y & T' & E & F & N).
  - reflexivity.
  - apply nodupb_NoDup. vm_compute. reflexivity.
  - intros c Hc. unfold expected_columns in Hc. simpl in Hc.
    repeat (destruct Hc as [<-|Hc];
            [apply (proj1 (has_label_true _ _)); vm_compute; reflexivity|]).
    destruct Hc.
  - intros c s Hc Hs. simpl in Hc.
    repeat (destruct Hc as [<-|Hc];
            [inversion Hs; subst s; split;
             [intros k; discriminate | intros [D|D]; discriminate]|]).
    destruct Hc.
  - reflexivity.
  - reflexivity.
  - discriminate.
  - discriminate.
  - simpl. repeat constructor; do 2 eexists;
      (split; [reflexivity|]); (split; [reflexivity|]); unfold valid_sale; lia.
  - intros c s Hin N1 N2 N3 Hna. simpl in Hin.
    repeat (destruct Hin as [Hin|Hin];
            [inversion Hin; subst c s; clear Hin;
             first [ apply N1, (proj1 (has_label_true _ _)); vm_compute; reflexivity
                   | apply N2, (proj1 (has_label_true _ _)); vm_compute; reflexivity
                   | simpl in Hna; intuition discriminate ]|]).
    destruct Hin.
  - assert (R : snd (transform 0%nat (Sample.world_of Sample.raw)) = Ok 4%nat)
      by (vm_compute; reflexivity).
    rewrite E in R. cbn [snd] in R. inversion R; subst Y.
    exists w', T'. split; [exact E|]. split; [exact F | exact N].
Defined.

(** * The output of [transform], column by column *)

Section end_to_end.

Implicit Types (T : DataFrame) (c : string).

Lemma fill_columns_kept c :
  In c (cols_fillna_None_str ++ cols_fillna_0) ->
  ~ In c (cols_cast_category ++ removed_names ++ generated_names).
Proof. apply disjointb_spec. reflexivity. Qed.

Lemma sources_untouched c :
  In c binarize_sources ->
  ~ In c (cols_cast_category ++ cols_fillna_None_str ++ cols_fillna_0
          ++ cols_drop ++ ["MoSold"; "YrSold"; "MonthNumSold"]).
Proof. apply disjointb_spec. reflexivity. Qed.

(** A source column of the binarization reaches that stage as the input
    has it. *)
Lemma source_reaches_binarization T T1 T2 T3 ds c :
  after cast_types_stmts T = Ok T1 ->
  after fillna_stmts T1 = Ok T2 ->
  result (pd.drop cols_drop) T2 = Ok T3 ->
  In c binarize_sources ->
  pd.assoc c (columns (date_sold_frame T3 ds)) = pd.assoc c (columns T).
Proof.
  intros H1 H2 H3 Hc. pose proof (sources_untouched c Hc) as N.
  rewrite !in_app_iff in N. simpl in N.
  rewrite date_sold_frame_other by (simpl; intuition congruence).
  apply (early_stages_other T T1 T2 T3 c H1 H2 H3).
  rewrite !in_app_iff. tauto.
Qed.

End end_to_end.

(** What [transform] computes, read from the table it is given.  In the
    table it returns: [MSSubClass] is a categorical column with the cells of
    the input; a column of a fill list has, row by row, the cell of the
    input, or the fill value where that cell was missing; [MonthNumSold] is
    [(YrSold - 2000) * 12 + MoSold] in every row where the two are numbers in
    the input; and each boolean column of the binarization is the comparison
    of the input column with the value of its rule. *)
Theorem transform_end_to_end (X Y : loc) (w w' : world) (T : DataFrame) :
  frames w !! X = Some T ->
  transform X w = (w', Ok Y) ->
  exists T',
    frames w' !! Y = Some T' /\
    (exists s s' cats,
       pd.assoc "MSSubClass" (columns T) = Some s /\
       pd.assoc "MSSubClass" (columns T') = Some s' /\
       cells s' = cells s /\ dtype_of s' = DCategory cats) /\
    (forall c v,
       (In c cols_fillna_None_str /\ v = Str "None") \/
       (In c cols_fillna_0 /\ v = Num 0) ->
       exists s s',
         pd.assoc c (columns T) = Some s /\
         pd.assoc c (columns T') = Some s' /\
         length (cells s') = length (cells s) /\
         forall i x, cells s !! i = Some x ->
                     cells s' !! i = Some (if isna x then v else x)) /\
    (exists mo yr new,
       pd.assoc "MoSold" (columns T) = Some mo /\
       pd.assoc "YrSold" (columns T) = Some yr /\
       pd.assoc "MonthNumSold" (columns T') = Some new /\
       forall i m y,
         cells mo !! i = Some (Num m) -> cells yr !! i = Some (Num y) ->
         cells new !! i = Some (Num ((y - 2000) * 12 + m))) /\
    (forall col v,
       In (col, v) binarize_features_by_true_value ->
       exists s b,
         pd.assoc col (columns T) = Some s /\
         pd.assoc (col ++ "_is_" ++ pd.py_str DObject v)%string (columns T')
           = Some b /\
         dtype_of b = DBool /\
         cells b = map (fun x => Bool (py_eq x v)) (cells s)) /\
    (forall col v,
       In (col, v) binarize_features_by_false_value ->
       exists s b,
         pd.assoc col (columns T) = Some s /\
         pd.assoc (col ++ "_not_" ++ pd.py_str DObject v)%string (columns T')
           = Some b /\
         dtype_of b = DBool /\
         cells b = map (fun x => Bool (negb (py_eq x v))) (cells s)).
Proof.
  intros HT E. destruct (transform_returns _ _ _ _ _ HT E) as (T' & R & F).
  apply transform_frame_inv in R. destruct R as [S NM].
  apply stages_frame_inv in S.
  destruct S as (T1 & T2 & T3 & T4 & H1 & H2 & H3 & H4 & H5).
  exists T'. split; [exact F|].
  pose proof H1 as H1'. apply cast_types_inv in H1'.
  destruct H1' as (s0 & Hs0 & E1).
  assert (O1 : forall c, c <> "MSSubClass" ->
                 pd.assoc c (columns T1) = pd.assoc c (columns T)).
  { intros c N. rewrite E1. cbn [columns]. apply assoc_set_ne. congruence. }
  pose proof H4 as H4'. apply date_sold_inv in H4'.
  destruct H4' as (mo & yr & ds & Hmo & Hyr & D & E4).
  pose proof H5 as H5'. apply binarize_inv in H5'. destruct H5' as [E5 Hsrc].
  split; [|split; [|split; [|split]]].
  - destruct (astype_category_dtype s0) as (cats & Hc).
    exists s0, (pd.astype_category s0), cats.
    split; [exact Hs0|]. split; [|split; [|exact Hc]].
    + rewrite (late_stages_other T2 T3 T4 T' "MSSubClass" H3 H4 H5)
        by (apply has_label_false; reflexivity).
      rewrite (fillna_stmts_other _ _ "MSSubClass" H2)
        by (apply has_label_false; reflexivity).
      rewrite E1. cbn [columns]. apply assoc_set_eq.
    + unfold pd.astype_category. now destruct (dtype_of s0).
  - intros c v Hc.
    assert (Hin : In c (cols_fillna_None_str ++ cols_fillna_0)).
    { apply in_or_app. tauto. }
    pose proof (fill_columns_kept c Hin) as K. rewrite !in_app_iff in K.
    assert (Hv : isna v = false) by (destruct Hc as [[_ ->]|[_ ->]]; reflexivity).
    destruct (fillna_stmts_filled T1 T2 c v H2 Hc) as (s & s' & Hs & Hs' & Hf).
    exists s, s'.
    assert (A' : pd.assoc c (columns T') = Some s').
    { rewrite (late_stages_other T2 T3 T4 T' c H3 H4 H5) by tauto. exact Hs'. }
    split; [rewrite <- O1; [exact Hs|]; intros ->; apply K; left; now left|].
    split; [exact A'|].
    destruct (fillna_series_cells _ _ _ Hf) as [K1 K2].
    assert (Hsame : dtype_of s = DInt \/ dtype_of s = DBool ->
                    length (cells s') = length (cells s) /\
                    forall i x, cells s !! i = Some x ->
                                cells s' !! i = Some (if isna x then v else x)).
    { intros Hd. rewrite (K1 Hd) in *. split; [reflexivity|].
      intros i x Hx. rewrite Hx. f_equal.
      destruct (isna x) eqn:Ex; [|reflexivity].
      apply isna_true in Ex. subst x. exfalso.
      apply (NM c s (assoc_some_in _ _ _ A')).
      apply list_elem_of_In. eapply list_elem_of_lookup_2. exact Hx. }
    assert (Hfill : dtype_of s <> DInt -> dtype_of s <> DBool ->
                    length (cells s') = length (cells s) /\
                    forall i x, cells s !! i = Some x ->
                                cells s' !! i = Some (if isna x then v else x)).
    { intros D1 D2. rewrite (K2 D1 D2). split; [apply length_map|].
      intros i x Hx. rewrite map_lookup, Hx. reflexivity. }
    destruct (dtype_of s) eqn:Ed;
      first [ apply Hfill; discriminate | apply Hsame; tauto ].
  - exists mo, yr, (month_num_sold ds).
    assert (Om : pd.assoc "MoSold" (columns T3) = pd.assoc "MoSold" (columns T)).
    { apply (early_stages_other T T1 T2 T3 "MoSold" H1 H2 H3).
      apply has_label_false. reflexivity. }
    assert (Oy : pd.assoc "YrSold" (columns T3) = pd.assoc "YrSold" (columns T)).
    { apply (early_stages_other T T1 T2 T3 "YrSold" H1 H2 H3).
      apply has_label_false. reflexivity. }
    split; [congruence|]. split; [congruence|]. split.
    + rewrite E5, E4.
      rewrite binarize_frame_other by (apply has_label_false; reflexivity).
      apply date_sold_frame_new.
    + intros i m y. now apply month_num_sold_row.
  - intros col v Hin.
    pose proof (true_rule_source col v Hin) as Hc.
    assert (A4 : pd.assoc col (columns T4) = pd.assoc col (columns T)).
    { rewrite E4. now apply (source_reaches_binarization T T1 T2 T3 ds col). }
    destruct (pd.assoc col (columns T4)) as [s|] eqn:Hs;
      [|exfalso; exact (proj1 (labels_assoc col T4) (Hsrc col Hc) Hs)].
    exists s, (pd.eq_scalar s v). split; [now symmetry|].
    split; [|split; reflexivity].
    rewrite E5. apply binarize_frame_new. unfold new_columns.
    apply in_or_app. left. unfold loop_columns. apply in_map_iff.
    exists (col, v). split; [|exact Hin]. unfold col_or_empty. now rewrite Hs.
  - intros col v Hin.
    pose proof (false_rule_source col v Hin) as Hc.
    assert (A4 : pd.assoc col (columns T4) = pd.assoc col (columns T)).
    { rewrite E4. now apply (source_reaches_binarization T T1 T2 T3 ds col). }
    destruct (pd.assoc col (columns T4)) as [s|] eqn:Hs;
      [|exfalso; exact (proj1 (labels_assoc col T4) (Hsrc col Hc) Hs)].
    exists s, (pd.ne_scalar s v). split; [now symmetry|].
    split; [|split; reflexivity].
    rewrite E5. apply binarize_frame_new. unfold new_columns.
    apply in_or_app. right. unfold loop_columns. apply in_map_iff.
    exists (col, v). split; [|exact Hin]. unfold col_or_empty. now rewrite Hs.
Qed.

Lemma transform_end_to_end_witness :
  exists w' T' a n b,
    transform 0%nat (Sample.world_of Sample.raw) = (w', Ok 4%nat) /\
    frames w' !! 4%nat = Some T' /\
    pd.assoc "Alley" (columns T') = Some a /\
    cells a !! 0%nat = Some (Str "None") /\
    cells a !! 1%nat = Some (Str "Gd") /\
    pd.assoc "MonthNumSold" (columns T') = Some n /\
    cells n !! 0%nat = Some (Num 101) /\
    pd.assoc "PoolArea_not_0" (columns T') = Some b /\
    cells b = [Bool false; Bool true].
Proof.
  remember (fst (transform 0%nat (Sample.world_of Sample.raw))) as w' eqn:Hw.
  assert (E : transform 0%nat (Sample.world_of Sample.raw) = (w', Ok 4%nat))
    by (subst w'; vm_compute; reflexivity).
  destruct (transform_end_to_end 0%nat 4%nat (Sample.world_of Sample.raw) w'
              Sample.raw eq_refl E) as (T' & F & _ & Fill & Date & _ & Neq).
  destruct (Fill "Alley" (Str "None")) as (s & a & Hs & Ha & _ & Hcell).
  { left. split; [|reflexivity].
    apply (proj1 (has_label_true _ _)). reflexivity. }
  assert (Hs0 : pd.assoc "Alley" (columns Sample.raw)
                = Some (Sample.obj [NaN; Str "Gd"])) by reflexivity.
  pose proof (eq_trans (eq_sym Hs) Hs0) as Q. inversion Q as [Q']. subst s.
  destruct Date as (mo & yr & n & Hmo & Hyr & Hn & Hrow).
  assert (Hmo0 : pd.assoc "MoSold" (columns Sample.raw)
                 = Some (Sample.ints [5; 1])) by reflexivity.
  assert (Hyr0 : pd.assoc "YrSold" (columns Sample.raw)
                 = Some (Sample.ints [2008; 2001])) by reflexivity.
  pose proof (eq_trans (eq_sym Hmo) Hmo0) as Qm. inversion Qm as [Qm']. subst mo.
  pose proof (eq_trans (eq_sym Hyr) Hyr0) as Qy. inversion Qy as [Qy']. subst yr.
  destruct (Neq "PoolArea" (Num 0)) as (p & b & Hp & Hb & _ & Hcells).
  { do 2 right. left. reflexivity. }
  assert (Hp0 : pd.assoc "PoolArea" (columns Sample.raw)
                = Some (Sample.ints [0; 150])) by reflexivity.
  pose proof (eq_trans (eq_sym Hp) Hp0) as Qp. inversion Qp as [Qp']. subst p.
  exists w', T', a, n, b. split; [exact E|]. split; [exact F|].
  split; [exact Ha|].
  split; [exact (Hcell 0%nat NaN eq_refl)|].
  split; [exact (Hcell 1%nat (Str "Gd") eq_refl)|].
  split; [exact Hn|].
  split; [exact (Hrow 0%nat 5 2008 eq_refl eq_refl)|].
  split; [exact Hb | exact Hcells].
Defined.

(** * The order of the columns of the output *)

Section column_order.

Implicit Types (T : DataFrame) (c : string) (l : list (string * Series)).

Lemma kept_map_fst cols l :
  map fst (kept cols l)
  = List.filter (fun c => negb (has_label c cols)) (map fst l).
Proof.
  unfold kept, has_label. induction l as [|[k s] l IH]; simpl; [reflexivity|].
  destruct (negb (existsb (String.eqb k) cols)); simpl; now rewrite IH.
Qed.

Lemma assign_all_fresh_labels ps l :
  List.NoDup (map fst ps) ->
  (forall c, In c (map fst ps) -> ~ In c (map fst l)) ->
  map fst (assign_all ps l) = map fst l ++ map fst ps.
Proof.
  revert l. induction ps as [|[k s] ps IH]; intros l Hnd Hfr; simpl.
  - now rewrite app_nil_r.
  - inversion Hnd as [|? ? Hk Hps]; subst.
    rewrite IH.
    + rewrite assoc_set_labels.
      rewrite (proj2 (has_label_false k (map fst l))) by (apply Hfr; now left).
      now rewrite <- app_assoc.
    + exact Hps.
    + intros c Hc I. apply assoc_set_in_labels in I. destruct I as [->|I].
      * now apply Hk.
      * apply (Hfr c); [now right | exact I].
Qed.

Lemma filter_filter {A} (f g : A -> bool) (xs : list A) :
  List.filter f (List.filter g xs) = List.filter (fun x => g x && f x) xs.
Proof.
  induction xs as [|x xs IH]; simpl; [reflexivity|].
  destruct (g x); simpl; [destruct (f x)|]; now rewrite IH.
Qed.

Lemma has_label_app c (xs ys : list string) :
  has_label c (xs ++ ys) = has_label c xs || has_label c ys.
Proof. unfold has_label. apply existsb_app. Qed.

Lemma filter_all {A} (f : A -> bool) (xs : list A) :
  forallb f xs = true -> List.filter f xs = xs.
Proof.
  induction xs as [|x xs IH]; simpl; [reflexivity|].
  intros H. apply andb_true_iff in H. destruct H as [-> H]. now rewrite IH.
Qed.

(** The labels of the table the stages produce from a table that has none
    of the eight assigned labels. *)
Lemma stages_frame_order T T5 :
  (forall c, In c generated_names -> ~ In c (pd.labels T)) ->
  stages_frame T = Ok T5 ->
  pd.labels T5
  = List.filter (fun c => negb (has_label c removed_names)) (pd.labels T)
    ++ generated_names.
Proof.
  intros Hg S. apply stages_frame_inv in S.
  destruct S as (T1 & T2 & T3 & T4 & H1 & H2 & H3 & H4 & H5).
  apply cast_types_labels in H1. apply fillna_stmts_labels in H2.
  apply drop_inv in H3. destruct H3 as [-> _].
  apply date_sold_inv in H4. destruct H4 as (mo & yr & ds & _ & _ & _ & ->).
  apply binarize_inv in H5. destruct H5 as [-> _].
  unfold binarize_frame, date_sold_frame, pd.labels in *. cbn [columns].
  set (L3 := map fst (kept cols_drop (columns T2))).
  assert (E3 : L3 = List.filter (fun c => negb (has_label c cols_drop))
                      (map fst (columns T))).
  { unfold L3. rewrite kept_map_fst. congruence. }
  assert (N3 : forall c, In c generated_names -> ~ In c L3).
  { intros c Hc I. rewrite E3 in I. apply filter_In in I.
    now apply (Hg c Hc). }
  set (l4 := kept ["MoSold"; "YrSold"]
               (pd.assoc_set "MonthNumSold" (month_num_sold ds)
                  (kept cols_drop (columns T2)))).
  assert (E4 : map fst l4
               = List.filter (fun c => negb (has_label c ["MoSold"; "YrSold"])) L3
                 ++ ["MonthNumSold"]).
  { unfold l4. rewrite kept_map_fst, assoc_set_labels. fold L3.
    rewrite (proj2 (has_label_false "MonthNumSold" L3))
      by (apply N3; now left).
    now rewrite List.filter_app. }
  rewrite kept_map_fst, assign_all_fresh_labels.
  - rewrite new_columns_labels, List.filter_app, E4, List.filter_app,
      filter_filter, E3,
      filter_filter.
    rewrite (filter_all _ binarized_names) by reflexivity.
    rewrite <- app_assoc. f_equal.
    apply List.filter_ext. intros c. unfold removed_names.
    rewrite !has_label_app, !negb_orb. reflexivity.
  - rewrite new_columns_labels. apply binarized_names_nodup.
  - rewrite new_columns_labels. intros c Hc I. rewrite E4 in I.
    apply in_app_or in I. destruct I as [I|[<-|[]]].
    + apply filter_In in I. apply (N3 c); [now right | tauto].
    + revert Hc. apply has_label_false. reflexivity.
Qed.

End column_order.

(** Feature order.  On a table that has none of the eight labels the
    pipeline assigns, the columns of the table [transform] returns are the
    columns of the input that are not dropped, in the order of the input,
    followed by [MonthNumSold] and the seven boolean columns in the order of
    the two rule sets. *)
Theorem transform_output_order (X Y : loc) (w w' : world) (T : DataFrame) :
  frames w !! X = Some T ->
  (forall c, In c generated_names -> ~ In c (pd.labels T)) ->
  transform X w = (w', Ok Y) ->
  exists T',
    frames w' !! Y = Some T' /\
    pd.labels T'
    = List.filter (fun c => negb (has_label c removed_names)) (pd.labels T)
      ++ ["MonthNumSold"; "Condition2_is_Norm"; "RoofMatl_is_CompShg";
          "Heating_is_GasA"; "LowQualFinSF_not_0"; "3SsnPorch_not_0";
          "PoolArea_not_0"; "MiscVal_not_0"].
Proof.
  intros HT Hg E. destruct (transform_returns _ _ _ _ _ HT E) as (T' & R & F).
  apply transform_frame_inv in R. destruct R as [S _].
  exists T'. split; [exact F|]. exact (stages_frame_order T T' Hg S).
Qed.

Lemma transform_output_order_witness :
  exists w' T',
    transform 0%nat (Sample.world_of Sample.raw) = (w', Ok 4%nat) /\
    frames w' !! 4%nat = Some T' /\
    pd.labels T'
    = ["MSSubClass"] ++ cols_fillna_None_str ++ cols_fillna_0
      ++ ["Neighborhood"; "LotArea"; "MonthNumSold"; "Condition2_is_Norm";
          "RoofMatl_is_CompShg"; "Heating_is_GasA"; "LowQualFinSF_not_0";
          "3SsnPorch_not_0"; "PoolArea_not_0"; "MiscVal_not_0"].
Proof.
  remember (fst (transform 0%nat (Sample.world_of Sample.raw))) as w' eqn:Hw.
  assert (E : transform 0%nat (Sample.world_of Sample.raw) = (w', Ok 4%nat))
    by (subst w'; vm_compute; reflexivity).
  destruct (transform_output_order 0%nat 4%nat (Sample.world_of Sample.raw) w'
              Sample.raw eq_refl) as (T' & F & L).
  - intros c Hc. apply has_label_false. simpl in Hc.
    repeat (destruct Hc as [<-|Hc]; [vm_compute; reflexivity|]).
    destruct Hc.
  - exact E.
  - exists w', T'. split; [exact E|]. split; [exact F|].
    rewrite L. vm_compute. reflexivity.
Defined.

(** [transform] uses nothing but the table: called on equal tables, from
    any two states of the instance and whatever else exists, it returns
    equal tables or raises the same error.  In particular it needs no
    earlier [fit_transform]. *)
Theorem transform_stateless (X1 X2 : loc) (w1 w2 : world) (T : DataFrame) :
  frames w1 !! X1 = Some T ->
  frames w2 !! X2 = Some T ->
  (forall w1' Y1,
     transform X1 w1 = (w1', Ok Y1) ->
     exists w2' Y2 T',
       transform X2 w2 = (w2', Ok Y2) /\
       frames w1' !! Y1 = Some T' /\ frames w2' !! Y2 = Some T') /\
  (forall w1' e,
     transform X1 w1 = (w1', Raise e) ->
     exists w2', transform X2 w2 = (w2', Raise e)).
Proof.
  intros H1 H2.
  destruct (transform_run _ _ _ H1) as (v1 & _ & R1).
  destruct (transform_run _ _ _ H2) as (v2 & _ & R2).
  destruct (transform_frame T) as [T'|e0].
  - destruct R1 as (Y1 & E1 & _ & F1). destruct R2 as (Y2 & E2 & _ & F2).
    split.
    + intros w1' Y E. rewrite E1 in E. inversion E; subst.
      now exists v2, Y2, T'.
    + intros w1' e E. rewrite E1 in E. discriminate.
  - split.
    + intros w1' Y E. rewrite R1 in E. discriminate.
    + intros w1' e E. rewrite R1 in E. inversion E; subst. now exists v2.
Qed.

Lemma transform_stateless_witness :
  exists w1 w2 T',
    transform 0%nat (Sample.world_of Sample.raw) = (w1, Ok 4%nat) /\
    transform 0%nat Sample.before_fit = (w2, Ok 15%nat) /\
    frames w1 !! 4%nat = Some T' /\ frames w2 !! 15%nat = Some T'.
Proof.
  remember (fst (transform 0%nat (Sample.world_of Sample.raw))) as w1 eqn:Hw.
  assert (E : transform 0%nat (Sample.world_of Sample.raw) = (w1, Ok 4%nat))
    by (subst w1; vm_compute; reflexivity).
  destruct (transform_stateless 0%nat 0%nat (Sample.world_of Sample.raw)
              Sample.before_fit Sample.raw eq_refl eq_refl) as [A _].
  destruct (A w1 4%nat E) as (w2 & Y2 & T' & E2 & F1 & F2).
  assert (R : snd (transform 0%nat Sample.before_fit) = Ok 15%nat)
    by (vm_compute; reflexivity).
  rewrite E2 in R. cbn [snd] in R. inversion R; subst Y2.
  exists w1, w2, T'. split; [exact E|]. split; [exact E2|].
  split; [exact F1 | exact F2].
Defined.

(** * Where the errors of the stages come from *)

Section causes.

Implicit Types (T : DataFrame) (c : string) (e : exn) (mo yr : Series).

Lemma to_datetime_raises_at (l : list string) e :
  pd.to_datetime l = Raise e ->
  exists i s, l !! i = Some s /\ pd.parse_one s = Raise e.
Proof.
  induction l as [|s l IH]; simpl; [discriminate|].
  destruct (pd.parse_one s) as [t|e1] eqn:E1.
  - destruct (pd.to_datetime l) as [r|e2]; [discriminate|].
    intros [= <-]. destruct (IH eq_refl) as (i & s' & Hi & Hp).
    now exists (S i), s'.
  - intros [= <-]. now exists 0%nat, s.
Qed.

Lemma str_join_lookup_inv (a b : list string) (sep : string) (i : nat)
    (s : string) :
  pd.str_join a sep b !! i = Some s ->
  exists x y, a !! i = Some x /\ b !! i = Some y /\ s = (x ++ sep ++ y)%string.
Proof.
  unfold pd.str_join. revert b i.
  induction a as [|x0 a IH]; intros [|y0 b] [|i]; simpl; try discriminate.
  - intros [= <-]. now exists x0, y0.
  - apply IH.
Qed.

(** A date error comes from a row that is not an integer date which
    [to_datetime] accepts. *)
Lemma date_error_row mo yr e :
  pd.to_datetime (sale_strings mo yr) = Raise e ->
  exists i a b,
    cells mo !! i = Some a /\ cells yr !! i = Some b /\
    ~ (dtype_of mo <> DFloat /\ dtype_of yr <> DFloat /\
       exists m y, a = Num m /\ b = Num y /\ valid_sale m y).
Proof.
  intros H. apply to_datetime_raises_at in H. destruct H as (i & s & Hs & Hp).
  unfold sale_strings in Hs. apply str_join_lookup_inv in Hs.
  destruct Hs as (x & y & Hx & Hy & ->).
  unfold pd.astype_str in Hx, Hy. rewrite map_lookup in Hx, Hy.
  destruct (cells mo !! i) as [a|] eqn:Ha; [|discriminate].
  destruct (cells yr !! i) as [b|] eqn:Hb; [|discriminate].
  simpl in Hx, Hy. inversion Hx; subst x. inversion Hy; subst y.
  exists i, a, b. split; [exact Ha|]. split; [exact Hb|].
  intros (Dm & Dy & m & y & -> & -> & V).
  rewrite (parse_one_valid _ _ _ _ Dm Dy V) in Hp. discriminate.
Qed.

Lemma parse_one_raises (s : string) e :
  pd.parse_one s = Raise e ->
  e = ValueError_time_data s \/ e = ValueError_year_out_of_range 0 \/
  e = OutOfBoundsDatetime s.
Proof.
  unfold pd.parse_one. destruct (pd.strptime s) as [t|].
  - destruct (pd.year t =? 0) eqn:Ey.
    + apply Z.eqb_eq in Ey. rewrite Ey. intros [= <-]. right. now left.
    + destruct (pd.in_bounds t); [discriminate|]. intros [= <-]. now do 2 right.
  - intros [= <-]. now left.
Qed.

Lemma date_sold_raises_cause T e :
  result transform_date_sold_stmts T = Raise e ->
  (exists miss, e = KeyError miss) \/
  exists mo yr,
    pd.assoc "MoSold" (columns T) = Some mo /\
    pd.assoc "YrSold" (columns T) = Some yr /\
    pd.to_datetime (sale_strings mo yr) = Raise e.
Proof.
  destruct (pd.assoc "MoSold" (columns T)) as [mo|] eqn:Hm.
  - destruct (pd.assoc "YrSold" (columns T)) as [yr|] eqn:Hy.
    + rewrite (date_sold_run _ _ _ Hm Hy).
      destruct (pd.to_datetime (sale_strings mo yr)) as [ds|e0] eqn:D;
        [discriminate|].
      simpl. intros [= <-]. right. now exists mo, yr.
    + unfold result, transform_date_sold_stmts, bind.
      rewrite (getitem_ok _ _ _ Hm), (getitem_missing _ _ Hy). simpl.
      intros [= <-]. left. eauto.
  - unfold result, transform_date_sold_stmts, bind.
    rewrite (getitem_missing _ _ Hm). simpl. intros [= <-]. left. eauto.
Qed.

Lemma fillna_series_raises_cause (v : value) (s : Series) e :
  pd.fillna_series v s = Raise e ->
  e = TypeError_new_category v /\
  exists cats, dtype_of s = DCategory cats /\ ~ In v cats.
Proof.
  unfold pd.fillna_series. destruct (dtype_of s) eqn:Ed; try discriminate.
  - destruct (existsb isna (cells s)); discriminate.
  - destruct (existsb (value_eqb v) categories) eqn:Ex; [discriminate|].
    intros [= <-]. split; [reflexivity|]. exists categories.
    split; [reflexivity|]. intros Hin.
    assert (existsb (value_eqb v) categories = true).
    { apply existsb_exists. exists v. split; [exact Hin|].
      now apply value_eqb_eq. }
    congruence.
  - destruct (existsb isna (cells s)); discriminate.
Qed.

Lemma fillna_raises_at (v : value) (ss : list Series) e :
  pd.fillna v ss = Raise e ->
  exists s, In s ss /\ pd.fillna_series v s = Raise e.
Proof.
  induction ss as [|s ss IH]; simpl; [discriminate|].
  destruct (pd.fillna_series v s) as [s'|e1] eqn:E1.
  - destruct (pd.fillna v ss) as [r|e2]; [discriminate|].
    intros [= <-]. destruct (IH eq_refl) as (s0 & Hin & Hf).
    exists s0. split; [now right | exact Hf].
  - intros [= <-]. exists s. split; [now left | exact E1].
Qed.

Lemma fillna_inplace_raises_cause (cols : list string) (v : value) T e :
  after (pd.fillna_inplace cols v) T = Raise e ->
  (exists miss, e = KeyError miss) \/
  (e = TypeError_new_category v /\
   exists c s cats,
     In c cols /\ pd.assoc c (columns T) = Some s /\
     dtype_of s = DCategory cats /\ ~ In v cats).
Proof.
  unfold after, pd.fillna_inplace, bind, lift.
  destruct (pd.getitems cols T) as [T0 [ss|e0]] eqn:Eg.
  - apply getitems_inv in Eg. destruct Eg as [-> Hss].
    destruct (pd.fillna v ss) as [ss'|e1] eqn:Ef.
    + rewrite setitems_run. discriminate.
    + intros [= <-]. right.
      destruct (fillna_raises_at _ _ _ Ef) as (s & Hin & Hf).
      destruct (fillna_series_raises_cause _ _ _ Hf) as (-> & cats & Hd & Hn).
      split; [reflexivity|].
      assert (Hc : exists c, In c cols /\ pd.assoc c (columns T) = Some s).
      { clear Ef Hf. induction Hss as [|c0 s0 cols ss H0 _ IH];
          [destruct Hin|].
        destruct Hin as [->|Hin].
        - exists c0. split; [now left | exact H0].
        - destruct (IH Hin) as (c & Hc & Ha). exists c. split; [now right | exact Ha]. }
      destruct Hc as (c & Hc & Ha). now exists c, s, cats.
  - intros [= <-]. left. unfold pd.getitems in Eg.
    destruct (pd.missing_labels cols T); [discriminate|].
    inversion Eg. eauto.
Qed.

Lemma fillna_stmts_raises_inv T e :
  after fillna_stmts T = Raise e ->
  after (pd.fillna_inplace cols_fillna_None_str (Str "None")) T = Raise e \/
  exists Ta,
    after (pd.fillna_inplace cols_fillna_None_str (Str "None")) T = Ok Ta /\
    after (pd.fillna_inplace cols_fillna_0 (Num 0)) Ta = Raise e.
Proof.
  unfold after, fillna_stmts, bind.
  destruct (pd.fillna_inplace cols_fillna_None_str (Str "None") T)
    as [Ta [[]|e0]].
  - intros H. right. exists Ta. split; [reflexivity | exact H].
  - intros [= <-]. now left.
Qed.

Lemma fillna_stmts_raises_cause T e :
  after fillna_stmts T = Raise e ->
  (exists miss, e = KeyError miss) \/
  exists c s cats (v : value),
    e = TypeError_new_category v /\
    ((In c cols_fillna_None_str /\ v = Str "None") \/
     (In c cols_fillna_0 /\ v = Num 0)) /\
    pd.assoc c (columns T) = Some s /\
    dtype_of s = DCategory cats /\ ~ In v cats.
Proof.
  intros H. apply fillna_stmts_raises_inv in H.
  destruct H as [Ha|(Ta & Ha & Hb)].
  - destruct (fillna_inplace_raises_cause _ _ _ _ Ha)
      as [K|(-> & c & s & cats & Hc & Hs & Hd & Hn)]; [now left|].
    right. exists c, s, cats, (Str "None"). split; [reflexivity|].
    split; [left; now split|]. now split.
  - destruct (fillna_inplace_raises_cause _ _ _ _ Hb)
      as [K|(-> & c & s & cats & Hc & Hs & Hd & Hn)]; [now left|].
    right. exists c, s, cats, (Num 0). split; [reflexivity|].
    split; [right; now split|].
    destruct (fillna_inplace_inv _ _ _ _ cols_fillna_None_str_nodup Ha)
      as (_ & O1 & _).
    split; [|now split].
    rewrite <- (O1 c); [exact Hs|].
    intros N. exact (fill_lists_disjoint c N Hc).
Qed.

Lemma binarize_features_raises_key T e :
  result binarize_features_stmts T = Raise e -> exists miss, e = KeyError miss.
Proof.
  apply (raises_only_result (fun e => exists miss, e = KeyError miss)).
  assert (G : forall col, raises_only (fun e => exists miss, e = KeyError miss)
                               (pd.getitem col)).
  { intros col T0 T' e0. unfold pd.getitem.
    destruct (pd.assoc col (columns T0)); [discriminate|].
    intros [= _ <-]. eauto. }
  assert (D : forall cols, raises_only (fun e => exists miss, e = KeyError miss)
                                (pd.drop cols)).
  { intros cols T0 T' e0. unfold pd.drop.
    destruct (pd.missing_labels cols T0); [discriminate|].
    intros [= _ <-]. eauto. }
  unfold binarize_features_stmts.
  apply raises_only_bind; [|intros _; apply raises_only_bind; [|intros _]].
  - apply raises_only_for_each. intros [c v].
    apply raises_only_bind; [apply G | intros s; apply raises_only_modify].
  - apply raises_only_for_each. intros [c v].
    apply raises_only_bind; [apply G | intros s; apply raises_only_modify].
  - apply D.
Qed.

(** An error of the stages is a [KeyError], or the [TypeError] of a fill
    column of the input that is categorical without the fill value, or the
    date error of a row of the input that is not a valid integer date. *)
Lemma stages_frame_raises_cause T e :
  stages_frame T = Raise e ->
  (exists miss, e = KeyError miss) \/
  (exists c s cats (v : value),
     e = TypeError_new_category v /\
     ((In c cols_fillna_None_str /\ v = Str "None") \/
      (In c cols_fillna_0 /\ v = Num 0)) /\
     pd.assoc c (columns T) = Some s /\
     dtype_of s = DCategory cats /\ ~ In v cats) \/
  ((exists s, e = ValueError_time_data s \/
               e = ValueError_year_out_of_range 0 \/
               e = OutOfBoundsDatetime s) /\
   exists mo yr i a b,
     pd.assoc "MoSold" (columns T) = Some mo /\
     pd.assoc "YrSold" (columns T) = Some yr /\
     cells mo !! i = Some a /\ cells yr !! i = Some b /\
     ~ (dtype_of mo <> DFloat /\ dtype_of yr <> DFloat /\
        exists m y, a = Num m /\ b = Num y /\ valid_sale m y)).
Proof.
  unfold stages_frame, and_then.
  destruct (after cast_types_stmts T) as [T1|e1] eqn:H1.
  - destruct (after fillna_stmts T1) as [T2|e2] eqn:H2.
    + destruct (result (pd.drop cols_drop) T2) as [T3|e3] eqn:H3.
      * destruct (result transform_date_sold_stmts T3) as [T4|e4] eqn:H4.
        -- intros H5. left. now apply (binarize_features_raises_key T4).
        -- intros [= <-].
           destruct (date_sold_raises_cause _ _ H4) as [K|(mo & yr & Hm & Hy & D)];
             [now left|].
           right. right.
           destruct (to_datetime_raises_at _ _ D) as (j & s & _ & Hp).
           split; [exists s; now apply parse_one_raises|].
           destruct (date_error_row _ _ _ D) as (i & a & b & Ha & Hb & N).
           exists mo, yr, i, a, b.
           split; [|split; [|now repeat split]].
           ++ rewrite <- Hm. symmetry.
              apply (early_stages_other T T1 T2 T3 "MoSold" H1 H2 H3).
              apply has_label_false. reflexivity.
           ++ rewrite <- Hy. symmetry.
              apply (early_stages_other T T1 T2 T3 "YrSold" H1 H2 H3).
              apply has_label_false. reflexivity.
      * intros [= <-]. left. apply drop_raises in H3. destruct H3 as [-> _].
        eauto.
    + intros [= <-].
      destruct (fillna_stmts_raises_cause _ _ H2)
        as [K|(c & s & cats & v & -> & Hc & Hs & Hd & Hn)]; [now left|].
      right. left. exists c, s, cats, v. split; [reflexivity|].
      split; [exact Hc|]. split; [|now split].
      apply cast_types_inv in H1. destruct H1 as (s0 & _ & E1).
      rewrite E1 in Hs. cbn [columns] in Hs.
      rewrite assoc_set_ne in Hs; [exact Hs|].
      intros <-. destruct Hc as [[Hc _]|[Hc _]]; revert Hc;
        apply has_label_false; reflexivity.
  - intros [= <-]. left.
    unfold after, cast_types_stmts, cols_cast_category in H1.
    cbn [for_each] in H1. unfold bind, pd.getitem in H1.
    destruct (pd.assoc "MSSubClass" (columns T)); [discriminate|].
    inversion H1. eauto.
Qed.

End causes.

(** * Completeness *)

(** C1, amended.  On every table that has the expected columns,
    [transform] has one of three outcomes.  It returns a table in which no
    cell is missing.  Or it raises the validation error, whose message is
    built from exactly the row-ids of the rows that have a missing cell and
    exactly the labels of the columns that have one, in the table the
    stages produced, with at least one column.  Or it raises the error of
    the fill or of the date stage, each only with its cause in the input:
    the [TypeError] of [fillna] when a column of a fill list is categorical
    and its categories lack the fill value of that list; the error of
    [to_datetime] when some row of [MoSold], [YrSold] is not an integer
    date that it accepts.  It raises nothing else, no [KeyError] in
    particular, and it never returns a table with a missing cell. *)
Theorem transform_complete_or_raises (X : loc) (w : world) (T : DataFrame) :
  frames w !! X = Some T ->
  (forall c, In c expected_columns -> In c (pd.labels T)) ->
  exists w' r,
    transform X w = (w', r) /\
    match r with
    | Ok Y => exists T', frames w' !! Y = Some T' /\ no_missing T'
    | Raise (ValueError_NaNs ids cols) =>
        exists T5,
          stages_frame T = Ok T5 /\
          (forall id, In id ids <-> affected_row T5 id) /\
          (forall c, In c cols <-> affected_column T5 c) /\
          cols <> []
    | Raise (TypeError_new_category v) =>
        exists c s cats,
          ((In c cols_fillna_None_str /\ v = Str "None") \/
           (In c cols_fillna_0 /\ v = Num 0)) /\
          pd.assoc c (columns T) = Some s /\
          dtype_of s = DCategory cats /\ ~ In v cats
    | Raise (ValueError_time_data _) | Raise (ValueError_year_out_of_range _)
    | Raise (OutOfBoundsDatetime _) =>
        exists mo yr i a b,
          pd.assoc "MoSold" (columns T) = Some mo /\
          pd.assoc "YrSold" (columns T) = Some yr /\
          cells mo !! i = Some a /\ cells yr !! i = Some b /\
          ~ (dtype_of mo <> DFloat /\ dtype_of yr <> DFloat /\
             exists m y, a = Num m /\ b = Num y /\ valid_sale m y)
    | Raise _ => False
    end.
Proof.
  intros HT Hp. destruct (transform_run _ _ _ HT) as (w' & _ & R).
  exists w'. unfold transform_frame, and_then in R.
  destruct (stages_frame T) as [T5|e] eqn:E5.
  - pose proof (validate_inv T5 _ eq_refl) as V.
    destruct (result validate_no_nans_stmts T5) as [[]|e].
    + destruct R as (Y & E & _ & F). exists (Ok Y). split; [exact E|].
      now exists T5.
    + exists (Raise e). split; [exact R|]. destruct V as [-> A].
      exists T5. split; [reflexivity|].
      split; [intros id; apply ids_with_na_spec|].
      split; [intros c; apply columns_with_na_spec|].
      destruct (any_isna_true _ A) as (c & Hc).
      apply columns_with_na_spec in Hc. intros N. now rewrite N in Hc.
  - exists (Raise e). split; [exact R|].
    destruct (stages_frame_raises_cause _ _ E5)
      as [(miss & ->)|[(c & s & cats & v & -> & Hc & Hs & Hd & Hn)
                      |((s & [->|[->| ->]]) & mo & yr & i & a & b & H)]].
    + destruct (stages_frame_key_error _ _ E5) as [Hne Hm].
      destruct miss as [|c miss]; [now apply Hne|].
      destruct (Hm c (or_introl eq_refl)) as [He Ha].
      apply Ha, Hp, He.
    + now exists c, s, cats.
    + now exists mo, yr, i, a, b.
    + now exists mo, yr, i, a, b.
    + now exists mo, yr, i, a, b.
Qed.

Lemma transform_complete_or_raises_witness :
  (exists w' T',
     transform 0%nat (Sample.world_of Sample.raw) = (w', Ok 4%nat) /\
     frames w' !! 4%nat = Some T' /\ no_missing T') /\
  (exists w' T5,
     transform 0%nat (Sample.world_of Sample.missing_area)
     = (w', Raise (ValueError_NaNs [2] ["LotArea"])) /\
     stages_frame Sample.missing_area = Ok T5 /\
     affected_row T5 2 /\ affected_column T5 "LotArea").
Proof.
  split.
  - destruct (transform_complete_or_raises 0%nat (Sample.world_of Sample.raw)
                Sample.raw eq_refl) as (w' & r & E & H).
    + intros c Hc. apply has_label_true.
      revert c Hc. apply forallb_forall. vm_compute. reflexivity.
    + assert (R : snd (transform 0%nat (Sample.world_of Sample.raw)) = Ok 4%nat)
        by (vm_compute; reflexivity).
      rewrite E in R. cbn [snd] in R. subst r.
      destruct H as (T' & F & N).
      exists w', T'. split; [exact E|]. split; [exact F | exact N].
  - destruct (transform_complete_or_raises 0%nat
                (Sample.world_of Sample.missing_area)
                Sample.missing_area eq_refl) as (w' & r & E & H).
    + intros c Hc. apply has_label_true.
      revert c Hc. apply forallb_forall. vm_compute. reflexivity.
    + assert (R : snd (transform 0%nat (Sample.world_of Sample.missing_area))
                  = Raise (ValueError_NaNs [2] ["LotArea"]))
        by (vm_compute; reflexivity).
      rewrite E in R. cbn [snd] in R. subst r.
      destruct H as (T5 & S & Hid & Hcol & _).
      exists w', T5. split; [exact E|]. split; [exact S|]. split.
      * apply Hid. now left.
      * apply Hcol. now left.
Defined.
